(** * The STM32 system-call dispatcher of DiscoBSD

    A shallow embedding of [syscall()] from [sys/stm32/syscall.c] and the
    properties of its stack checks, table lookup, argument fetch and
    result encoding.

    Representation.  A [u_int] is a [Z] in the range [0, 2^32); every
    arithmetic operation of the source on [u_int] operands is followed by
    [wrap32].  An [int] is a [Z] in the range [-2^31, 2^31); the
    conversions the source performs implicitly on assignment are written
    [u_int_of_int] and [int_of_u_int].  Bit operations are those of [Z]
    (two's complement), so [~3] is [Z.lnot 3 = -4].

    The counters under [#ifdef UCB_METER] are left out.  The hooks the
    dispatcher calls into the rest of the kernel
    ([arm_intr_enable], [led_control], [psignal], [userret]) are recorded,
    with their arguments, in a trace carried by the state; [panic] ends the
    run.  The handler reached through the table is a function on the whole
    state, so that it may set [u_error], [u_rval], rewrite the trap frame,
    or leave through [longjmp(&u.u_qsave)]. *)

From Stdlib Require Import ZArith Lia Bool String.
From stdpp Require Import base list.

Local Open Scope Z_scope.

(** ** Machine integers *)

Definition wrap32 (x : Z) : Z := x mod 2 ^ 32.

(** [int] to [u_int]: reduction modulo 2^32. *)
Definition u_int_of_int (x : Z) : Z := wrap32 x.

(** [u_int] to [int]: the two's complement reading of the same 32 bits. *)
Definition int_of_u_int (x : Z) : Z := (x + 2 ^ 31) mod 2 ^ 32 - 2 ^ 31.

(** ** Data model *)

(** [struct trapframe], in the order in which [PendSV_Handler] pushes it
    on the kernel stack: the words the hardware saved on the user stack
    ([r0]-[r3], [ip], [lr], [pc], [psr]), with the user stack pointer at
    trap time put in the place of [ip]. *)
Record trapframe : Type := mkTrapframe {
  tf_r0 : Z;
  tf_r1 : Z;
  tf_r2 : Z;
  tf_r3 : Z;
  tf_sp : Z;
  tf_lr : Z;
  tf_pc : Z;
  tf_psr : Z
}.

(** Calls out of the dispatcher, in the order they are made. *)
Inductive event : Type :=
| Ev_arm_intr_enable
| Ev_led_control (on : Z)            (* led_control(LED_KERNEL, on) *)
| Ev_psignal (sig : Z)               (* psignal(u.u_procp, sig) *)
| Ev_userret (pc : Z) (syst : Z).    (* userret(pc, syst) *)

(** The kernel state the dispatcher reads and writes: the fields of [u]
    it uses, the [struct proc] that [u.u_procp] points to, the trap frame
    that [u.u_frame] points to, user memory, and the trace of hook calls. *)
Record kstate : Type := mkKstate {
  u_error : Z;                (* int *)
  u_rval : Z;                 (* int *)
  u_code : Z;                 (* address of the svc instruction *)
  u_arg : list Z;             (* int u_arg[6] *)
  u_dsize : Z;
  u_ssize : Z;
  u_ru_stime : Z;             (* u.u_ru.ru_stime *)
  u_frame : trapframe;        (* *u.u_frame *)
  p_daddr : Z;                (* u.u_procp->p_daddr *)
  p_saddr : Z;
  p_ssize : Z;
  k_mem : Z -> Z;             (* the 32-bit word stored at a byte address *)
  k_trace : list event
}.

(** How a handler hands control back: by returning, or by [longjmp] to
    the checkpoint [u.u_qsave] taken just before it was called. *)
Inductive call_result : Type :=
| Returned (s : kstate)
| Longjmp (s : kstate).

(** [struct sysent]. *)
Record struct_sysent : Type := mkSysent {
  sy_narg : Z;                           (* int *)
  sy_call : kstate -> call_result
}.

(** What the dispatcher takes from headers and from the rest of the
    kernel: none of it is defined in [syscall.c]. *)
Class Machine : Type := {
  INSN_SZ : Z;
  PSR_C : Z;
  SCB_CCR_STKALIGN_Msk : Z;
  USER_DATA_END : Z;
  ERESTART : Z;
  EJUSTRETURN : Z;
  SIGSEGV : Z;
  addr_u : Z;                 (* (unsigned) &u *)
  sizeof_u : Z;               (* sizeof(u) *)
  baduaddr : Z -> bool        (* true when the address is not user memory *)
}.

(** The system-call table and its length. *)
Class SyscallTable : Type := {
  sysent : list struct_sysent;
  nsysent : Z                 (* int *)
}.

(** The table as the kernel builds it: [nsysent] entries, at least one. *)
Definition sysent_ok `{SyscallTable} : Prop :=
  nsysent = Z.of_nat (length sysent) /\ 0 < nsysent.

(** [int u_arg[6]]. *)
Definition u_arg_ok (s : kstate) : Prop := length (u_arg s) = 6%nat.

(** ** Field updates *)

Definition set_tf_r0 (v : Z) (f : trapframe) : trapframe :=
  mkTrapframe v (tf_r1 f) (tf_r2 f) (tf_r3 f) (tf_sp f) (tf_lr f) (tf_pc f)
              (tf_psr f).

Definition set_tf_pc (v : Z) (f : trapframe) : trapframe :=
  mkTrapframe (tf_r0 f) (tf_r1 f) (tf_r2 f) (tf_r3 f) (tf_sp f) (tf_lr f) v
              (tf_psr f).

Definition set_tf_psr (v : Z) (f : trapframe) : trapframe :=
  mkTrapframe (tf_r0 f) (tf_r1 f) (tf_r2 f) (tf_r3 f) (tf_sp f) (tf_lr f)
              (tf_pc f) v.

Definition set_u_error (v : Z) (s : kstate) : kstate :=
  mkKstate v (u_rval s) (u_code s) (u_arg s) (u_dsize s) (u_ssize s)
           (u_ru_stime s) (u_frame s) (p_daddr s) (p_saddr s) (p_ssize s)
           (k_mem s) (k_trace s).

Definition set_u_rval (v : Z) (s : kstate) : kstate :=
  mkKstate (u_error s) v (u_code s) (u_arg s) (u_dsize s) (u_ssize s)
           (u_ru_stime s) (u_frame s) (p_daddr s) (p_saddr s) (p_ssize s)
           (k_mem s) (k_trace s).

Definition set_u_code (v : Z) (s : kstate) : kstate :=
  mkKstate (u_error s) (u_rval s) v (u_arg s) (u_dsize s) (u_ssize s)
           (u_ru_stime s) (u_frame s) (p_daddr s) (p_saddr s) (p_ssize s)
           (k_mem s) (k_trace s).

Definition set_u_arg (v : list Z) (s : kstate) : kstate :=
  mkKstate (u_error s) (u_rval s) (u_code s) v (u_dsize s) (u_ssize s)
           (u_ru_stime s) (u_frame s) (p_daddr s) (p_saddr s) (p_ssize s)
           (k_mem s) (k_trace s).

Definition set_u_ssize (v : Z) (s : kstate) : kstate :=
  mkKstate (u_error s) (u_rval s) (u_code s) (u_arg s) (u_dsize s) v
           (u_ru_stime s) (u_frame s) (p_daddr s) (p_saddr s) (p_ssize s)
           (k_mem s) (k_trace s).

Definition set_u_frame (v : trapframe) (s : kstate) : kstate :=
  mkKstate (u_error s) (u_rval s) (u_code s) (u_arg s) (u_dsize s) (u_ssize s)
           (u_ru_stime s) v (p_daddr s) (p_saddr s) (p_ssize s)
           (k_mem s) (k_trace s).

Definition set_p_saddr (v : Z) (s : kstate) : kstate :=
  mkKstate (u_error s) (u_rval s) (u_code s) (u_arg s) (u_dsize s) (u_ssize s)
           (u_ru_stime s) (u_frame s) (p_daddr s) v (p_ssize s)
           (k_mem s) (k_trace s).

Definition set_p_ssize (v : Z) (s : kstate) : kstate :=
  mkKstate (u_error s) (u_rval s) (u_code s) (u_arg s) (u_dsize s) (u_ssize s)
           (u_ru_stime s) (u_frame s) (p_daddr s) (p_saddr s) v
           (k_mem s) (k_trace s).

Definition set_k_mem (v : Z -> Z) (s : kstate) : kstate :=
  mkKstate (u_error s) (u_rval s) (u_code s) (u_arg s) (u_dsize s) (u_ssize s)
           (u_ru_stime s) (u_frame s) (p_daddr s) (p_saddr s) (p_ssize s)
           v (k_trace s).

(** A hook is called: its event goes to the end of the trace. *)
Definition emit (e : event) (s : kstate) : kstate :=
  mkKstate (u_error s) (u_rval s) (u_code s) (u_arg s) (u_dsize s) (u_ssize s)
           (u_ru_stime s) (u_frame s) (p_daddr s) (p_saddr s) (p_ssize s)
           (k_mem s) (k_trace s ++ [e]).

(** [*(u_int * )addr]. *)
Definition load32 (s : kstate) (addr : Z) : Z := wrap32 (k_mem s addr).

(** ** The dispatcher, [syscall(struct trapframe *frame)] *)

(** How a run of [syscall] ends. [Overrun] is a read of [sysent] outside
    its [length sysent] entries, which the source does not define. *)
Inductive outcome : Type :=
| Panic (msg : string)
| Overrun
| Return (s : kstate).

Section Dispatcher.
Context `{M : Machine} `{T : SyscallTable}.

(** [(unsigned) &u + sizeof(u)]. *)
Definition kstack_limit : Z := wrap32 (addr_u + sizeof_u).

(** [(unsigned) frame < (unsigned) &u + sizeof(u)]. *)
Definition stack_overflow (frame : Z) : bool := frame <? kstack_limit.

(** [u.u_procp->p_daddr + u.u_dsize]. *)
Definition data_end (s : kstate) : Z := wrap32 (p_daddr s + u_dsize s).

(** [if (u.u_procp->p_ssize < USER_DATA_END - sp) { ... }]. *)
Definition expand_stack (sp : Z) (s : kstate) : kstate :=
  if p_ssize s <? wrap32 (USER_DATA_END - sp) then
    let s := set_p_ssize (wrap32 (USER_DATA_END - sp)) s in
    let s := set_p_saddr sp s in
    set_u_ssize (p_ssize s) s
  else s.

(** [code = *(int * )u.u_code & 0377]. *)
Definition svc_code (s : kstate) : Z :=
  Z.land (int_of_u_int (load32 s (u_code s))) 255.

(** [callp = &sysent[0]; if (code < nsysent) callp += code;]
    as the index [callp - sysent]. *)
Definition callp_index (code : Z) : Z :=
  if code <? nsysent then code else 0.

(** Reading [*callp]. *)
Definition sysent_at (i : Z) : option struct_sysent :=
  if i <? 0 then None else sysent !! Z.to_nat i.

(** [stkalign]: 4 when the frame's status register has the padding bit. *)
Definition stkalign (f : trapframe) : Z :=
  if Z.land (tf_psr f) SCB_CCR_STKALIGN_Msk =? 0 then 0 else 4.

(** [(u.u_frame->tf_sp + off + stkalign) & ~3]. *)
Definition stack_arg_addr (off : Z) (f : trapframe) : Z :=
  Z.land (wrap32 (tf_sp f + off + stkalign f)) (Z.lnot 3).

(** [if (! baduaddr((caddr_t)addr)) u.u_arg[i] = *(u_int * )addr;]. *)
Definition fetch_stack_arg (i : nat) (off : Z) (s : kstate) : kstate :=
  let addr := stack_arg_addr off (u_frame s) in
  if baduaddr addr then s
  else set_u_arg (<[i := int_of_u_int (load32 s addr)]> (u_arg s)) s.

(** [if (callp->sy_narg) { ... }]. *)
Definition fetch_args (callp : struct_sysent) (s : kstate) : kstate :=
  if sy_narg callp =? 0 then s
  else
    let s := set_u_arg (<[0%nat := int_of_u_int (tf_r0 (u_frame s))]> (u_arg s)) s in
    let s := set_u_arg (<[1%nat := int_of_u_int (tf_r1 (u_frame s))]> (u_arg s)) s in
    let s := set_u_arg (<[2%nat := int_of_u_int (tf_r2 (u_frame s))]> (u_arg s)) s in
    let s := set_u_arg (<[3%nat := int_of_u_int (tf_r3 (u_frame s))]> (u_arg s)) s in
    let s := if 4 <? sy_narg callp then fetch_stack_arg 4 32 s else s in
    let s := if 5 <? sy_narg callp then fetch_stack_arg 5 36 s else s in
    s.

(** [if (setjmp(&u.u_qsave) == 0) { ( *callp->sy_call)(); }]: whether the
    handler returns or jumps back to the checkpoint, execution goes on
    after the [if] with the state the handler left. *)
Definition setjmp_call (callp : struct_sysent) (s : kstate) : kstate :=
  match sy_call callp s with
  | Returned s' => s'
  | Longjmp s' => s'
  end.

(** [switch (u.u_error) { ... }]. *)
Definition encode_result (s : kstate) : kstate :=
  if u_error s =? 0 then
    let s := set_u_frame
               (set_tf_psr (Z.land (tf_psr (u_frame s)) (Z.lnot PSR_C))
                           (u_frame s)) s in
    set_u_frame (set_tf_r0 (u_int_of_int (u_rval s)) (u_frame s)) s
  else if u_error s =? ERESTART then
    set_u_frame (set_tf_pc (wrap32 (tf_pc (u_frame s) - INSN_SZ))
                           (u_frame s)) s
  else if u_error s =? EJUSTRETURN then
    s
  else
    let s := set_u_frame
               (set_tf_psr (Z.lor (tf_psr (u_frame s)) PSR_C)
                           (u_frame s)) s in
    set_u_frame (set_tf_r0 (u_int_of_int (u_error s)) (u_frame s)) s.

(** The state in which the handler of [callp] is entered: arguments
    fetched, [u.u_rval = 0]. *)
Definition call_state (callp : struct_sysent) (s : kstate) : kstate :=
  set_u_rval 0 (fetch_args callp s).

(** Where the part of [syscall] before the handler call leads. *)
Inductive decoded : Type :=
| Bad (psig : Z) (s : kstate)                 (* goto bad *)
| NoEntry                                     (* [callp] is outside [sysent] *)
| Call (callp : struct_sysent) (s : kstate).  (* the handler is called in [s] *)

(** The table lookup and the argument fetch, for a decoded [code]. *)
Definition select (code : Z) (s : kstate) : decoded :=
  match sysent_at (callp_index code) with
  | None => NoEntry
  | Some callp => Call callp (call_state callp s)
  end.

(** The state at the stack check: interrupts on, [u_error], [u_frame]
    and [u_code] set. *)
Definition syscall_enter (tf : trapframe) (s : kstate) : kstate :=
  let s := emit Ev_arm_intr_enable s in
  let s := set_u_error 0 s in
  let s := set_u_frame tf s in
  let s := set_u_code (wrap32 (tf_pc (u_frame s) - INSN_SZ)) s in
  emit (Ev_led_control 1) s.

(** From the entry bookkeeping to the handler call. *)
Definition decode (tf : trapframe) (s : kstate) : decoded :=
  let s := syscall_enter tf s in
  let sp := tf_sp (u_frame s) in
  if sp <? data_end s then Bad SIGSEGV s
  else
    let s := expand_stack sp s in
    select (svc_code s) s.

(** [out:]. *)
Definition syscall_out (syst : Z) (s : kstate) : kstate :=
  let s := emit (Ev_userret (tf_pc (u_frame s)) syst) s in
  emit (Ev_led_control 0) s.

(** [bad:]. *)
Definition syscall_bad (psig syst : Z) (s : kstate) : kstate :=
  syscall_out syst (emit (Ev_psignal psig) s).

(** [syscall(frame)], where [frame] is the address of the trap frame on
    the kernel stack and [tf] the frame stored there. *)
Definition syscall (frame : Z) (tf : trapframe) (s : kstate) : outcome :=
  let syst := u_ru_stime s in
  if stack_overflow frame then Panic "stack overflow"
  else
    match decode tf s with
    | Bad psig s => Return (syscall_bad psig syst s)
    | NoEntry => Overrun
    | Call callp s =>
        Return (syscall_out syst (encode_result (setjmp_call callp s)))
    end.

End Dispatcher.


(** ** A board and a small table, on which the dispatcher is evaluated *)

Module Demo.

(** An STM32F4 with 128 KiB of SRAM at 0x20000000; user memory is the
    SRAM above the first 16 KiB. *)
Definition machine : Machine := {|
  INSN_SZ := 2;
  PSR_C := 0x20000000;
  SCB_CCR_STKALIGN_Msk := 0x200;
  USER_DATA_END := 0x20020000;
  ERESTART := -1;
  EJUSTRETURN := -2;
  SIGSEGV := 11;
  addr_u := 0x20000000;
  sizeof_u := 0x400;
  baduaddr := fun a => negb ((0x20004000 <=? a) && (a + 4 <=? 0x20020000))
|}.

(** Fails with errno 78. *)
Definition nosys (s : kstate) : call_result := Returned (set_u_error 78 s).

(** Succeeds with value 7. *)
Definition seven (s : kstate) : call_result := Returned (set_u_rval 7 s).

(** Succeeds with its fifth argument as value. *)
Definition fifth (s : kstate) : call_result :=
  Returned (set_u_rval (default 0 (u_arg s !! 4%nat)) s).

(** Interrupted by a signal: leaves through the checkpoint, asking for a
    restart. *)
Definition interrupted (s : kstate) : call_result :=
  Longjmp (set_u_error (-1) s).

(** Installs a frame of its own and asks that it be left alone. *)
Definition sigreturn (s : kstate) : call_result :=
  Returned (set_u_error (-2)
              (set_u_frame (mkTrapframe 10 11 12 13 0x2001ff80 14 0x08000200 0) s)).

Definition table : SyscallTable := {|
  sysent := [ mkSysent 0 nosys; mkSysent 3 seven; mkSysent 6 fifth;
              mkSysent 1 interrupted; mkSysent 1 sigreturn ];
  nsysent := 5
|}.

(** A frame trapped at the [svc] instruction stored at 0x08000100. *)
Definition frame (psr sp : Z) : trapframe :=
  mkTrapframe 1 2 3 4 sp 0x08000055 0x08000102 psr.

(** The same, without and with the padding bit (bit 9) in the status
    register. *)
Definition plain (sp : Z) : trapframe := frame 0x01000000 sp.
Definition padded (sp : Z) : trapframe := frame 0x01000200 sp.

(** Where the frame lies on the kernel stack: right above [u]. *)
Definition kframe : Z := 0x20000400.

(** A process with data at 0x20004000..0x20006000 and 256 bytes of
    recorded stack; [insn] is the word at the trapping instruction and
    [w] the word at 0x2001ff20. *)
Definition state (insn w : Z) : kstate := {|
  u_error := 5;
  u_rval := 99;
  u_code := 0;
  u_arg := [0; 0; 0; 0; 170; 187];
  u_dsize := 0x2000;
  u_ssize := 0x100;
  u_ru_stime := 42;
  u_frame := mkTrapframe 0 0 0 0 0 0 0 0;
  p_daddr := 0x20004000;
  p_saddr := 0x2001ff00;
  p_ssize := 0x100;
  k_mem := fun a => if a =? 0x08000100 then insn
                    else if a =? 0x2001ff20 then w else 0;
  k_trace := []
|}.

End Demo.

(** ** The trampoline, [PendSV_Handler] *)

(** The handler runs in handler mode, on [MSP].  Its instructions act on
    the core registers and on memory, and memory is one address space:
    the kernel stack that [push] and [pop] reach through [MSP], the words
    the hardware saved at [PSP], the frame [syscall] reaches through its
    argument and the words [syscall] itself reads are all in [k_mem] of
    the kernel state.  No address is refused by the bus. *)
Record cpu : Type := mkCpu {
  gpr : nat -> Z;             (* r0 .. r12 *)
  LR : Z;
  MSP : Z;
  PSP : Z;
  PRIMASK : Z;
  kern : kstate
}.

(** What compiled C code leaves in the registers it need not preserve
    under the AAPCS ([r0]-[r3], [ip], [lr]), in the special registers it
    may write, and in the bytes of the stack below its caller's stack
    pointer, which are its own to use. *)
Record clobbered : Type := mkClobbered {
  c_r0 : Z;
  c_r1 : Z;
  c_r2 : Z;
  c_r3 : Z;
  c_ip : Z;
  c_lr : Z;
  c_psp : Z;
  c_primask : Z;
  c_stack : Z -> Z
}.

(** How a run of the trampoline ends: the machine halted in [panic], the
    run left what the source defines, a multiple load or store was made
    at an address that is not a multiple of four (the processor raises a
    fault instead of making it), or the handler reached its end and the
    exception return follows. *)
Inductive resumption : Type :=
| Halted (msg : string)
| Undefined
| Faulted
| Resumed (c : cpu).

Definition and_then (r : resumption) (k : cpu -> resumption) : resumption :=
  match r with
  | Halted msg => Halted msg
  | Undefined => Undefined
  | Faulted => Faulted
  | Resumed c => k c
  end.

Notation "r >>= k" := (and_then r k) (at level 50, left associativity).

(** Byte [k] of a word. *)
Definition byte_of (w k : Z) : Z := (w / 2 ^ (8 * k)) mod 256.

(** Whether the words at addresses [a] and [x] share a byte. *)
Definition near (a x : Z) : bool :=
  (wrap32 (x - a) <? 4) || (2 ^ 32 - 4 <? wrap32 (x - a)).

(** Memory after a little-endian store of the word [v] at [a]: the word
    read at [a] is [v]; a word read up to three bytes off takes its bytes
    inside the stored word from [v] and the others from the bytes that
    were there (the byte at an address is the low byte of the word read
    there); words further off are as they were. *)
Definition store32 (m : Z -> Z) (a v : Z) : Z -> Z :=
  fun x =>
    if near a x then
      let b := fun k =>
        if wrap32 (x + k - a) <? 4 then byte_of v (wrap32 (x + k - a))
        else byte_of (m (wrap32 (x + k))) 0 in
      b 0 + 2 ^ 8 * b 1 + 2 ^ 16 * b 2 + 2 ^ 24 * b 3
    else m x.

(** Consecutive words stored from [a] upwards, lowest first. *)
Fixpoint store_words (m : Z -> Z) (a : Z) (ws : list Z) : Z -> Z :=
  match ws with
  | [] => m
  | w :: ws' => store_words (store32 m a w) (wrap32 (a + 4)) ws'
  end.

(** Consecutive words read from [a] upwards. *)
Fixpoint load_words (s : kstate) (a : Z) (n : nat) : list Z :=
  match n with
  | O => []
  | S n' => load32 s a :: load_words s (wrap32 (a + 4)) n'
  end.

(** Memory after a callee has used the stack below [sp]: a byte below
    [sp] is what the callee left there, [junk]; the others are as in
    [m]. *)
Definition below (sp y : Z) : bool := y <? sp.

Definition scribble (sp : Z) (junk : Z -> Z) (m : Z -> Z) : Z -> Z :=
  fun x =>
    if below sp (wrap32 x) || below sp (wrap32 (x + 1))
       || below sp (wrap32 (x + 2)) || below sp (wrap32 (x + 3)) then
      let b := fun k =>
        if below sp (wrap32 (x + k)) then junk (wrap32 (x + k)) mod 256
        else byte_of (m (wrap32 (x + k))) 0 in
      b 0 + 2 ^ 8 * b 1 + 2 ^ 16 * b 2 + 2 ^ 24 * b 3
    else m x.

Definition set_reg (i : nat) (v : Z) (g : nat -> Z) : nat -> Z :=
  fun j => if Nat.eqb j i then v else g j.

(** Registers of a list set from a list of values, in order. *)
Fixpoint set_regs (rs : list nat) (vs : list Z) (g : nat -> Z) : nat -> Z :=
  match rs, vs with
  | r :: rs', v :: vs' => set_regs rs' vs' (set_reg r v g)
  | _, _ => g
  end.

Definition set_gpr (g : nat -> Z) (c : cpu) : cpu :=
  mkCpu g (LR c) (MSP c) (PSP c) (PRIMASK c) (kern c).

Definition set_kern (s : kstate) (c : cpu) : cpu :=
  mkCpu (gpr c) (LR c) (MSP c) (PSP c) (PRIMASK c) s.

Definition set_MSP (v : Z) (c : cpu) : cpu :=
  mkCpu (gpr c) (LR c) v (PSP c) (PRIMASK c) (kern c).

(** The words of a frame, lowest address first. *)
Definition frame_words (f : trapframe) : list Z :=
  [tf_r0 f; tf_r1 f; tf_r2 f; tf_r3 f; tf_sp f; tf_lr f; tf_pc f; tf_psr f].

(** [*frame], for a [struct trapframe *frame]. *)
Definition read_frame (s : kstate) (frame : Z) : trapframe :=
  mkTrapframe (load32 s frame)
              (load32 s (wrap32 (frame + 4)))
              (load32 s (wrap32 (frame + 8)))
              (load32 s (wrap32 (frame + 12)))
              (load32 s (wrap32 (frame + 16)))
              (load32 s (wrap32 (frame + 20)))
              (load32 s (wrap32 (frame + 24)))
              (load32 s (wrap32 (frame + 28))).

(** Whether an address is a multiple of four. *)
Definition aligned (a : Z) : bool := a mod 4 =? 0.

(** [cpsid i]. *)
Definition cpsid_i (c : cpu) : cpu :=
  mkCpu (gpr c) (LR c) (MSP c) (PSP c) 1 (kern c).

(** [push {rs}]: the registers are stored below [MSP], the lowest
    register at the lowest address, which is the new [MSP]. *)
Definition push (rs : list nat) (c : cpu) : resumption :=
  let a := wrap32 (MSP c - 4 * Z.of_nat (length rs)) in
  if aligned a then
    Resumed
      (set_MSP a
         (set_kern
            (set_k_mem (store_words (k_mem (kern c)) a (map (gpr c) rs))
                       (kern c)) c))
  else Faulted.

(** [pop {rs}]: the registers are loaded from [MSP] upwards, and [MSP]
    moves above them. *)
Definition pop (rs : list nat) (c : cpu) : resumption :=
  if aligned (MSP c) then
    Resumed
      (set_MSP (wrap32 (MSP c + 4 * Z.of_nat (length rs)))
         (set_gpr (set_regs rs (load_words (kern c) (MSP c) (length rs))
                            (gpr c)) c))
  else Faulted.

(** [mrs rd, PSP], [mrs rd, MSP], [mov rd, rn]. *)
Definition mrs_PSP (rd : nat) (c : cpu) : cpu :=
  set_gpr (set_reg rd (PSP c) (gpr c)) c.

Definition mrs_MSP (rd : nat) (c : cpu) : cpu :=
  set_gpr (set_reg rd (MSP c) (gpr c)) c.

Definition mov (rd rn : nat) (c : cpu) : cpu :=
  set_gpr (set_reg rd (gpr c rn) (gpr c)) c.

(** [msr PSP, rn]: the two low bits of a stack pointer are not written. *)
Definition msr_PSP (rn : nat) (c : cpu) : cpu :=
  mkCpu (gpr c) (LR c) (MSP c) (Z.land (gpr c rn) (Z.lnot 3)) (PRIMASK c)
        (kern c).

(** [mov lr, #imm]. *)
Definition mov_lr (imm : Z) (c : cpu) : cpu :=
  mkCpu (gpr c) imm (MSP c) (PSP c) (PRIMASK c) (kern c).

(** [ldmfd rn, {rs}]: the registers are loaded from the address in [rn]
    upwards; [rn] keeps its value. *)
Definition ldmfd (rn : nat) (rs : list nat) (c : cpu) : resumption :=
  if aligned (gpr c rn) then
    Resumed
      (set_gpr (set_regs rs (load_words (kern c) (gpr c rn) (length rs))
                         (gpr c)) c)
  else Faulted.

(** [stmia rn, {rs}]: the registers are stored from the address in [rn]
    upwards; [rn] keeps its value. *)
Definition stmia (rn : nat) (rs : list nat) (c : cpu) : resumption :=
  if aligned (gpr c rn) then
    Resumed
      (set_kern
         (set_k_mem (store_words (k_mem (kern c)) (gpr c rn) (map (gpr c) rs))
                    (kern c)) c)
  else Faulted.

Section Trampoline.
Context `{M : Machine} `{T : SyscallTable}.

(** What [syscall] leaves behind that C does not define, from the state
    it returns in. *)
Variable scratch : kstate -> clobbered.

(** The call [syscall(frame)] with [frame] in [r0]: the frame is read
    through the pointer, in the memory as it is at the call. *)
Definition trap_call (c : cpu) : outcome :=
  syscall (gpr c 0%nat) (read_frame (kern c) (gpr c 0%nat)) (kern c).

(** [bl syscall].  [syscall] is compiled C: it keeps [r4]-[r11] and
    [MSP]; the frame it has worked on, [u_frame] of the state it returns
    in, is in memory where its argument points; and the stack below [MSP]
    is its own. *)
Definition bl_syscall (c : cpu) : resumption :=
  match trap_call c with
  | Panic msg => Halted msg
  | Overrun => Undefined
  | Return sf =>
      let k := scratch sf in
      Resumed
        (mkCpu (set_regs [0; 1; 2; 3; 12]%nat
                         [c_r0 k; c_r1 k; c_r2 k; c_r3 k; c_ip k] (gpr c))
               (c_lr k) (MSP c) (c_psp k) (c_primask k)
               (set_k_mem
                  (scribble (MSP c) (c_stack k)
                     (store_words (k_mem sf) (gpr c 0%nat)
                                  (frame_words (u_frame sf))))
                  sf))
  end.

(** The instructions before [bl syscall]. *)
Definition PendSV_entry (c : cpu) : resumption :=
  let c := cpsid_i c in
  push [4; 5; 6; 7; 8; 9; 10; 11]%nat c >>= fun c =>
  let c := mrs_PSP 1 c in
  ldmfd 1 [2; 3; 4; 5; 6; 7; 8; 9]%nat c >>= fun c =>
  let c := mov 6 1 c in
  push [2; 3; 4; 5; 6; 7; 8; 9]%nat c >>= fun c =>
  Resumed (mrs_MSP 0 c).

(** The instructions after [bl syscall]. *)
Definition PendSV_exit (c : cpu) : resumption :=
  pop [2; 3; 4; 5; 6; 7; 8; 9]%nat c >>= fun c =>
  let c := mov 1 6 c in
  stmia 1 [2; 3; 4; 5; 6; 7; 8; 9]%nat c >>= fun c =>
  let c := msr_PSP 1 c in
  pop [4; 5; 6; 7; 8; 9; 10; 11]%nat c >>= fun c =>
  Resumed (mov_lr 0xFFFFFFFD c).

(** [PendSV_Handler()]. *)
Definition PendSV_Handler (c : cpu) : resumption :=
  PendSV_entry c >>= fun c =>
  bl_syscall c >>= fun c =>
  PendSV_exit c.

End Trampoline.

(** The processor when the handler calls [syscall]. *)
Definition at_call (c : cpu) : cpu :=
  match PendSV_entry c with
  | Resumed c1 => c1
  | _ => c
  end.

(** The kernel state after the first instruction that writes memory,
    [push {r4-r11}]. *)
Definition pushed (c : cpu) : kstate :=
  match push [4; 5; 6; 7; 8; 9; 10; 11]%nat (cpsid_i c) with
  | Resumed c1 => kern c1
  | _ => kern c
  end.

(** The frame made of the eight words at [psp], with [psp] itself in the
    place of the fifth, the saved [ip]. *)
Definition captured_frame (s : kstate) (psp : Z) : trapframe :=
  mkTrapframe (load32 s psp)
              (load32 s (wrap32 (psp + 4)))
              (load32 s (wrap32 (psp + 8)))
              (load32 s (wrap32 (psp + 12)))
              psp
              (load32 s (wrap32 (psp + 20)))
              (load32 s (wrap32 (psp + 24)))
              (load32 s (wrap32 (psp + 28))).

(** What the hardware guarantees of the two stack pointers at the entry
    of the handler, with room for sixteen words below [MSP]. *)
Definition entry_ok (c : cpu) : Prop :=
  MSP c mod 4 = 0 /\ 64 <= MSP c < 2 ^ 32 /\
  PSP c mod 4 = 0 /\ 0 <= PSP c /\ PSP c + 32 <= 2 ^ 32.

(** Two blocks of eight words, each within the address space, that share
    no byte. *)
Definition apart (a b : Z) : Prop :=
  0 <= a /\ a + 32 <= 2 ^ 32 /\ 0 <= b /\ b + 32 <= 2 ^ 32 /\
  (a + 32 <= b \/ b + 32 <= a).

(** A value that fits a [u_int], and a frame of such values. *)
Definition u_int_ok (x : Z) : Prop := 0 <= x < 2 ^ 32.

Definition frame_ok (f : trapframe) : Prop :=
  u_int_ok (tf_r0 f) /\ u_int_ok (tf_r1 f) /\ u_int_ok (tf_r2 f) /\
  u_int_ok (tf_r3 f) /\ u_int_ok (tf_sp f) /\ u_int_ok (tf_lr f) /\
  u_int_ok (tf_pc f) /\ u_int_ok (tf_psr f).

(** ** A processor state on which the trampoline is evaluated *)

Module DemoCpu.

(** What [syscall] leaves in the scratch registers, and 0xaa in every
    byte of the stack below it. *)
Definition scratch (s : kstate) : clobbered :=
  mkClobbered 0xdead 0xbeef 3 4 5 6 7 0 (fun _ => 0xaa).

(** Memory with the words the hardware saved at 0x2001ff00 on the
    [svc] stored at 0x08000100. *)
Definition memory (insn : Z) : Z -> Z :=
  fun a =>
    if a =? 0x08000100 then insn
    else if a =? 0x2001ff00 then 1
    else if a =? 0x2001ff04 then 2
    else if a =? 0x2001ff08 then 3
    else if a =? 0x2001ff0c then 4
    else if a =? 0x2001ff10 then 0x99
    else if a =? 0x2001ff14 then 0x08000055
    else if a =? 0x2001ff18 then 0x08000102
    else if a =? 0x2001ff1c then 0x01000000
    else 0.

(** Handler mode at the entry of [PendSV_Handler]: [r4]-[r11] hold
    104 .. 111, and [MSP] is sixteen words above the end of [u]. *)
Definition entry (insn : Z) : cpu := {|
  gpr := fun i => 100 + Z.of_nat i;
  LR := 0xfffffffd;
  MSP := 0x20000440;
  PSP := 0x2001ff00;
  PRIMASK := 0;
  kern := set_k_mem (memory insn) (Demo.state insn 0)
|}.

(** The same with [PSP] in the data segment of the process. *)
Definition faulting : cpu :=
  mkCpu (gpr (entry 0)) (LR (entry 0)) (MSP (entry 0)) 0x20005f00
        (PRIMASK (entry 0)) (kern (entry 0)).

(** The same with [PSP] on the kernel stack, eight words below [MSP]. *)
Definition aliased : cpu :=
  mkCpu (gpr (entry 0)) (LR (entry 0)) (MSP (entry 0)) 0x20000420
        (PRIMASK (entry 0)) (kern (entry 0)).

(** The memory of [Demo.state 0xdf02 77] with another word at
    0x20010000. *)
Definition patched : Z -> Z :=
  fun a => if a =? 0x20010000 then 5 else k_mem (Demo.state 0xdf02 77) a.

(** A handler that does nothing, and a table of it alone. *)
Definition idle (s : kstate) : call_result := Returned s.

Definition idle_table : SyscallTable := {|
  sysent := [ mkSysent 0 idle ];
  nsysent := 1
|}.

End DemoCpu.

(** ** Properties *)

(** *** Machine integers *)

Lemma wrap32_range (x : Z) : 0 <= wrap32 x < 2 ^ 32.
Proof. unfold wrap32. apply Z.mod_pos_bound. lia. Qed.

Lemma wrap32_small (x : Z) : 0 <= x < 2 ^ 32 -> wrap32 x = x.
Proof. intros Hx. unfold wrap32. apply Z.mod_small. exact Hx. Qed.

Lemma wrap32_wrap32_add (x k : Z) : wrap32 (wrap32 x + k) = wrap32 (x + k).
Proof. unfold wrap32. apply Zplus_mod_idemp_l. Qed.

(** Masking with [~3] rounds down to a multiple of four. *)
Lemma land_lnot_3 (y : Z) : Z.land y (Z.lnot 3) = 4 * (y / 4).
Proof.
  rewrite <- Z.ldiff_land.
  change 3 with (Z.ones 2).
  rewrite Z.ldiff_ones_r by lia.
  rewrite Z.shiftr_div_pow2, Z.shiftl_mul_pow2 by lia.
  change (2 ^ 2) with 4. lia.
Qed.

(** Clearing the bits of a mask leaves none of them; setting them leaves
    all of them. *)
Lemma land_clear_mask (x m : Z) : Z.land (Z.land x (Z.lnot m)) m = 0.
Proof.
  rewrite <- Z.land_assoc, (Z.land_comm (Z.lnot m) m), Z.land_lnot_diag.
  apply Z.land_0_r.
Qed.

Lemma land_set_mask (x m : Z) : Z.land (Z.lor x m) m = m.
Proof.
  apply Z.bits_inj'. intros n _.
  rewrite Z.land_spec, Z.lor_spec.
  destruct (Z.testbit x n), (Z.testbit m n); reflexivity.
Qed.

Section Properties.
Context `{M : Machine} `{T : SyscallTable}.

(** *** The code read from the trapping instruction *)

Lemma svc_code_range (s : kstate) : 0 <= svc_code s <= 255.
Proof.
  unfold svc_code. change 255 with (Z.ones 8) at 1 2.
  rewrite Z.land_ones by lia.
  pose proof (Z.mod_pos_bound (int_of_u_int (load32 s (u_code s))) (2 ^ 8)).
  change (Z.ones 8) with 255. change (2 ^ 8) with 256 in *. lia.
Qed.

(** *** What the argument fetch leaves alone *)

Lemma fetch_stack_arg_args_only (i : nat) (off : Z) (s : kstate) :
  fetch_stack_arg i off s = set_u_arg (u_arg (fetch_stack_arg i off s)) s.
Proof.
  unfold fetch_stack_arg. destruct s; simpl.
  destruct (baduaddr _); reflexivity.
Qed.

Lemma fetch_args_args_only (callp : struct_sysent) (s : kstate) :
  fetch_args callp s = set_u_arg (u_arg (fetch_args callp s)) s.
Proof.
  unfold fetch_args, fetch_stack_arg. destruct s; simpl.
  destruct (sy_narg callp =? 0); [reflexivity|].
  destruct (4 <? sy_narg callp), (5 <? sy_narg callp); simpl;
    repeat (destruct (baduaddr _); simpl); reflexivity.
Qed.

Lemma fetch_args_frame (callp : struct_sysent) (s : kstate) :
  u_frame (fetch_args callp s) = u_frame s.
Proof. rewrite fetch_args_args_only. reflexivity. Qed.

Lemma expand_stack_frame (sp : Z) (s : kstate) :
  u_frame (expand_stack sp s) = u_frame s.
Proof. unfold expand_stack. destruct (_ <? _); reflexivity. Qed.

Lemma expand_stack_args (sp : Z) (s : kstate) :
  u_arg (expand_stack sp s) = u_arg s.
Proof. unfold expand_stack. destruct (_ <? _); reflexivity. Qed.

Lemma expand_stack_error (sp : Z) (s : kstate) :
  u_error (expand_stack sp s) = u_error s.
Proof. unfold expand_stack. destruct (_ <? _); reflexivity. Qed.

Lemma expand_stack_trace (sp : Z) (s : kstate) :
  k_trace (expand_stack sp s) = k_trace s.
Proof. unfold expand_stack. destruct (_ <? _); reflexivity. Qed.

Lemma expand_stack_mem (sp : Z) (s : kstate) :
  k_mem (expand_stack sp s) = k_mem s.
Proof. unfold expand_stack. destruct (_ <? _); reflexivity. Qed.

(** *** The table lookup *)

Lemma callp_index_range (code : Z) :
  sysent_ok -> 0 <= code -> 0 <= callp_index code < Z.of_nat (length sysent).
Proof.
  intros [Hlen Hpos] Hcode. unfold callp_index.
  destruct (Z.ltb_spec code nsysent); lia.
Qed.

Lemma sysent_at_in_range (i : Z) :
  0 <= i < Z.of_nat (length sysent) -> is_Some (sysent_at i).
Proof.
  intros Hi. unfold sysent_at.
  destruct (Z.ltb_spec i 0); [lia|].
  apply lookup_lt_is_Some. lia.
Qed.

Lemma select_in_table (code : Z) (s : kstate) :
  sysent_ok -> 0 <= code ->
  exists callp, sysent_at (callp_index code) = Some callp /\
                select code s = Call callp (call_state callp s).
Proof.
  intros Hok Hcode.
  destruct (sysent_at_in_range _ (callp_index_range code Hok Hcode)) as [callp Hc].
  exists callp. split; [exact Hc|]. unfold select. rewrite Hc. reflexivity.
Qed.

(** *** The path to the handler *)

(** Every trap that passes the two stack checks reaches a handler. *)
Lemma decode_call (tf : trapframe) (s : kstate) :
  sysent_ok -> data_end s <= tf_sp tf ->
  exists callp,
    decode tf s =
      Call callp (call_state callp (expand_stack (tf_sp tf) (syscall_enter tf s))).
Proof.
  intros Hok Hsp. unfold decode.
  change (tf_sp (u_frame (syscall_enter tf s))) with (tf_sp tf).
  change (data_end (syscall_enter tf s)) with (data_end s).
  destruct (Z.ltb_spec (tf_sp tf) (data_end s)); [lia|].
  destruct (select_in_table
              (svc_code (expand_stack (tf_sp tf) (syscall_enter tf s)))
              (expand_stack (tf_sp tf) (syscall_enter tf s)) Hok)
    as [callp [_ Hsel]].
  - apply svc_code_range.
  - exists callp. exact Hsel.
Qed.

(** The shape of every state in which a handler is entered. *)
Lemma decode_call_inv (tf : trapframe) (s : kstate) (callp : struct_sysent)
      (s1 : kstate) :
  decode tf s = Call callp s1 ->
  data_end s <= tf_sp tf /\
  s1 = call_state callp (expand_stack (tf_sp tf) (syscall_enter tf s)).
Proof.
  unfold decode.
  change (tf_sp (u_frame (syscall_enter tf s))) with (tf_sp tf).
  change (data_end (syscall_enter tf s)) with (data_end s).
  destruct (Z.ltb_spec (tf_sp tf) (data_end s)); [discriminate|].
  unfold select. destruct (sysent_at _) as [c|]; [|discriminate].
  intros H'. injection H' as <- <-. split; [lia|reflexivity].
Qed.

(** The handler called is the one the decoded code selects. *)
Lemma decode_call_entry (tf : trapframe) (s : kstate) (callp : struct_sysent)
      (s1 : kstate) :
  decode tf s = Call callp s1 ->
  sysent_at
    (callp_index (svc_code (expand_stack (tf_sp tf) (syscall_enter tf s))))
  = Some callp.
Proof.
  unfold decode.
  change (tf_sp (u_frame (syscall_enter tf s))) with (tf_sp tf).
  destruct (_ <? _); [discriminate|].
  unfold select. destruct (sysent_at _) as [c|]; [|discriminate].
  intros H'. injection H' as <- _. reflexivity.
Qed.

(** The handler is entered with the trap frame as it was passed in. *)
Lemma decode_call_frame (tf : trapframe) (s : kstate) (callp : struct_sysent)
      (s1 : kstate) :
  decode tf s = Call callp s1 -> u_frame s1 = tf.
Proof.
  intros Hd. apply decode_call_inv in Hd as [_ ->].
  unfold call_state. simpl. rewrite fetch_args_frame, expand_stack_frame.
  reflexivity.
Qed.

Lemma syscall_call (frame : Z) (tf : trapframe) (s : kstate)
      (callp : struct_sysent) (s1 : kstate) :
  stack_overflow frame = false -> decode tf s = Call callp s1 ->
  syscall frame tf s =
    Return (syscall_out (u_ru_stime s) (encode_result (setjmp_call callp s1))).
Proof. intros Hf Hd. unfold syscall. rewrite Hf, Hd. reflexivity. Qed.

(** *** Result encoding *)

Lemma syscall_out_frame (syst : Z) (s : kstate) :
  u_frame (syscall_out syst s) = u_frame s.
Proof. reflexivity. Qed.

Lemma encode_result_success (s : kstate) :
  u_error s = 0 ->
  u_frame (encode_result s) =
    set_tf_r0 (u_int_of_int (u_rval s))
      (set_tf_psr (Z.land (tf_psr (u_frame s)) (Z.lnot PSR_C)) (u_frame s)).
Proof. intros He. unfold encode_result. rewrite He. reflexivity. Qed.

Lemma encode_result_restart (s : kstate) :
  ERESTART <> 0 -> u_error s = ERESTART ->
  encode_result s =
    set_u_frame (set_tf_pc (wrap32 (tf_pc (u_frame s) - INSN_SZ)) (u_frame s)) s.
Proof.
  intros Hne He. unfold encode_result. rewrite He.
  destruct (Z.eqb_spec ERESTART 0); [contradiction|].
  rewrite Z.eqb_refl. reflexivity.
Qed.

Lemma encode_result_justreturn (s : kstate) :
  EJUSTRETURN <> 0 -> EJUSTRETURN <> ERESTART -> u_error s = EJUSTRETURN ->
  encode_result s = s.
Proof.
  intros Hne0 Hne1 He. unfold encode_result. rewrite He.
  destruct (Z.eqb_spec EJUSTRETURN 0); [contradiction|].
  destruct (Z.eqb_spec EJUSTRETURN ERESTART); [contradiction|].
  rewrite Z.eqb_refl. reflexivity.
Qed.

Lemma encode_result_error (s : kstate) :
  u_error s <> 0 -> u_error s <> ERESTART -> u_error s <> EJUSTRETURN ->
  u_frame (encode_result s) =
    set_tf_r0 (u_int_of_int (u_error s))
      (set_tf_psr (Z.lor (tf_psr (u_frame s)) PSR_C) (u_frame s)).
Proof.
  intros H0 H1 H2. unfold encode_result.
  destruct (Z.eqb_spec (u_error s) 0); [contradiction|].
  destruct (Z.eqb_spec (u_error s) ERESTART); [contradiction|].
  destruct (Z.eqb_spec (u_error s) EJUSTRETURN); [contradiction|].
  reflexivity.
Qed.

(** C1. Result encoding after the handler call.  Let a trap reach the
    handler of [callp], entered in state [s1], and let [s2] be the state in
    which the handler left, by return or by [longjmp].  The handler was
    entered with the frame passed to [syscall].  If [u_error] is 0 in [s2],
    the frame handed back has the bits of [PSR_C] cleared in [tf_psr] and
    [u_rval] (as a [u_int]) in [tf_r0].  If [u_error] is nonzero and is
    neither [ERESTART] nor [EJUSTRETURN], the frame handed back has the
    bits of [PSR_C] set, [u_error] (as a [u_int]) in [tf_r0], and the
    [tf_pc] the handler left. *)
Theorem result_encoding (frame : Z) (tf : trapframe) (s : kstate)
        (callp : struct_sysent) (s1 : kstate) :
  stack_overflow frame = false ->
  decode tf s = Call callp s1 ->
  exists sf,
    syscall frame tf s = Return sf /\
    u_frame s1 = tf /\
    (u_error (setjmp_call callp s1) = 0 ->
       Z.land (tf_psr (u_frame sf)) PSR_C = 0 /\
       tf_psr (u_frame sf) =
         Z.land (tf_psr (u_frame (setjmp_call callp s1))) (Z.lnot PSR_C) /\
       tf_r0 (u_frame sf) = u_int_of_int (u_rval (setjmp_call callp s1)) /\
       (0 <= u_rval (setjmp_call callp s1) < 2 ^ 32 ->
        tf_r0 (u_frame sf) = u_rval (setjmp_call callp s1))) /\
    (u_error (setjmp_call callp s1) <> 0 ->
     u_error (setjmp_call callp s1) <> ERESTART ->
     u_error (setjmp_call callp s1) <> EJUSTRETURN ->
       Z.land (tf_psr (u_frame sf)) PSR_C = PSR_C /\
       tf_psr (u_frame sf) =
         Z.lor (tf_psr (u_frame (setjmp_call callp s1))) PSR_C /\
       tf_r0 (u_frame sf) = u_int_of_int (u_error (setjmp_call callp s1)) /\
       (0 <= u_error (setjmp_call callp s1) < 2 ^ 32 ->
        tf_r0 (u_frame sf) = u_error (setjmp_call callp s1)) /\
       tf_pc (u_frame sf) = tf_pc (u_frame (setjmp_call callp s1))).
Proof.
  intros Hf Hd. eexists. split; [apply (syscall_call _ _ _ _ _ Hf Hd)|].
  split; [apply (decode_call_frame _ _ _ _ Hd)|].
  rewrite syscall_out_frame. split.
  - intros He. rewrite (encode_result_success _ He). simpl.
    repeat split.
    + apply land_clear_mask.
    + intros Hr. apply wrap32_small. exact Hr.
  - intros H0 H1 H2. rewrite (encode_result_error _ H0 H1 H2). simpl.
    repeat split.
    + apply land_set_mask.
    + intros Hr. apply wrap32_small. exact Hr.
Qed.

(** C5. Restart encoding.  When the handler leaves with [u_error] equal to
    [ERESTART], the frame handed back is the frame the handler left with
    [tf_pc] lowered by [INSN_SZ] (in [u_int] arithmetic) and nothing else
    written: [tf_psr] and [tf_r0] are as the handler left them.  The
    handler was entered with the frame passed to [syscall], so when it left
    [tf_pc] alone, the return address handed back is the one passed in
    minus [INSN_SZ]. *)
Theorem restart_encoding (frame : Z) (tf : trapframe) (s : kstate)
        (callp : struct_sysent) (s1 : kstate) :
  stack_overflow frame = false ->
  decode tf s = Call callp s1 ->
  ERESTART <> 0 ->
  u_error (setjmp_call callp s1) = ERESTART ->
  exists sf,
    syscall frame tf s = Return sf /\
    u_frame s1 = tf /\
    u_frame sf =
      set_tf_pc (wrap32 (tf_pc (u_frame (setjmp_call callp s1)) - INSN_SZ))
                (u_frame (setjmp_call callp s1)) /\
    tf_psr (u_frame sf) = tf_psr (u_frame (setjmp_call callp s1)) /\
    tf_r0 (u_frame sf) = tf_r0 (u_frame (setjmp_call callp s1)) /\
    (tf_pc (u_frame (setjmp_call callp s1)) = tf_pc tf ->
     tf_pc (u_frame sf) = wrap32 (tf_pc tf - INSN_SZ) /\
     (INSN_SZ <= tf_pc tf < 2 ^ 32 + INSN_SZ ->
      tf_pc (u_frame sf) = tf_pc tf - INSN_SZ)).
Proof.
  intros Hf Hd Hne He. eexists.
  split; [apply (syscall_call _ _ _ _ _ Hf Hd)|].
  split; [apply (decode_call_frame _ _ _ _ Hd)|].
  rewrite syscall_out_frame, (encode_result_restart _ Hne He). simpl.
  split; [reflexivity|]. split; [reflexivity|]. split; [reflexivity|].
  intros Hpc. rewrite Hpc. split; [reflexivity|].
  intros Hr. apply wrap32_small. lia.
Qed.

(** C6. Suppressed-return encoding.  When the handler leaves with
    [u_error] equal to [EJUSTRETURN], the dispatcher writes no field of
    the frame: the handler was entered with the frame passed to [syscall],
    and the frame handed back is the frame as the handler left it. *)
Theorem justreturn_encoding (frame : Z) (tf : trapframe) (s : kstate)
        (callp : struct_sysent) (s1 : kstate) :
  stack_overflow frame = false ->
  decode tf s = Call callp s1 ->
  EJUSTRETURN <> 0 -> EJUSTRETURN <> ERESTART ->
  u_error (setjmp_call callp s1) = EJUSTRETURN ->
  exists sf,
    syscall frame tf s = Return sf /\
    u_frame s1 = tf /\
    u_frame sf = u_frame (setjmp_call callp s1) /\
    (u_frame (setjmp_call callp s1) = tf -> u_frame sf = tf).
Proof.
  intros Hf Hd Hne0 Hne1 He. eexists.
  split; [apply (syscall_call _ _ _ _ _ Hf Hd)|].
  split; [apply (decode_call_frame _ _ _ _ Hd)|].
  rewrite syscall_out_frame, (encode_result_justreturn _ Hne0 Hne1 He).
  split; [reflexivity|]. intros H. exact H.
Qed.

(** *** The two stack checks *)

Lemma syscall_not_overflow (frame : Z) (tf : trapframe) (s : kstate) :
  stack_overflow frame = false -> forall msg, syscall frame tf s <> Panic msg.
Proof.
  intros Hf msg. unfold syscall. rewrite Hf.
  destruct (decode tf s); discriminate.
Qed.

(** C2. Kernel-stack overflow check.  [syscall] ends in [panic] exactly
    when the address of the frame is below [(unsigned) &u + sizeof(u)];
    at that address it does not, one below it does.  When the block does
    not reach the end of the address space, that bound is the address of
    [u] plus its size. *)
Theorem kstack_overflow_boundary (frame : Z) (tf : trapframe) (s : kstate) :
  ((exists msg, syscall frame tf s = Panic msg) <-> frame < kstack_limit) /\
  (forall msg, syscall kstack_limit tf s <> Panic msg) /\
  (exists msg, syscall (kstack_limit - 1) tf s = Panic msg) /\
  (0 <= addr_u + sizeof_u < 2 ^ 32 -> kstack_limit = addr_u + sizeof_u).
Proof.
  split; [split|split; [|split]].
  - intros [msg Hp]. destruct (Z.ltb_spec frame kstack_limit) as [Hlt|Hge].
    + exact Hlt.
    + exfalso. apply (syscall_not_overflow frame tf s) with (msg := msg).
      * unfold stack_overflow. apply Z.ltb_ge. exact Hge.
      * exact Hp.
  - intros Hlt. exists "stack overflow"%string. unfold syscall, stack_overflow.
    apply Z.ltb_lt in Hlt. rewrite Hlt. reflexivity.
  - apply syscall_not_overflow. unfold stack_overflow. apply Z.ltb_irrefl.
  - exists "stack overflow"%string. unfold syscall, stack_overflow.
    replace (kstack_limit - 1 <? kstack_limit) with true; [reflexivity|].
    symmetry. apply Z.ltb_lt. lia.
  - intros Hr. unfold kstack_limit. apply wrap32_small. exact Hr.
Qed.

Lemma syscall_bad_trace (tf : trapframe) (s : kstate) (psig syst : Z) :
  k_trace (syscall_bad psig syst (syscall_enter tf s)) =
    k_trace s ++ [Ev_arm_intr_enable; Ev_led_control 1; Ev_psignal psig;
                  Ev_userret (tf_pc tf) syst; Ev_led_control 0].
Proof. simpl. rewrite <- !app_assoc. reflexivity. Qed.

Lemma decode_bad (tf : trapframe) (s : kstate) :
  tf_sp tf < data_end s -> decode tf s = Bad SIGSEGV (syscall_enter tf s).
Proof.
  intros Hsp. unfold decode.
  change (tf_sp (u_frame (syscall_enter tf s))) with (tf_sp tf).
  change (data_end (syscall_enter tf s)) with (data_end s).
  apply Z.ltb_lt in Hsp. rewrite Hsp. reflexivity.
Qed.

Lemma decode_not_bad (tf : trapframe) (s : kstate) :
  data_end s <= tf_sp tf -> forall psig s', decode tf s <> Bad psig s'.
Proof.
  intros Hsp psig s'. unfold decode.
  change (tf_sp (u_frame (syscall_enter tf s))) with (tf_sp tf).
  change (data_end (syscall_enter tf s)) with (data_end s).
  destruct (Z.ltb_spec (tf_sp tf) (data_end s)); [lia|].
  unfold select. destruct (sysent_at _); discriminate.
Qed.

(** On the fault path the outcome is the same whatever the table. *)
Lemma syscall_bad_path (T' : SyscallTable) (frame : Z) (tf : trapframe)
      (s : kstate) :
  stack_overflow frame = false -> tf_sp tf < data_end s ->
  @syscall M T' frame tf s =
    Return (syscall_bad SIGSEGV (u_ru_stime s) (syscall_enter tf s)).
Proof.
  intros Hf Hsp. unfold syscall, decode. rewrite Hf.
  change (tf_sp (u_frame (syscall_enter tf s))) with (tf_sp tf).
  change (data_end (syscall_enter tf s)) with (data_end s).
  apply Z.ltb_lt in Hsp. rewrite Hsp. reflexivity.
Qed.

(** C3. User-stack fault boundary.  For a trap that got past the overflow
    check: when the user stack pointer of the frame is below
    [p_daddr + u_dsize], no table entry is looked up and no handler is
    called (the outcome is the same for every table), [psignal] is called
    with [SIGSEGV], and the dispatcher goes on to [userret]; when the user
    stack pointer is equal to [p_daddr + u_dsize], there is no fault and
    the handler of the selected entry is called, with [u_error] 0 and no
    [psignal] call made.  The sum is the one the source computes, which
    is the mathematical one when it is below 2^32. *)
Theorem user_stack_fault_boundary (frame : Z) (tf : trapframe) (s : kstate) :
  stack_overflow frame = false ->
  (tf_sp tf < data_end s ->
     decode tf s = Bad SIGSEGV (syscall_enter tf s) /\
     syscall frame tf s =
       Return (syscall_bad SIGSEGV (u_ru_stime s) (syscall_enter tf s)) /\
     k_trace (syscall_bad SIGSEGV (u_ru_stime s) (syscall_enter tf s)) =
       k_trace s ++ [Ev_arm_intr_enable; Ev_led_control 1; Ev_psignal SIGSEGV;
                     Ev_userret (tf_pc tf) (u_ru_stime s); Ev_led_control 0] /\
     (forall T' : SyscallTable,
        @syscall M T' frame tf s = @syscall M T frame tf s)) /\
  (tf_sp tf = data_end s ->
     (forall psig s', decode tf s <> Bad psig s') /\
     (sysent_ok ->
      exists callp s1,
        decode tf s = Call callp s1 /\
        u_error s1 = 0 /\
        k_trace s1 = k_trace s ++ [Ev_arm_intr_enable; Ev_led_control 1] /\
        syscall frame tf s =
          Return (syscall_out (u_ru_stime s)
                    (encode_result (setjmp_call callp s1))))) /\
  (0 <= p_daddr s + u_dsize s < 2 ^ 32 -> data_end s = p_daddr s + u_dsize s).
Proof.
  intros Hf. split; [|split]; cycle 2.
  { intros Hr. unfold data_end. apply wrap32_small. exact Hr. }
  - intros Hsp. split; [apply decode_bad; exact Hsp|].
    split; [|split].
    + apply syscall_bad_path; assumption.
    + apply syscall_bad_trace.
    + intros T'. rewrite !(syscall_bad_path _ _ _ _ Hf Hsp). reflexivity.
  - intros Hsp. split.
    + apply decode_not_bad. lia.
    + intros Hok.
      destruct (decode_call tf s Hok) as [callp Hd]; [lia|].
      exists callp. eexists. split; [exact Hd|].
      split; [|split].
      * unfold call_state. rewrite fetch_args_args_only. simpl.
        apply expand_stack_error.
      * unfold call_state. rewrite fetch_args_args_only. simpl.
        rewrite expand_stack_trace. simpl. rewrite <- app_assoc. reflexivity.
      * apply syscall_call; assumption.
Qed.

(** C10. The fault path leaves the frame and the bookkeeping alone.  For
    a trap that got past the overflow check with a user stack pointer
    below [p_daddr + u_dsize]: the frame handed back is the frame passed
    in; [u_arg], [p_ssize], [p_saddr], [u_ssize] and [u_rval] are as they
    were; [u_error] is 0; the calls made are [arm_intr_enable], the LED
    on, [psignal] with [SIGSEGV], [userret] with the return address of the
    frame passed in and the system time read on entry, and the LED off;
    and neither user memory nor the table is read: changing them changes
    nothing else in the outcome. *)
Theorem fault_path_skips_dispatch (frame : Z) (tf : trapframe) (s : kstate) :
  stack_overflow frame = false ->
  tf_sp tf < data_end s ->
  exists sf,
    syscall frame tf s = Return sf /\
    u_frame sf = tf /\
    u_arg sf = u_arg s /\
    p_ssize sf = p_ssize s /\ p_saddr sf = p_saddr s /\ u_ssize sf = u_ssize s /\
    u_rval sf = u_rval s /\
    u_error sf = 0 /\
    k_trace sf =
      k_trace s ++ [Ev_arm_intr_enable; Ev_led_control 1; Ev_psignal SIGSEGV;
                    Ev_userret (tf_pc tf) (u_ru_stime s); Ev_led_control 0] /\
    (forall (T' : SyscallTable) (m : Z -> Z),
       @syscall M T' frame tf (set_k_mem m s) = Return (set_k_mem m sf)).
Proof.
  intros Hf Hsp.
  exists (syscall_bad SIGSEGV (u_ru_stime s) (syscall_enter tf s)).
  split; [apply syscall_bad_path; assumption|].
  do 7 (split; [reflexivity|]).
  split; [apply syscall_bad_trace|].
  intros T' m. apply syscall_bad_path; assumption.
Qed.

(** *** The table lookup for a decoded code *)

Lemma callp_index_fallback (code : Z) : nsysent <= code -> callp_index code = 0.
Proof.
  intros Hc. unfold callp_index.
  destruct (Z.ltb_spec code nsysent); [lia|reflexivity].
Qed.

Lemma callp_index_zero : callp_index 0 = 0.
Proof. unfold callp_index. destruct (0 <? nsysent); reflexivity. Qed.

Lemma syscall_no_overrun (frame : Z) (tf : trapframe) (s : kstate) :
  sysent_ok -> syscall frame tf s <> Overrun.
Proof.
  intros Hok. unfold syscall.
  destruct (stack_overflow frame); [discriminate|].
  destruct (Z.ltb_spec (tf_sp tf) (data_end s)) as [Hlt|Hge].
  - rewrite (decode_bad _ _ Hlt). discriminate.
  - destruct (decode_call tf s Hok Hge) as [callp ->]. discriminate.
Qed.

(** C4. Out-of-range code fallback.  With a table of [nsysent] entries,
    at least one: a code at or above [nsysent] selects entry 0, and the
    lookup and argument fetch are those of code 0 (same entry, hence same
    argument count and same handler, same state at the call); a code
    below [nsysent] selects the entry at that code; the entry read is
    always inside the table, and no run of [syscall] reads outside it.
    The code decoded from the instruction is between 0 and 255, and the
    handler a trap calls is that of the entry so selected. *)
Theorem out_of_range_code_fallback (code : Z) (s : kstate) :
  sysent_ok -> 0 <= code ->
  (nsysent <= code ->
     callp_index code = 0 /\
     sysent_at (callp_index code) = sysent !! 0%nat /\
     select code s = select 0 s) /\
  (code < nsysent ->
     sysent_at (callp_index code) = sysent !! Z.to_nat code) /\
  is_Some (sysent_at (callp_index code)) /\
  select code s <> NoEntry /\
  (forall frame tf s0, syscall frame tf s0 <> Overrun) /\
  (forall s0, 0 <= svc_code s0 <= 255) /\
  (forall tf s0 callp s1,
     decode tf s0 = Call callp s1 ->
     svc_code (expand_stack (tf_sp tf) (syscall_enter tf s0)) = code ->
     sysent !! Z.to_nat (if code <? nsysent then code else 0) = Some callp).
Proof.
  intros Hok Hcode. split; [|split; [|split; [|split; [|split; [|split]]]]].
  - intros Hge. pose proof (callp_index_fallback code Hge) as Hi.
    split; [exact Hi|]. split.
    + rewrite Hi. reflexivity.
    + unfold select. rewrite Hi, callp_index_zero. reflexivity.
  - intros Hlt. unfold callp_index, sysent_at.
    apply Z.ltb_lt in Hlt. rewrite Hlt.
    destruct (Z.ltb_spec code 0); [lia|reflexivity].
  - apply sysent_at_in_range, callp_index_range; assumption.
  - destruct (select_in_table code s Hok Hcode) as [callp [_ ->]]. discriminate.
  - intros frame tf s0. apply syscall_no_overrun. exact Hok.
  - apply svc_code_range.
  - intros tf s0 callp s1 Hd Hc. apply decode_call_entry in Hd.
    rewrite Hc in Hd. unfold callp_index, sysent_at in Hd.
    destruct (code <? nsysent).
    + destruct (Z.ltb_spec code 0); [lia|exact Hd].
    + exact Hd.
Qed.

(** *** Arguments read from the user stack *)

Ltac six_slots s Hlen :=
  destruct s as [e r c args ds ss st f pd pa ps m tr];
  unfold u_arg_ok in Hlen; simpl in Hlen;
  destruct args as [|a0 [|a1 [|a2 [|a3 [|a4 [|a5 [|a6 args]]]]]]];
  try discriminate Hlen.

(** The fifth slot after the fetch, for an entry with more than four
    arguments. *)
Lemma fetch_args_fifth (callp : struct_sysent) (s : kstate) :
  u_arg_ok s -> 4 < sy_narg callp ->
  u_arg (fetch_args callp s) !! 4%nat =
    if baduaddr (stack_arg_addr 32 (u_frame s)) then u_arg s !! 4%nat
    else Some (int_of_u_int (load32 s (stack_arg_addr 32 (u_frame s)))).
Proof.
  intros Hlen Hn. six_slots s Hlen.
  unfold fetch_args, fetch_stack_arg. simpl.
  destruct (Z.eqb_spec (sy_narg callp) 0); [lia|].
  destruct (Z.ltb_spec 4 (sy_narg callp)); [|lia].
  destruct (5 <? sy_narg callp); simpl;
    destruct (baduaddr (stack_arg_addr 32 f)); simpl;
    try destruct (baduaddr (stack_arg_addr 36 f)); reflexivity.
Qed.

(** The sixth slot after the fetch, for an entry with more than five
    arguments: whatever became of the fifth. *)
Lemma fetch_args_sixth (callp : struct_sysent) (s : kstate) :
  u_arg_ok s -> 5 < sy_narg callp ->
  u_arg (fetch_args callp s) !! 5%nat =
    if baduaddr (stack_arg_addr 36 (u_frame s)) then u_arg s !! 5%nat
    else Some (int_of_u_int (load32 s (stack_arg_addr 36 (u_frame s)))).
Proof.
  intros Hlen Hn. six_slots s Hlen.
  unfold fetch_args, fetch_stack_arg. simpl.
  destruct (Z.eqb_spec (sy_narg callp) 0); [lia|].
  destruct (Z.ltb_spec 4 (sy_narg callp)); [|lia].
  destruct (Z.ltb_spec 5 (sy_narg callp)); [|lia]. simpl.
  destruct (baduaddr (stack_arg_addr 32 f)); simpl;
    destruct (baduaddr (stack_arg_addr 36 f)); reflexivity.
Qed.

Lemma load32_expand_enter (tf : trapframe) (s : kstate) (a : Z) :
  load32 (expand_stack (tf_sp tf) (syscall_enter tf s)) a = load32 s a.
Proof. unfold load32. rewrite expand_stack_mem. reflexivity. Qed.

(** C9. Stale argument on a failed validity check.  For a trap that got
    past both stack checks, with a table of [nsysent] entries: the handler
    of the selected entry is called whatever [baduaddr] answers, with
    [u_error] 0 and no [psignal] call made.  When the entry declares more
    than four arguments and [baduaddr] rejects the address of the fifth,
    slot 4 of [u_arg] holds at the call what it held before the trap; when
    it accepts it, slot 4 holds the word read there.  When the entry
    declares more than five arguments, the same holds of slot 5 and the
    address of the sixth, whatever [baduaddr] answered for the fifth.
    The handler is run on that state: whatever state [sy_call] of the
    entry hands back from it, by return or through the checkpoint, is the
    state whose result is encoded and handed back. *)
Theorem stale_stack_argument (frame : Z) (tf : trapframe) (s : kstate) :
  sysent_ok -> u_arg_ok s ->
  stack_overflow frame = false ->
  data_end s <= tf_sp tf ->
  exists callp s1,
    decode tf s = Call callp s1 /\
    syscall frame tf s =
      Return (syscall_out (u_ru_stime s)
                (encode_result (setjmp_call callp s1))) /\
    u_error s1 = 0 /\
    k_trace s1 = k_trace s ++ [Ev_arm_intr_enable; Ev_led_control 1] /\
    (4 < sy_narg callp ->
       (baduaddr (stack_arg_addr 32 tf) = true ->
        u_arg s1 !! 4%nat = u_arg s !! 4%nat) /\
       (baduaddr (stack_arg_addr 32 tf) = false ->
        u_arg s1 !! 4%nat =
          Some (int_of_u_int (load32 s (stack_arg_addr 32 tf))))) /\
    (5 < sy_narg callp ->
       (baduaddr (stack_arg_addr 36 tf) = true ->
        u_arg s1 !! 5%nat = u_arg s !! 5%nat) /\
       (baduaddr (stack_arg_addr 36 tf) = false ->
        u_arg s1 !! 5%nat =
          Some (int_of_u_int (load32 s (stack_arg_addr 36 tf))))) /\
    (forall s2,
       sy_call callp s1 = Returned s2 \/ sy_call callp s1 = Longjmp s2 ->
       syscall frame tf s =
         Return (syscall_out (u_ru_stime s) (encode_result s2))).
Proof.
  intros Hok Hlen Hf Hsp.
  destruct (decode_call tf s Hok Hsp) as [callp Hd].
  exists callp. eexists. split; [exact Hd|].
  split; [apply syscall_call; assumption|].
  assert (Hlen0 : u_arg_ok (expand_stack (tf_sp tf) (syscall_enter tf s))).
  { unfold u_arg_ok. rewrite expand_stack_args. exact Hlen. }
  assert (Hfr : u_frame (expand_stack (tf_sp tf) (syscall_enter tf s)) = tf).
  { rewrite expand_stack_frame. reflexivity. }
  assert (Harg : u_arg (expand_stack (tf_sp tf) (syscall_enter tf s)) = u_arg s).
  { rewrite expand_stack_args. reflexivity. }
  split; [|split; [|split; [|split]]].
  - unfold call_state. rewrite fetch_args_args_only. simpl.
    apply expand_stack_error.
  - unfold call_state. rewrite fetch_args_args_only. simpl.
    rewrite expand_stack_trace. simpl. rewrite <- app_assoc. reflexivity.
  - intros Hn. unfold call_state. simpl.
    rewrite (fetch_args_fifth _ _ Hlen0 Hn), Hfr, Harg, load32_expand_enter.
    split; intros ->; reflexivity.
  - intros Hn. unfold call_state. simpl.
    rewrite (fetch_args_sixth _ _ Hlen0 Hn), Hfr, Harg, load32_expand_enter.
    split; intros ->; reflexivity.
  - intros s2 Hcall. rewrite (syscall_call _ _ _ _ _ Hf Hd).
    unfold setjmp_call. destruct Hcall as [-> | ->]; reflexivity.
Qed.

(** *** The address of a stack argument *)

Lemma stkalign_clear (f : trapframe) :
  Z.land (tf_psr f) SCB_CCR_STKALIGN_Msk = 0 -> stkalign f = 0.
Proof. intros H. unfold stkalign. rewrite H. reflexivity. Qed.

Lemma stkalign_set (f : trapframe) :
  Z.land (tf_psr f) SCB_CCR_STKALIGN_Msk <> 0 -> stkalign f = 4.
Proof.
  intros H. unfold stkalign.
  destruct (Z.eqb_spec (Z.land (tf_psr f) SCB_CCR_STKALIGN_Msk) 0);
    [contradiction|reflexivity].
Qed.

(** Rounding down to a multiple of four, four bytes further on. *)
Lemma round_down_next (x : Z) :
  4 * (wrap32 (x + 4) / 4) = wrap32 (4 * (wrap32 x / 4) + 4).
Proof.
  rewrite <- (wrap32_wrap32_add x 4).
  pose proof (wrap32_range x) as Hy. set (y := wrap32 x) in *. clearbody y.
  unfold wrap32. change (2 ^ 32) with 4294967296 in *.
  Z.div_mod_to_equations. lia.
Qed.

Lemma stack_arg_addr_padded (off : Z) (f0 f1 : trapframe) :
  tf_sp f0 = tf_sp f1 -> stkalign f0 = 0 -> stkalign f1 = 4 ->
  stack_arg_addr off f1 = wrap32 (stack_arg_addr off f0 + 4).
Proof.
  intros Hsp H0 H1. unfold stack_arg_addr.
  rewrite H0, H1, <- Hsp, !land_lnot_3, Z.add_0_r. apply round_down_next.
Qed.

Lemma stack_arg_addr_range (off : Z) (f : trapframe) :
  0 <= stack_arg_addr off f <= 2 ^ 32 - 4.
Proof.
  unfold stack_arg_addr. rewrite land_lnot_3.
  pose proof (wrap32_range (tf_sp f + off + stkalign f)) as Hy.
  set (y := wrap32 _) in *. clearbody y.
  change (2 ^ 32) with 4294967296 in *.
  Z.div_mod_to_equations. lia.
Qed.

(** C8, amended.  For two frames with the same user stack pointer, one
    without and one with the padding bit of the status register, the
    addresses from which the fifth (offset 32) and sixth (offset 36)
    arguments are read are related by: padded = unpadded + 4 in [u_int]
    arithmetic.  The padded address is numerically 4 above the unpadded
    one unless the unpadded one is 0xfffffffc, the last word of the
    address space. *)
Theorem stack_arg_alignment (f0 f1 : trapframe) :
  tf_sp f0 = tf_sp f1 ->
  Z.land (tf_psr f0) SCB_CCR_STKALIGN_Msk = 0 ->
  Z.land (tf_psr f1) SCB_CCR_STKALIGN_Msk <> 0 ->
  stack_arg_addr 32 f1 = wrap32 (stack_arg_addr 32 f0 + 4) /\
  stack_arg_addr 36 f1 = wrap32 (stack_arg_addr 36 f0 + 4) /\
  (stack_arg_addr 32 f0 <> 2 ^ 32 - 4 ->
   stack_arg_addr 32 f1 = stack_arg_addr 32 f0 + 4) /\
  (stack_arg_addr 36 f0 <> 2 ^ 32 - 4 ->
   stack_arg_addr 36 f1 = stack_arg_addr 36 f0 + 4).
Proof.
  intros Hsp H0 H1. apply stkalign_clear in H0. apply stkalign_set in H1.
  pose proof (stack_arg_addr_padded 32 f0 f1 Hsp H0 H1) as H32.
  pose proof (stack_arg_addr_padded 36 f0 f1 Hsp H0 H1) as H36.
  split; [exact H32|]. split; [exact H36|]. split.
  - intros Hne. rewrite H32. apply wrap32_small.
    pose proof (stack_arg_addr_range 32 f0). lia.
  - intros Hne. rewrite H36. apply wrap32_small.
    pose proof (stack_arg_addr_range 36 f0). lia.
Qed.

(** *** Stack-growth bookkeeping *)

(** [USER_DATA_END - sp] in [u_int] arithmetic: the distance below
    [USER_DATA_END], or, for a stack pointer above it, 2^32 minus the
    distance above. *)
Lemma stack_use_cases (sp : Z) :
  0 <= USER_DATA_END < 2 ^ 32 -> 0 <= sp < 2 ^ 32 ->
  wrap32 (USER_DATA_END - sp) =
    if sp <=? USER_DATA_END then USER_DATA_END - sp
    else USER_DATA_END - sp + 2 ^ 32.
Proof.
  intros Hu Hs. unfold wrap32. change (2 ^ 32) with 4294967296 in *.
  destruct (Z.leb_spec sp USER_DATA_END);
    Z.div_mod_to_equations; lia.
Qed.

Lemma expand_stack_grow (sp : Z) (s : kstate) :
  p_ssize s < wrap32 (USER_DATA_END - sp) ->
  expand_stack sp s =
    set_u_ssize (wrap32 (USER_DATA_END - sp))
      (set_p_saddr sp (set_p_ssize (wrap32 (USER_DATA_END - sp)) s)).
Proof.
  intros H. unfold expand_stack. apply Z.ltb_lt in H. rewrite H. reflexivity.
Qed.

Lemma expand_stack_keep (sp : Z) (s : kstate) :
  wrap32 (USER_DATA_END - sp) <= p_ssize s -> expand_stack sp s = s.
Proof.
  intros H. unfold expand_stack. apply Z.ltb_ge in H. rewrite H. reflexivity.
Qed.

Lemma expand_stack_ssize (sp : Z) (s : kstate) :
  p_ssize (expand_stack sp s) = Z.max (p_ssize s) (wrap32 (USER_DATA_END - sp)).
Proof.
  destruct (Z_lt_ge_dec (p_ssize s) (wrap32 (USER_DATA_END - sp))) as [H|H].
  - rewrite (expand_stack_grow _ _ H). simpl. lia.
  - rewrite expand_stack_keep by lia. lia.
Qed.

(** The bookkeeping with which a handler is entered is that of
    [expand_stack] on the state before the trap. *)
Lemma decode_call_bookkeeping (tf : trapframe) (s : kstate)
      (callp : struct_sysent) (s1 : kstate) :
  decode tf s = Call callp s1 ->
  p_ssize s1 = p_ssize (expand_stack (tf_sp tf) s) /\
  p_saddr s1 = p_saddr (expand_stack (tf_sp tf) s).
Proof.
  intros Hd. apply decode_call_inv in Hd as [_ ->].
  unfold call_state. rewrite fetch_args_args_only. simpl.
  unfold expand_stack. simpl.
  destruct (p_ssize s <? wrap32 (USER_DATA_END - tf_sp tf)); split; reflexivity.
Qed.

(** Whatever [USER_DATA_END] is (below 0xffffffff), a trap with the stack
    pointer just above it, coming after one at or below it, raises the
    recorded base. *)
Lemma expand_stack_above_data_end (s : kstate) (sp1 : Z) :
  0 <= USER_DATA_END < 2 ^ 32 - 1 ->
  0 <= sp1 <= USER_DATA_END ->
  p_ssize s < 2 ^ 32 - 1 -> p_saddr s <= USER_DATA_END ->
  p_saddr (expand_stack sp1 s) <
    p_saddr (expand_stack (USER_DATA_END + 1) (expand_stack sp1 s)).
Proof.
  intros Hu H1 Hss Hsa. change (2 ^ 32) with 4294967296 in *.
  assert (Hw1 : wrap32 (USER_DATA_END - sp1) = USER_DATA_END - sp1).
  { apply wrap32_small. change (2 ^ 32) with 4294967296. lia. }
  assert (Hw2 : wrap32 (USER_DATA_END - (USER_DATA_END + 1)) = 4294967295).
  { replace (USER_DATA_END - (USER_DATA_END + 1)) with (-1) by lia.
    reflexivity. }
  assert (Hb : p_saddr (expand_stack sp1 s) <= USER_DATA_END).
  { destruct (Z_lt_ge_dec (p_ssize s) (wrap32 (USER_DATA_END - sp1))) as [H|H].
    - rewrite (expand_stack_grow _ _ H). simpl. lia.
    - rewrite expand_stack_keep by lia. exact Hsa. }
  rewrite (expand_stack_grow (USER_DATA_END + 1)).
  - simpl. lia.
  - rewrite expand_stack_ssize, Hw1, Hw2. lia.
Qed.

(** C7, amended.  On a trap that passes the data-segment check, [p_ssize]
    becomes [USER_DATA_END - sp] (in [u_int] arithmetic), with [p_saddr]
    the trapped stack pointer, only when that quantity exceeds the
    recorded size; otherwise nothing is recorded.  So the recorded size
    never decreases, also over a later trap with a higher stack pointer.
    Such a later trap leaves the recorded size and base as they are when
    it is at or below [USER_DATA_END], or when the earlier one was above
    it.  When the earlier stack pointer is at or below [USER_DATA_END] and
    the later one above it, the quantity compared is
    [USER_DATA_END - sp + 2^32]: if it exceeds the recorded size, the size
    becomes that quantity and the base the later stack pointer; if it
    does not, nothing is recorded. *)
Theorem stack_growth_bookkeeping (s : kstate) (sp1 sp2 : Z) :
  0 <= USER_DATA_END < 2 ^ 32 ->
  0 <= sp1 < 2 ^ 32 -> 0 <= sp2 < 2 ^ 32 ->
  sp1 <= sp2 ->
  (p_ssize s < wrap32 (USER_DATA_END - sp1) ->
     p_ssize (expand_stack sp1 s) = wrap32 (USER_DATA_END - sp1) /\
     p_saddr (expand_stack sp1 s) = sp1 /\
     u_ssize (expand_stack sp1 s) = wrap32 (USER_DATA_END - sp1)) /\
  (wrap32 (USER_DATA_END - sp1) <= p_ssize s -> expand_stack sp1 s = s) /\
  (forall tf callp s1,
     tf_sp tf = sp1 -> decode tf s = Call callp s1 ->
     p_ssize s1 = p_ssize (expand_stack sp1 s) /\
     p_saddr s1 = p_saddr (expand_stack sp1 s)) /\
  p_ssize s <= p_ssize (expand_stack sp1 s) /\
  p_ssize (expand_stack sp1 s) <=
    p_ssize (expand_stack sp2 (expand_stack sp1 s)) /\
  (sp2 <= USER_DATA_END \/ USER_DATA_END < sp1 ->
   expand_stack sp2 (expand_stack sp1 s) = expand_stack sp1 s) /\
  (sp1 <= USER_DATA_END < sp2 ->
   wrap32 (USER_DATA_END - sp2) = USER_DATA_END - sp2 + 2 ^ 32 /\
   (p_ssize (expand_stack sp1 s) < USER_DATA_END - sp2 + 2 ^ 32 ->
    p_ssize (expand_stack sp2 (expand_stack sp1 s)) =
      USER_DATA_END - sp2 + 2 ^ 32 /\
    p_saddr (expand_stack sp2 (expand_stack sp1 s)) = sp2) /\
   (USER_DATA_END - sp2 + 2 ^ 32 <= p_ssize (expand_stack sp1 s) ->
    expand_stack sp2 (expand_stack sp1 s) = expand_stack sp1 s)).
Proof.
  intros Hu H1 H2 Hle.
  split; [|split; [|split; [|split; [|split; [|split]]]]]; cycle 6.
  { intros [_ Habove].
    assert (Hw : wrap32 (USER_DATA_END - sp2) = USER_DATA_END - sp2 + 2 ^ 32).
    { rewrite (stack_use_cases sp2 Hu H2).
      destruct (Z.leb_spec sp2 USER_DATA_END); [lia|reflexivity]. }
    split; [exact Hw|]. rewrite <- Hw. split.
    - intros Hlt. rewrite (expand_stack_grow _ _ Hlt). simpl.
      split; reflexivity.
    - apply expand_stack_keep. }
  - intros Hlt. rewrite (expand_stack_grow _ _ Hlt). simpl.
    repeat split.
  - apply expand_stack_keep.
  - intros tf callp s1 <- Hd. apply (decode_call_bookkeeping _ _ _ _ Hd).
  - rewrite expand_stack_ssize. lia.
  - rewrite (expand_stack_ssize sp2). lia.
  - intros Hcase. apply expand_stack_keep.
    rewrite expand_stack_ssize.
    rewrite (stack_use_cases sp1 Hu H1), (stack_use_cases sp2 Hu H2).
    change (2 ^ 32) with 4294967296 in *.
    destruct (Z.leb_spec sp1 USER_DATA_END), (Z.leb_spec sp2 USER_DATA_END);
      lia.
Qed.

End Properties.

(** ** The dispatcher evaluated on the demonstration board *)

Section Evaluation.
Local Existing Instance Demo.machine.
Local Existing Instance Demo.table.

(** A three-argument call that succeeds with value 7: carry cleared,
    7 in [tf_r0]. *)
Lemma result_encoding_witness :
  stack_overflow Demo.kframe = false /\
  decode (Demo.plain 0x2001ff00) (Demo.state 0xdf01 0) =
    Call (mkSysent 3 Demo.seven)
      (call_state (mkSysent 3 Demo.seven)
         (expand_stack 0x2001ff00
            (syscall_enter (Demo.plain 0x2001ff00) (Demo.state 0xdf01 0)))) /\
  exists sf,
    syscall Demo.kframe (Demo.plain 0x2001ff00) (Demo.state 0xdf01 0)
      = Return sf /\
    Z.land (tf_psr (u_frame sf)) PSR_C = 0 /\
    tf_r0 (u_frame sf) = 7.
Proof.
  assert (Hf : stack_overflow Demo.kframe = false) by reflexivity.
  assert (Hd : decode (Demo.plain 0x2001ff00) (Demo.state 0xdf01 0) =
    Call (mkSysent 3 Demo.seven)
      (call_state (mkSysent 3 Demo.seven)
         (expand_stack 0x2001ff00
            (syscall_enter (Demo.plain 0x2001ff00) (Demo.state 0xdf01 0)))))
    by reflexivity.
  split; [exact Hf|]. split; [exact Hd|].
  destruct (result_encoding _ _ _ _ _ Hf Hd) as [sf [Hs [_ [Hok _]]]].
  exists sf. split; [exact Hs|].
  destruct (Hok eq_refl) as [Hc [_ [Hr _]]].
  split; [exact Hc|exact Hr].
Defined.

(** A call abandoned through the checkpoint with [ERESTART]: the return
    address handed back is that of the [svc] instruction. *)
Lemma restart_encoding_witness :
  stack_overflow Demo.kframe = false /\
  decode (Demo.padded 0x2001ff00) (Demo.state 0xdf03 0) =
    Call (mkSysent 1 Demo.interrupted)
      (call_state (mkSysent 1 Demo.interrupted)
         (expand_stack 0x2001ff00
            (syscall_enter (Demo.padded 0x2001ff00) (Demo.state 0xdf03 0)))) /\
  ERESTART <> 0 /\
  exists sf,
    syscall Demo.kframe (Demo.padded 0x2001ff00) (Demo.state 0xdf03 0)
      = Return sf /\
    tf_pc (u_frame sf) = 0x08000100 /\
    tf_psr (u_frame sf) = 0x01000200 /\
    tf_r0 (u_frame sf) = 1.
Proof.
  assert (Hf : stack_overflow Demo.kframe = false) by reflexivity.
  assert (Hd : decode (Demo.padded 0x2001ff00) (Demo.state 0xdf03 0) =
    Call (mkSysent 1 Demo.interrupted)
      (call_state (mkSysent 1 Demo.interrupted)
         (expand_stack 0x2001ff00
            (syscall_enter (Demo.padded 0x2001ff00) (Demo.state 0xdf03 0)))))
    by reflexivity.
  assert (Hne : ERESTART <> 0) by (simpl; lia).
  split; [exact Hf|]. split; [exact Hd|]. split; [exact Hne|].
  destruct (restart_encoding _ _ _ _ _ Hf Hd Hne eq_refl)
    as [sf [Hs [_ [_ [Hpsr [Hr0 Hpc]]]]]].
  exists sf. split; [exact Hs|].
  destruct (Hpc eq_refl) as [Hw _].
  split; [exact Hw|]. split; [exact Hpsr|exact Hr0].
Defined.

(** A handler that installs its own frame and returns [EJUSTRETURN]:
    that frame is handed back as it is. *)
Lemma justreturn_encoding_witness :
  stack_overflow Demo.kframe = false /\
  decode (Demo.plain 0x2001ff00) (Demo.state 0xdf04 0) =
    Call (mkSysent 1 Demo.sigreturn)
      (call_state (mkSysent 1 Demo.sigreturn)
         (expand_stack 0x2001ff00
            (syscall_enter (Demo.plain 0x2001ff00) (Demo.state 0xdf04 0)))) /\
  EJUSTRETURN <> 0 /\ EJUSTRETURN <> ERESTART /\
  exists sf,
    syscall Demo.kframe (Demo.plain 0x2001ff00) (Demo.state 0xdf04 0)
      = Return sf /\
    u_frame sf = mkTrapframe 10 11 12 13 0x2001ff80 14 0x08000200 0.
Proof.
  assert (Hf : stack_overflow Demo.kframe = false) by reflexivity.
  assert (Hd : decode (Demo.plain 0x2001ff00) (Demo.state 0xdf04 0) =
    Call (mkSysent 1 Demo.sigreturn)
      (call_state (mkSysent 1 Demo.sigreturn)
         (expand_stack 0x2001ff00
            (syscall_enter (Demo.plain 0x2001ff00) (Demo.state 0xdf04 0)))))
    by reflexivity.
  assert (Hne0 : EJUSTRETURN <> 0) by (simpl; lia).
  assert (Hne1 : EJUSTRETURN <> ERESTART) by (simpl; lia).
  split; [exact Hf|]. split; [exact Hd|].
  split; [exact Hne0|]. split; [exact Hne1|].
  destruct (justreturn_encoding _ _ _ _ _ Hf Hd Hne0 Hne1 eq_refl)
    as [sf [Hs [_ [Hfr _]]]].
  exists sf. split; [exact Hs|exact Hfr].
Defined.

(** A stack pointer one byte below the end of the data segment faults;
    one equal to it does not. *)
Lemma user_stack_fault_boundary_witness :
  stack_overflow Demo.kframe = false /\
  tf_sp (Demo.plain 0x20005fff) < data_end (Demo.state 0xdf01 0) /\
  syscall Demo.kframe (Demo.plain 0x20005fff) (Demo.state 0xdf01 0) =
    Return (syscall_bad SIGSEGV 42
              (syscall_enter (Demo.plain 0x20005fff) (Demo.state 0xdf01 0))) /\
  tf_sp (Demo.plain 0x20006000) = data_end (Demo.state 0xdf01 0) /\
  (forall psig s',
     decode (Demo.plain 0x20006000) (Demo.state 0xdf01 0) <> Bad psig s').
Proof.
  assert (Hf : stack_overflow Demo.kframe = false) by reflexivity.
  assert (Hlt : tf_sp (Demo.plain 0x20005fff) < data_end (Demo.state 0xdf01 0))
    by (vm_compute; reflexivity).
  assert (Heq : tf_sp (Demo.plain 0x20006000) = data_end (Demo.state 0xdf01 0))
    by reflexivity.
  split; [exact Hf|]. split; [exact Hlt|].
  destruct (user_stack_fault_boundary
              Demo.kframe (Demo.plain 0x20005fff) (Demo.state 0xdf01 0) Hf)
    as [Hlow _].
  destruct (Hlow Hlt) as [_ [Hs _]].
  split; [exact Hs|]. split; [exact Heq|].
  destruct (user_stack_fault_boundary
              Demo.kframe (Demo.plain 0x20006000) (Demo.state 0xdf01 0) Hf)
    as [_ [Hat _]].
  destruct (Hat Heq) as [Hnb _]. exact Hnb.
Defined.

(** The same fault, seen from the frame and the bookkeeping. *)
Lemma fault_path_skips_dispatch_witness :
  stack_overflow Demo.kframe = false /\
  tf_sp (Demo.padded 0x20005fff) < data_end (Demo.state 0xdf02 77) /\
  exists sf,
    syscall Demo.kframe (Demo.padded 0x20005fff) (Demo.state 0xdf02 77)
      = Return sf /\
    u_frame sf = Demo.padded 0x20005fff /\
    u_arg sf = [0; 0; 0; 0; 170; 187] /\
    p_ssize sf = 0x100 /\ p_saddr sf = 0x2001ff00 /\
    u_error sf = 0 /\
    k_trace sf = [Ev_arm_intr_enable; Ev_led_control 1; Ev_psignal 11;
                  Ev_userret 0x08000102 42; Ev_led_control 0].
Proof.
  assert (Hf : stack_overflow Demo.kframe = false) by reflexivity.
  assert (Hlt : tf_sp (Demo.padded 0x20005fff) < data_end (Demo.state 0xdf02 77))
    by (vm_compute; reflexivity).
  split; [exact Hf|]. split; [exact Hlt|].
  destruct (fault_path_skips_dispatch
              Demo.kframe (Demo.padded 0x20005fff) (Demo.state 0xdf02 77) Hf Hlt)
    as [sf [Hs [Hfr [Harg [Hss [Hsa [_ [_ [He [Htr _]]]]]]]]]].
  exists sf. split; [exact Hs|]. split; [exact Hfr|]. split; [exact Harg|].
  split; [exact Hss|]. split; [exact Hsa|]. split; [exact He|exact Htr].
Defined.

(** Code 9 in a table of five entries selects entry 0. *)
Lemma out_of_range_code_fallback_witness :
  sysent_ok /\ 0 <= 9 /\ nsysent <= 9 /\
  sysent_at (callp_index 9) = Some (mkSysent 0 Demo.nosys) /\
  select 9 (Demo.state 0xdf09 0) = select 0 (Demo.state 0xdf09 0).
Proof.
  assert (Hok : sysent_ok) by (unfold sysent_ok; simpl; lia).
  assert (H0 : 0 <= 9) by lia.
  assert (H9 : nsysent <= 9) by (simpl; lia).
  split; [exact Hok|]. split; [exact H0|]. split; [exact H9|].
  destruct (out_of_range_code_fallback 9 (Demo.state 0xdf09 0) Hok H0)
    as [Hge _].
  destruct (Hge H9) as [_ [Hat Hsel]].
  split; [exact Hat|exact Hsel].
Defined.

(** A six-argument call whose frame lies at the very top of user memory:
    both stack arguments are outside it, the handler is called all the
    same and finds in slot 4 the value left there before the trap. *)
Lemma stale_stack_argument_witness :
  sysent_ok /\ u_arg_ok (Demo.state 0xdf02 77) /\
  stack_overflow Demo.kframe = false /\
  data_end (Demo.state 0xdf02 77) <= tf_sp (Demo.plain 0x2001ffe0) /\
  exists callp s1,
    decode (Demo.plain 0x2001ffe0) (Demo.state 0xdf02 77) = Call callp s1 /\
    sy_narg callp = 6 /\
    baduaddr (stack_arg_addr 32 (Demo.plain 0x2001ffe0)) = true /\
    u_arg s1 !! 4%nat = Some 170 /\
    syscall Demo.kframe (Demo.plain 0x2001ffe0) (Demo.state 0xdf02 77) =
      Return (syscall_out 42 (encode_result (setjmp_call callp s1))) /\
    exists s2,
      sy_call callp s1 = Returned s2 /\ u_rval s2 = 170 /\
      syscall Demo.kframe (Demo.plain 0x2001ffe0) (Demo.state 0xdf02 77) =
        Return (syscall_out 42 (encode_result s2)) /\
      tf_r0 (u_frame (syscall_out 42 (encode_result s2))) = 170.
Proof.
  assert (Hok : sysent_ok) by (unfold sysent_ok; simpl; lia).
  assert (Hlen : u_arg_ok (Demo.state 0xdf02 77)) by reflexivity.
  assert (Hf : stack_overflow Demo.kframe = false) by reflexivity.
  assert (Hsp : data_end (Demo.state 0xdf02 77) <= tf_sp (Demo.plain 0x2001ffe0))
    by (vm_compute; discriminate).
  split; [exact Hok|]. split; [exact Hlen|]. split; [exact Hf|].
  split; [exact Hsp|].
  destruct (stale_stack_argument
              Demo.kframe (Demo.plain 0x2001ffe0) (Demo.state 0xdf02 77)
              Hok Hlen Hf Hsp)
    as [callp [s1 [Hd [Hs [_ [_ [H5 [_ Hrun]]]]]]]].
  exists callp, s1. split; [exact Hd|].
  assert (Hc : decode (Demo.plain 0x2001ffe0) (Demo.state 0xdf02 77) =
    Call (mkSysent 6 Demo.fifth)
      (call_state (mkSysent 6 Demo.fifth)
         (expand_stack 0x2001ffe0
            (syscall_enter (Demo.plain 0x2001ffe0) (Demo.state 0xdf02 77)))))
    by reflexivity.
  rewrite Hc in Hd. injection Hd as <- <-.
  split; [reflexivity|]. split; [reflexivity|].
  split; [|split; [exact Hs|]].
  - assert (Hn : 4 < sy_narg (mkSysent 6 Demo.fifth)) by (simpl; lia).
    destruct (H5 Hn) as [Hstale _]. exact (Hstale eq_refl).
  - eexists. split; [reflexivity|]. split; [reflexivity|].
    split; [|reflexivity].
    apply Hrun. left. reflexivity.
Defined.

(** A second trap higher up the stack, below [USER_DATA_END], records
    nothing. *)
Lemma stack_growth_bookkeeping_witness :
  0 <= USER_DATA_END < 2 ^ 32 /\
  0 <= 0x2001fe00 < 2 ^ 32 /\ 0 <= 0x2001ff80 < 2 ^ 32 /\
  0x2001fe00 <= 0x2001ff80 /\
  p_ssize (expand_stack 0x2001fe00 (Demo.state 0 0)) = 0x200 /\
  p_saddr (expand_stack 0x2001fe00 (Demo.state 0 0)) = 0x2001fe00 /\
  expand_stack 0x2001ff80 (expand_stack 0x2001fe00 (Demo.state 0 0)) =
    expand_stack 0x2001fe00 (Demo.state 0 0).
Proof.
  assert (Hu : 0 <= USER_DATA_END < 2 ^ 32) by (simpl; lia).
  assert (H1 : 0 <= 0x2001fe00 < 2 ^ 32) by lia.
  assert (H2 : 0 <= 0x2001ff80 < 2 ^ 32) by lia.
  assert (Hle : 0x2001fe00 <= 0x2001ff80) by lia.
  split; [exact Hu|]. split; [exact H1|]. split; [exact H2|].
  split; [exact Hle|].
  destruct (stack_growth_bookkeeping (Demo.state 0 0) 0x2001fe00 0x2001ff80
              Hu H1 H2 Hle)
    as [Hgrow [_ [_ [_ [_ [Hsame _]]]]]].
  assert (Hlt : p_ssize (Demo.state 0 0) < wrap32 (USER_DATA_END - 0x2001fe00))
    by (vm_compute; reflexivity).
  destruct (Hgrow Hlt) as [Hss [Hsa _]].
  split; [exact Hss|]. split; [exact Hsa|].
  apply Hsame. left. simpl. lia.
Defined.

(** C7, as stated, fails: after a trap with stack pointer 0x2001fe00, a
    trap with the higher stack pointer 0x20020004, which passes the
    data-segment check, raises the recorded stack base from 0x2001fe00 to
    0x20020004 (and the recorded size to 0xfffffffc). *)
Lemma stack_base_raised_above_data_end :
  exists sf1 sf2,
    syscall Demo.kframe (Demo.plain 0x2001fe00) (Demo.state 0xdf01 0)
      = Return sf1 /\
    syscall Demo.kframe (Demo.plain 0x20020004) sf1 = Return sf2 /\
    0x2001fe00 < 0x20020004 /\
    data_end sf1 <= 0x20020004 /\
    p_saddr sf1 = 0x2001fe00 /\ p_ssize sf1 = 0x200 /\
    p_saddr sf2 = 0x20020004 /\ p_ssize sf2 = 0xfffffffc /\
    ~ p_saddr sf2 <= p_saddr sf1.
Proof.
  eexists. eexists.
  split; [vm_compute; reflexivity|]. split; [vm_compute; reflexivity|].
  vm_compute. repeat split; try discriminate.
  intros H. apply H. reflexivity.
Qed.

(** Frames at 0x2001ff00 without and with the padding bit: the stack
    arguments are read 4 bytes further on. *)
Lemma stack_arg_alignment_witness :
  tf_sp (Demo.plain 0x2001ff00) = tf_sp (Demo.padded 0x2001ff00) /\
  Z.land (tf_psr (Demo.plain 0x2001ff00)) SCB_CCR_STKALIGN_Msk = 0 /\
  Z.land (tf_psr (Demo.padded 0x2001ff00)) SCB_CCR_STKALIGN_Msk <> 0 /\
  stack_arg_addr 32 (Demo.padded 0x2001ff00) = 0x2001ff24 /\
  stack_arg_addr 36 (Demo.padded 0x2001ff00) = 0x2001ff28.
Proof.
  assert (Hsp : tf_sp (Demo.plain 0x2001ff00) = tf_sp (Demo.padded 0x2001ff00))
    by reflexivity.
  assert (H0 : Z.land (tf_psr (Demo.plain 0x2001ff00)) SCB_CCR_STKALIGN_Msk = 0)
    by reflexivity.
  assert (H1 : Z.land (tf_psr (Demo.padded 0x2001ff00)) SCB_CCR_STKALIGN_Msk <> 0)
    by (vm_compute; discriminate).
  split; [exact Hsp|]. split; [exact H0|]. split; [exact H1|].
  destruct (stack_arg_alignment _ _ Hsp H0 H1) as [H32 [H36 _]].
  split; [exact H32|exact H36].
Defined.

(** C8, as stated, fails: with the user stack pointer at 0xffffffdc the
    fifth argument is read at 0xfffffffc without the padding bit and at 0
    with it, which is not 4 bytes higher. *)
Lemma stack_arg_addr_wraps :
  tf_sp (Demo.plain 0xffffffdc) = tf_sp (Demo.padded 0xffffffdc) /\
  Z.land (tf_psr (Demo.plain 0xffffffdc)) SCB_CCR_STKALIGN_Msk = 0 /\
  Z.land (tf_psr (Demo.padded 0xffffffdc)) SCB_CCR_STKALIGN_Msk = 0x200 /\
  stack_arg_addr 32 (Demo.plain 0xffffffdc) = 0xfffffffc /\
  stack_arg_addr 32 (Demo.padded 0xffffffdc) = 0 /\
  stack_arg_addr 32 (Demo.padded 0xffffffdc) <>
    stack_arg_addr 32 (Demo.plain 0xffffffdc) + 4.
Proof.
  vm_compute. repeat split; discriminate.
Qed.

End Evaluation.

(** ** Further properties of the dispatcher *)

Ltac wrap32_lia :=
  unfold wrap32 in *; change (2 ^ 32) with 4294967296 in *;
  Z.div_mod_to_equations; lia.

Lemma wrap32_idem (x : Z) : wrap32 (wrap32 x) = wrap32 x.
Proof. unfold wrap32. apply Z.mod_mod. lia. Qed.

(** The low byte of a word does not depend on how its 32 bits are read. *)
Lemma int_of_u_int_mod256 (w : Z) : int_of_u_int (wrap32 w) mod 256 = w mod 256.
Proof.
  unfold int_of_u_int, wrap32.
  change (2 ^ 32) with 4294967296. change (2 ^ 31) with 2147483648.
  Z.div_mod_to_equations. lia.
Qed.

Section MoreProperties.
Context `{M : Machine} `{T : SyscallTable}.

Lemma svc_code_mod (s : kstate) : svc_code s = k_mem s (u_code s) mod 256.
Proof.
  unfold svc_code, load32. change 255 with (Z.ones 8).
  rewrite Z.land_ones by lia. change (2 ^ 8) with 256.
  apply int_of_u_int_mod256.
Qed.

(** The state in which a handler is entered, field by field. *)
Lemma decode_call_fields (tf : trapframe) (s : kstate) (callp : struct_sysent)
      (s1 : kstate) :
  decode tf s = Call callp s1 ->
  u_error s1 = 0 /\ u_rval s1 = 0 /\
  u_code s1 = wrap32 (tf_pc tf - INSN_SZ) /\
  u_frame s1 = tf /\ k_mem s1 = k_mem s /\
  u_ru_stime s1 = u_ru_stime s /\
  k_trace s1 = k_trace s ++ [Ev_arm_intr_enable; Ev_led_control 1].
Proof.
  intros Hd. apply decode_call_inv in Hd as [_ ->].
  unfold call_state. rewrite fetch_args_args_only.
  unfold expand_stack. simpl.
  destruct (p_ssize s <? wrap32 (USER_DATA_END - tf_sp tf)); simpl;
    rewrite <- app_assoc; repeat split.
Qed.

Lemma decode_bad_inv (tf : trapframe) (s : kstate) (psig : Z) (s0 : kstate) :
  decode tf s = Bad psig s0 ->
  tf_sp tf < data_end s /\ psig = SIGSEGV /\ s0 = syscall_enter tf s.
Proof.
  unfold decode.
  change (tf_sp (u_frame (syscall_enter tf s))) with (tf_sp tf).
  change (data_end (syscall_enter tf s)) with (data_end s).
  destruct (Z.ltb_spec (tf_sp tf) (data_end s)) as [Hlt|Hge].
  - intros H. injection H as <- <-. repeat split. exact Hlt.
  - unfold select. destruct (sysent_at _); discriminate.
Qed.

(** X1. Only the low byte of the word at the trapping instruction counts:
    the decoded code is that word modulo 256, whichever way its upper 24
    bits are set, and the entry whose handler a trap calls is the one this
    byte selects, always among the first 256 of the table. *)
Theorem svc_code_low_byte (tf : trapframe) (s : kstate)
        (callp : struct_sysent) (s1 : kstate) :
  decode tf s = Call callp s1 ->
  (forall s0, svc_code s0 = k_mem s0 (u_code s0) mod 256) /\
  sysent_at (callp_index (k_mem s (wrap32 (tf_pc tf - INSN_SZ)) mod 256))
    = Some callp /\
  exists i, (i < 256)%nat /\ sysent !! i = Some callp.
Proof.
  intros Hd. split; [apply svc_code_mod|].
  pose proof (decode_call_entry _ _ _ _ Hd) as He.
  rewrite svc_code_mod, expand_stack_mem in He.
  replace (u_code (expand_stack (tf_sp tf) (syscall_enter tf s)))
    with (wrap32 (tf_pc tf - INSN_SZ)) in He
    by (unfold expand_stack; destruct (_ <? _); reflexivity).
  change (k_mem (syscall_enter tf s)) with (k_mem s) in He.
  split; [exact He|].
  set (code := k_mem s (wrap32 (tf_pc tf - INSN_SZ)) mod 256) in *.
  assert (Hc : 0 <= code < 256) by (apply Z.mod_pos_bound; lia).
  unfold sysent_at, callp_index in He.
  exists (Z.to_nat (if code <? nsysent then code else 0)).
  destruct (code <? nsysent).
  - destruct (Z.ltb_spec code 0); [lia|]. split; [lia|exact He].
  - split; [simpl; lia|exact He].
Qed.

(** X2. What a trap has recorded when control leaves the dispatcher's own
    code.  Where a handler is entered, [u_error] and [u_rval] are 0
    whatever they held before the trap, [u_code] is the address of the
    trapping instruction, [u_frame] is the frame passed in, and user
    memory is as it was.  Where the stack check fails, the signal is
    [SIGSEGV], [u_code] and [u_frame] are set in the same way and
    [u_error] is 0, but [u_rval] keeps its old value. *)
Theorem trap_bookkeeping (tf : trapframe) (s : kstate) :
  (forall callp s1,
     decode tf s = Call callp s1 ->
     u_error s1 = 0 /\ u_rval s1 = 0 /\
     u_code s1 = wrap32 (tf_pc tf - INSN_SZ) /\
     u_frame s1 = tf /\ k_mem s1 = k_mem s) /\
  (forall psig s0,
     decode tf s = Bad psig s0 ->
     psig = SIGSEGV /\
     u_error s0 = 0 /\ u_rval s0 = u_rval s /\
     u_code s0 = wrap32 (tf_pc tf - INSN_SZ) /\
     u_frame s0 = tf /\ k_mem s0 = k_mem s).
Proof.
  split.
  - intros callp s1 Hd.
    destruct (decode_call_fields _ _ _ _ Hd) as [H1 [H2 [H3 [H4 [H5 _]]]]].
    repeat split; assumption.
  - intros psig s0 Hd. apply decode_bad_inv in Hd as [_ [-> ->]].
    repeat split.
Qed.

(** X3. A handler that hands the state back as it got it, by return or
    through the checkpoint, makes the call succeed with value 0: the frame
    handed back is the frame passed in with [tf_r0] zero and the bits of
    [PSR_C] cleared, whatever [u_error] and [u_rval] held before the
    trap. *)
Theorem untouched_state_reports_zero (frame : Z) (tf : trapframe) (s : kstate)
        (callp : struct_sysent) (s1 : kstate) :
  stack_overflow frame = false ->
  decode tf s = Call callp s1 ->
  setjmp_call callp s1 = s1 ->
  exists sf,
    syscall frame tf s = Return sf /\
    u_frame sf =
      set_tf_r0 0 (set_tf_psr (Z.land (tf_psr tf) (Z.lnot PSR_C)) tf).
Proof.
  intros Hf Hd Hsame. eexists.
  split; [apply (syscall_call _ _ _ _ _ Hf Hd)|].
  rewrite Hsame, syscall_out_frame.
  destruct (decode_call_fields _ _ _ _ Hd) as [He [Hr [_ [Hfr _]]]].
  rewrite (encode_result_success _ He), Hr, Hfr. reflexivity.
Qed.

(** *** The register arguments *)

Ltac slots s Hlen :=
  destruct s as [e r c args ds ss st f pd pa ps m tr];
  unfold u_arg_ok in Hlen; simpl in Hlen;
  destruct args as [|a0 [|a1 [|a2 [|a3 [|a4 [|a5 [|a6 args]]]]]]];
  try discriminate Hlen.

Lemma fetch_args_none (callp : struct_sysent) (s : kstate) :
  sy_narg callp = 0 -> fetch_args callp s = s.
Proof. intros H. unfold fetch_args. rewrite H. reflexivity. Qed.

Lemma fetch_args_registers (callp : struct_sysent) (s : kstate) :
  u_arg_ok s -> sy_narg callp <> 0 ->
  u_arg (fetch_args callp s) !! 0%nat = Some (int_of_u_int (tf_r0 (u_frame s))) /\
  u_arg (fetch_args callp s) !! 1%nat = Some (int_of_u_int (tf_r1 (u_frame s))) /\
  u_arg (fetch_args callp s) !! 2%nat = Some (int_of_u_int (tf_r2 (u_frame s))) /\
  u_arg (fetch_args callp s) !! 3%nat = Some (int_of_u_int (tf_r3 (u_frame s))).
Proof.
  intros Hlen Hn. slots s Hlen.
  unfold fetch_args, fetch_stack_arg. simpl.
  destruct (Z.eqb_spec (sy_narg callp) 0); [contradiction|].
  destruct (4 <? sy_narg callp), (5 <? sy_narg callp); simpl;
    repeat (destruct (baduaddr _); simpl); repeat split.
Qed.

Lemma fetch_args_stack_slots (callp : struct_sysent) (s : kstate) :
  u_arg_ok s ->
  (sy_narg callp <= 4 ->
   u_arg (fetch_args callp s) !! 4%nat = u_arg s !! 4%nat) /\
  (sy_narg callp <= 5 ->
   u_arg (fetch_args callp s) !! 5%nat = u_arg s !! 5%nat).
Proof.
  intros Hlen. slots s Hlen.
  unfold fetch_args, fetch_stack_arg. simpl.
  destruct (sy_narg callp =? 0); [split; reflexivity|].
  destruct (Z.ltb_spec 4 (sy_narg callp)), (Z.ltb_spec 5 (sy_narg callp));
    simpl; repeat (destruct (baduaddr _); simpl);
    split; intros; try lia; reflexivity.
Qed.

Lemma fetch_args_length (callp : struct_sysent) (s : kstate) :
  u_arg_ok s -> u_arg_ok (fetch_args callp s).
Proof.
  intros Hlen. slots s Hlen.
  unfold fetch_args, fetch_stack_arg, u_arg_ok. simpl.
  destruct (sy_narg callp =? 0); [reflexivity|].
  destruct (4 <? sy_narg callp), (5 <? sy_narg callp); simpl;
    repeat (destruct (baduaddr _); simpl); reflexivity.
Qed.

(** X4. The register arguments.  With the six slots of [u_arg] in place:
    for an entry that declares no argument the handler finds [u_arg] as it
    was before the trap; for any other entry, also one declaring fewer
    than four or a negative count, slots 0 to 3 hold [tf_r0] to [tf_r3]
    read as [int]; slot 4 is left alone unless more than four arguments
    are declared and slot 5 unless more than five; and [u_arg] still has
    six slots. *)
Theorem register_arguments (tf : trapframe) (s : kstate)
        (callp : struct_sysent) (s1 : kstate) :
  u_arg_ok s ->
  decode tf s = Call callp s1 ->
  (sy_narg callp = 0 -> u_arg s1 = u_arg s) /\
  (sy_narg callp <> 0 ->
     u_arg s1 !! 0%nat = Some (int_of_u_int (tf_r0 tf)) /\
     u_arg s1 !! 1%nat = Some (int_of_u_int (tf_r1 tf)) /\
     u_arg s1 !! 2%nat = Some (int_of_u_int (tf_r2 tf)) /\
     u_arg s1 !! 3%nat = Some (int_of_u_int (tf_r3 tf))) /\
  (sy_narg callp <= 4 -> u_arg s1 !! 4%nat = u_arg s !! 4%nat) /\
  (sy_narg callp <= 5 -> u_arg s1 !! 5%nat = u_arg s !! 5%nat) /\
  u_arg_ok s1.
Proof.
  intros Hlen Hd. apply decode_call_inv in Hd as [_ ->].
  set (s0 := expand_stack (tf_sp tf) (syscall_enter tf s)).
  assert (Hlen0 : u_arg_ok s0).
  { unfold u_arg_ok, s0. rewrite expand_stack_args. exact Hlen. }
  assert (Hfr : u_frame s0 = tf).
  { unfold s0. rewrite expand_stack_frame. reflexivity. }
  assert (Harg : u_arg s0 = u_arg s).
  { unfold s0. rewrite expand_stack_args. reflexivity. }
  unfold call_state. simpl.
  split; [|split; [|split; [|split]]].
  - intros Hn. rewrite (fetch_args_none _ _ Hn). exact Harg.
  - intros Hn. rewrite <- Hfr. apply fetch_args_registers; assumption.
  - intros Hn. rewrite <- Harg.
    apply (proj1 (fetch_args_stack_slots callp s0 Hlen0) Hn).
  - intros Hn. rewrite <- Harg.
    apply (proj2 (fetch_args_stack_slots callp s0 Hlen0) Hn).
  - apply (fetch_args_length callp s0 Hlen0).
Qed.

(** *** What the result encoding leaves alone *)

Lemma encode_result_frame_only (s : kstate) :
  encode_result s = set_u_frame (u_frame (encode_result s)) s.
Proof.
  unfold encode_result. destruct s; simpl.
  repeat (destruct (_ =? _); simpl); reflexivity.
Qed.

Lemma encode_result_untouched (s : kstate) :
  tf_r1 (u_frame (encode_result s)) = tf_r1 (u_frame s) /\
  tf_r2 (u_frame (encode_result s)) = tf_r2 (u_frame s) /\
  tf_r3 (u_frame (encode_result s)) = tf_r3 (u_frame s) /\
  tf_sp (u_frame (encode_result s)) = tf_sp (u_frame s) /\
  tf_lr (u_frame (encode_result s)) = tf_lr (u_frame s).
Proof.
  unfold encode_result.
  repeat (destruct (_ =? _); simpl); repeat split.
Qed.

(** X5. Of the frame, the dispatcher writes [tf_r0], [tf_pc] and [tf_psr]
    only: on every trap that reaches a handler, [tf_r1], [tf_r2], [tf_r3],
    [tf_sp] and [tf_lr] of the frame handed back are those the handler
    left, whatever [u_error] is; and outside the frame and the trace the
    state handed back is the one the handler left. *)
Theorem dispatcher_writes_r0_pc_psr_only (frame : Z) (tf : trapframe)
        (s : kstate) (callp : struct_sysent) (s1 : kstate) :
  stack_overflow frame = false ->
  decode tf s = Call callp s1 ->
  exists sf,
    syscall frame tf s = Return sf /\
    tf_r1 (u_frame sf) = tf_r1 (u_frame (setjmp_call callp s1)) /\
    tf_r2 (u_frame sf) = tf_r2 (u_frame (setjmp_call callp s1)) /\
    tf_r3 (u_frame sf) = tf_r3 (u_frame (setjmp_call callp s1)) /\
    tf_sp (u_frame sf) = tf_sp (u_frame (setjmp_call callp s1)) /\
    tf_lr (u_frame sf) = tf_lr (u_frame (setjmp_call callp s1)) /\
    u_error sf = u_error (setjmp_call callp s1) /\
    u_rval sf = u_rval (setjmp_call callp s1) /\
    u_arg sf = u_arg (setjmp_call callp s1) /\
    k_mem sf = k_mem (setjmp_call callp s1) /\
    p_ssize sf = p_ssize (setjmp_call callp s1) /\
    p_saddr sf = p_saddr (setjmp_call callp s1).
Proof.
  intros Hf Hd. eexists.
  split; [apply (syscall_call _ _ _ _ _ Hf Hd)|].
  rewrite syscall_out_frame.
  destruct (encode_result_untouched (setjmp_call callp s1))
    as [H1 [H2 [H3 [H4 H5]]]].
  do 5 (split; [assumption|]).
  rewrite encode_result_frame_only. repeat split.
Qed.

Lemma encode_result_psr_bit (s : kstate) (n : Z) :
  Z.testbit PSR_C n = false ->
  Z.testbit (tf_psr (u_frame (encode_result s))) n =
    Z.testbit (tf_psr (u_frame s)) n.
Proof.
  intros Hc. destruct (Z_lt_ge_dec n 0) as [Hn|Hn].
  { rewrite !Z.testbit_neg_r by exact Hn. reflexivity. }
  unfold encode_result.
  repeat (destruct (_ =? _); simpl); try reflexivity.
  - rewrite Z.land_spec, Z.lnot_spec, Hc by lia. apply andb_true_r.
  - rewrite Z.lor_spec, Hc. apply orb_false_r.
Qed.

Lemma encode_result_mask (s : kstate) (m : Z) :
  Z.land PSR_C m = 0 ->
  Z.land (tf_psr (u_frame (encode_result s))) m =
    Z.land (tf_psr (u_frame s)) m.
Proof.
  intros Hm. apply Z.bits_inj'. intros n _.
  rewrite !Z.land_spec.
  destruct (Z.testbit m n) eqn:Em; [|rewrite !andb_false_r; reflexivity].
  rewrite encode_result_psr_bit; [reflexivity|].
  assert (H : Z.testbit (Z.land PSR_C m) n = false)
    by (rewrite Hm; apply Z.bits_0).
  rewrite Z.land_spec, Em, andb_true_r in H. exact H.
Qed.

(** X6. The result encoding touches no status bit outside [PSR_C]: in all
    four cases of the [switch], every bit of [tf_psr] that is not a bit of
    [PSR_C] is handed back as the handler left it.  In particular, when
    [PSR_C] and the padding mask share no bit, the frame handed back has
    the padding bit, and hence the alignment correction, of the frame the
    handler left. *)
Theorem result_encoding_keeps_status_bits (frame : Z) (tf : trapframe)
        (s : kstate) (callp : struct_sysent) (s1 : kstate) :
  stack_overflow frame = false ->
  decode tf s = Call callp s1 ->
  exists sf,
    syscall frame tf s = Return sf /\
    (forall n, Z.testbit PSR_C n = false ->
       Z.testbit (tf_psr (u_frame sf)) n =
         Z.testbit (tf_psr (u_frame (setjmp_call callp s1))) n) /\
    (Z.land PSR_C SCB_CCR_STKALIGN_Msk = 0 ->
       stkalign (u_frame sf) = stkalign (u_frame (setjmp_call callp s1))).
Proof.
  intros Hf Hd. eexists.
  split; [apply (syscall_call _ _ _ _ _ Hf Hd)|].
  rewrite syscall_out_frame. split.
  - intros n Hn. apply encode_result_psr_bit. exact Hn.
  - intros Hm. unfold stkalign. rewrite (encode_result_mask _ _ Hm).
    reflexivity.
Qed.

Lemma encode_result_pc (s : kstate) :
  (u_error s = ERESTART -> ERESTART <> 0 ->
   tf_pc (u_frame (encode_result s)) = wrap32 (tf_pc (u_frame s) - INSN_SZ)) /\
  (u_error s <> ERESTART ->
   tf_pc (u_frame (encode_result s)) = tf_pc (u_frame s)).
Proof.
  split.
  - intros He Hne. rewrite (encode_result_restart _ Hne He). reflexivity.
  - intros Hne. unfold encode_result.
    destruct (u_error s =? 0); [reflexivity|].
    destruct (Z.eqb_spec (u_error s) ERESTART); [contradiction|].
    destruct (u_error s =? EJUSTRETURN); reflexivity.
Qed.

(** X7. What [userret] is called with.  On every trap that reaches a
    handler the dispatcher makes just two calls after it, [userret] and
    then the LED off; [userret] gets the return address of the frame
    handed back, which is the rewound one when [u_error] is [ERESTART]
    and the one the handler left otherwise, together with the system time
    read before the overflow check, whatever the handler did to
    [u_ru_stime]. *)
Theorem userret_arguments (frame : Z) (tf : trapframe) (s : kstate)
        (callp : struct_sysent) (s1 : kstate) :
  stack_overflow frame = false ->
  decode tf s = Call callp s1 ->
  exists sf,
    syscall frame tf s = Return sf /\
    k_trace sf =
      k_trace (setjmp_call callp s1) ++
      [Ev_userret (tf_pc (u_frame sf)) (u_ru_stime s); Ev_led_control 0] /\
    (u_error (setjmp_call callp s1) = ERESTART -> ERESTART <> 0 ->
     tf_pc (u_frame sf) =
       wrap32 (tf_pc (u_frame (setjmp_call callp s1)) - INSN_SZ)) /\
    (u_error (setjmp_call callp s1) <> ERESTART ->
     tf_pc (u_frame sf) = tf_pc (u_frame (setjmp_call callp s1))).
Proof.
  intros Hf Hd. eexists.
  split; [apply (syscall_call _ _ _ _ _ Hf Hd)|].
  rewrite syscall_out_frame. split.
  - simpl. rewrite (encode_result_frame_only (setjmp_call callp s1)) at 1.
    simpl. rewrite <- app_assoc. reflexivity.
  - apply encode_result_pc.
Qed.

(** X8. A restart resumes at the instruction the code was read from.
    When the handler leaves with [ERESTART] and with the return address
    it was entered with, the return address handed back is [u_code] as
    recorded at entry, and the low byte of the word stored there is the
    code that selected this very handler. *)
Theorem restart_resumes_at_decoded_instruction (frame : Z) (tf : trapframe)
        (s : kstate) (callp : struct_sysent) (s1 : kstate) :
  stack_overflow frame = false ->
  decode tf s = Call callp s1 ->
  ERESTART <> 0 ->
  u_error (setjmp_call callp s1) = ERESTART ->
  tf_pc (u_frame (setjmp_call callp s1)) = tf_pc tf ->
  exists sf,
    syscall frame tf s = Return sf /\
    tf_pc (u_frame sf) = u_code s1 /\
    sysent_at (callp_index (k_mem s (tf_pc (u_frame sf)) mod 256))
      = Some callp.
Proof.
  intros Hf Hd Hne He Hpc. eexists.
  split; [apply (syscall_call _ _ _ _ _ Hf Hd)|].
  rewrite syscall_out_frame.
  rewrite (proj1 (encode_result_pc _) He Hne), Hpc.
  destruct (decode_call_fields _ _ _ _ Hd) as [_ [_ [Hc _]]].
  split; [symmetry; exact Hc|].
  pose proof (decode_call_entry _ _ _ _ Hd) as Hent.
  rewrite svc_code_mod, expand_stack_mem in Hent.
  replace (u_code (expand_stack (tf_sp tf) (syscall_enter tf s)))
    with (wrap32 (tf_pc tf - INSN_SZ)) in Hent
    by (unfold expand_stack; destruct (_ <? _); reflexivity).
  exact Hent.
Qed.

(** *** Where the stack arguments are read *)

Lemma stkalign_cases (f : trapframe) : stkalign f = 0 \/ stkalign f = 4.
Proof. unfold stkalign. destruct (_ =? _); [left|right]; reflexivity. Qed.

(** X9. The addresses of the stack arguments.  For every frame, the
    addresses at which the fifth and sixth arguments are read are
    multiples of four, the sixth is the word after the fifth (in [u_int]
    arithmetic), and the fifth is the word that contains the byte at
    [tf_sp + 32 + stkalign]: that very address when the stack pointer is
    word aligned. *)
Theorem stack_args_are_consecutive_words (f : trapframe) :
  stack_arg_addr 32 f mod 4 = 0 /\
  stack_arg_addr 36 f mod 4 = 0 /\
  stack_arg_addr 36 f = wrap32 (stack_arg_addr 32 f + 4) /\
  stack_arg_addr 32 f <= wrap32 (tf_sp f + 32 + stkalign f)
    < stack_arg_addr 32 f + 4 /\
  (tf_sp f mod 4 = 0 ->
   stack_arg_addr 32 f = wrap32 (tf_sp f + 32 + stkalign f)).
Proof.
  unfold stack_arg_addr. rewrite !land_lnot_3.
  split; [|split; [|split; [|split]]].
  - rewrite Z.mul_comm. apply Z.mod_mul. lia.
  - rewrite Z.mul_comm. apply Z.mod_mul. lia.
  - replace (tf_sp f + 36 + stkalign f) with (tf_sp f + 32 + stkalign f + 4)
      by lia.
    apply round_down_next.
  - Z.div_mod_to_equations. lia.
  - intros Hsp. destruct (stkalign_cases f) as [-> | ->]; wrap32_lia.
Qed.

(** *** The stack bookkeeping as an invariant *)

(** X10. The recorded stack reaches up to [USER_DATA_END].  If the
    recorded base plus the recorded size is [USER_DATA_END] (in [u_int]
    arithmetic) before a trap, it is so after the bookkeeping of the trap,
    for every stack pointer; when the bookkeeping records a growth,
    [u_ssize] is the new [p_ssize]. *)
Theorem expand_stack_keeps_top (sp : Z) (s : kstate) :
  wrap32 (p_saddr s + p_ssize s) = wrap32 USER_DATA_END ->
  wrap32 (p_saddr (expand_stack sp s) + p_ssize (expand_stack sp s)) =
    wrap32 USER_DATA_END /\
  (p_ssize s < wrap32 (USER_DATA_END - sp) ->
   u_ssize (expand_stack sp s) = p_ssize (expand_stack sp s) /\
   p_saddr (expand_stack sp s) = sp).
Proof.
  intros Hinv.
  destruct (Z_lt_ge_dec (p_ssize s) (wrap32 (USER_DATA_END - sp))) as [H|H].
  - rewrite (expand_stack_grow _ _ H). simpl. split.
    + clear. wrap32_lia.
    + intros _. split; reflexivity.
  - rewrite expand_stack_keep by lia. split; [exact Hinv|]. lia.
Qed.

(** X11. The recorded size is the largest stack use seen: bookkeeping
    twice for the same stack pointer is bookkeeping once, and the size
    recorded after two traps does not depend on their order. *)
Theorem expand_stack_records_maximum (a b : Z) (s : kstate) :
  expand_stack a (expand_stack a s) = expand_stack a s /\
  p_ssize (expand_stack b (expand_stack a s)) =
    Z.max (p_ssize s)
          (Z.max (wrap32 (USER_DATA_END - a)) (wrap32 (USER_DATA_END - b))) /\
  p_ssize (expand_stack b (expand_stack a s)) =
    p_ssize (expand_stack a (expand_stack b s)).
Proof.
  split; [|split].
  - apply expand_stack_keep. rewrite expand_stack_ssize. lia.
  - rewrite !expand_stack_ssize. lia.
  - rewrite !expand_stack_ssize. lia.
Qed.

(** *** Frames of 32-bit values *)

Lemma land_u_int (a b : Z) : u_int_ok a -> u_int_ok (Z.land a b).
Proof.
  unfold u_int_ok. intros Ha.
  assert (Hm : Z.land a b = Z.land a b mod 2 ^ 32).
  { rewrite <- (Z.land_ones (Z.land a b)) by lia.
    rewrite <- Z.land_assoc, (Z.land_comm b), Z.land_assoc.
    rewrite (Z.land_ones a) by lia. rewrite (Z.mod_small a) by exact Ha.
    reflexivity. }
  rewrite Hm. apply Z.mod_pos_bound. lia.
Qed.

Lemma lor_u_int (a b : Z) : u_int_ok a -> u_int_ok b -> u_int_ok (Z.lor a b).
Proof.
  unfold u_int_ok. intros Ha Hb.
  assert (Hm : Z.lor a b = Z.lor a b mod 2 ^ 32).
  { rewrite <- (Z.land_ones (Z.lor a b)) by lia.
    rewrite Z.land_lor_distr_l, !Z.land_ones by lia.
    rewrite (Z.mod_small a), (Z.mod_small b) by assumption. reflexivity. }
  rewrite Hm. apply Z.mod_pos_bound. lia.
Qed.

Lemma encode_result_frame_ok (s : kstate) :
  u_int_ok PSR_C -> frame_ok (u_frame s) -> frame_ok (u_frame (encode_result s)).
Proof.
  intros Hc [H0 [H1 [H2 [H3 [H4 [H5 [H6 H7]]]]]]].
  unfold encode_result, frame_ok.
  repeat (destruct (_ =? _); simpl);
    repeat split;
    try assumption;
    try apply wrap32_range;
    try (apply land_u_int; assumption);
    try (apply lor_u_int; assumption);
    try (apply H0); try (apply H1); try (apply H2); try (apply H3);
    try (apply H4); try (apply H5); try (apply H6); try (apply H7).
Qed.

(** X12. The frame stays a frame of 32-bit values.  When [PSR_C] fits a
    [u_int] and the handler leaves a frame whose eight words are in the
    range of [u_int], so are the eight words of the frame handed back, in
    all four cases of the [switch]: the conversions of [u_rval] and
    [u_error] and the rewinding of [tf_pc] wrap, the bit operations stay
    in range. *)
Theorem frame_stays_32_bit (frame : Z) (tf : trapframe) (s : kstate)
        (callp : struct_sysent) (s1 : kstate) :
  stack_overflow frame = false ->
  decode tf s = Call callp s1 ->
  u_int_ok PSR_C ->
  frame_ok (u_frame (setjmp_call callp s1)) ->
  exists sf, syscall frame tf s = Return sf /\ frame_ok (u_frame sf).
Proof.
  intros Hf Hd Hc Hok. eexists.
  split; [apply (syscall_call _ _ _ _ _ Hf Hd)|].
  rewrite syscall_out_frame. apply encode_result_frame_ok; assumption.
Qed.

(** *** The user memory the dispatcher reads *)

Lemma fetch_args_u_arg_mem (callp : struct_sysent) (s : kstate) (m : Z -> Z) :
  m (stack_arg_addr 32 (u_frame s)) = k_mem s (stack_arg_addr 32 (u_frame s)) ->
  m (stack_arg_addr 36 (u_frame s)) = k_mem s (stack_arg_addr 36 (u_frame s)) ->
  u_arg (fetch_args callp (set_k_mem m s)) = u_arg (fetch_args callp s).
Proof.
  intros H5 H6. destruct s as [e r c args ds ss st f pd pa ps m0 tr].
  simpl in H5, H6.
  unfold fetch_args, fetch_stack_arg, load32. simpl.
  destruct (sy_narg callp =? 0); [reflexivity|].
  destruct (4 <? sy_narg callp), (5 <? sy_narg callp); simpl;
    destruct (baduaddr (stack_arg_addr 32 f)); simpl;
    destruct (baduaddr (stack_arg_addr 36 f)); simpl;
    rewrite ?H5, ?H6; reflexivity.
Qed.

Lemma fetch_args_set_k_mem (callp : struct_sysent) (s : kstate) (m : Z -> Z) :
  m (stack_arg_addr 32 (u_frame s)) = k_mem s (stack_arg_addr 32 (u_frame s)) ->
  m (stack_arg_addr 36 (u_frame s)) = k_mem s (stack_arg_addr 36 (u_frame s)) ->
  fetch_args callp (set_k_mem m s) = set_k_mem m (fetch_args callp s).
Proof.
  intros H5 H6.
  rewrite (fetch_args_args_only callp (set_k_mem m s)).
  rewrite (fetch_args_args_only callp s) at 1.
  rewrite (fetch_args_u_arg_mem _ _ _ H5 H6). reflexivity.
Qed.

Lemma expand_stack_set_k_mem (sp : Z) (s : kstate) (m : Z -> Z) :
  expand_stack sp (set_k_mem m s) = set_k_mem m (expand_stack sp s).
Proof. unfold expand_stack. simpl. destruct (_ <? _); reflexivity. Qed.

(** X13. Of user memory the dispatcher reads three words at most before
    the handler is called: the word at the trapping instruction and the
    two words at the addresses of the stack arguments.  Replacing user
    memory by one that agrees with it at these three addresses changes
    neither the path taken nor the entry selected, and the handler is
    entered in the same state but for the memory itself. *)
Theorem decode_reads_three_words (tf : trapframe) (s : kstate) (m : Z -> Z) :
  m (wrap32 (tf_pc tf - INSN_SZ)) = k_mem s (wrap32 (tf_pc tf - INSN_SZ)) ->
  m (stack_arg_addr 32 tf) = k_mem s (stack_arg_addr 32 tf) ->
  m (stack_arg_addr 36 tf) = k_mem s (stack_arg_addr 36 tf) ->
  decode tf (set_k_mem m s) =
    match decode tf s with
    | Bad psig s0 => Bad psig (set_k_mem m s0)
    | NoEntry => NoEntry
    | Call callp s1 => Call callp (set_k_mem m s1)
    end.
Proof.
  intros Hc H5 H6. unfold decode.
  change (tf_sp (u_frame (syscall_enter tf (set_k_mem m s)))) with (tf_sp tf).
  change (tf_sp (u_frame (syscall_enter tf s))) with (tf_sp tf).
  change (data_end (syscall_enter tf (set_k_mem m s))) with (data_end s).
  change (data_end (syscall_enter tf s)) with (data_end s).
  destruct (tf_sp tf <? data_end s); [reflexivity|].
  change (syscall_enter tf (set_k_mem m s))
    with (set_k_mem m (syscall_enter tf s)).
  rewrite expand_stack_set_k_mem.
  set (s0 := expand_stack (tf_sp tf) (syscall_enter tf s)).
  assert (Hfr : u_frame s0 = tf) by (unfold s0; apply expand_stack_frame).
  assert (Hmem : k_mem s0 = k_mem s) by (unfold s0; rewrite expand_stack_mem; reflexivity).
  assert (Hcode : u_code s0 = wrap32 (tf_pc tf - INSN_SZ)).
  { unfold s0, expand_stack. destruct (_ <? _); reflexivity. }
  assert (Hsvc : svc_code (set_k_mem m s0) = svc_code s0).
  { rewrite !svc_code_mod. simpl. rewrite Hcode, Hmem, Hc. reflexivity. }
  rewrite Hsvc. unfold select.
  destruct (sysent_at _) as [callp|]; [|reflexivity].
  unfold call_state. rewrite fetch_args_set_k_mem.
  - reflexivity.
  - rewrite Hfr, Hmem. exact H5.
  - rewrite Hfr, Hmem. exact H6.
Qed.

End MoreProperties.

(** ** Properties of the trampoline *)

(** *** Stores and loads of words *)

Lemma byte_sum (v : Z) :
  byte_of v 0 + 2 ^ 8 * byte_of v 1 + 2 ^ 16 * byte_of v 2
  + 2 ^ 24 * byte_of v 3 = wrap32 v.
Proof.
  unfold byte_of, wrap32. cbn [Z.mul Pos.mul].
  change (2 ^ 0) with 1. change (2 ^ 8) with 256. change (2 ^ 16) with 65536.
  change (2 ^ 24) with 16777216. change (2 ^ 32) with 4294967296.
  Z.div_mod_to_equations; lia.
Qed.

Lemma wrap32_shift (x a k : Z) :
  wrap32 (x + k - a) = wrap32 (wrap32 (x - a) + k).
Proof. rewrite wrap32_wrap32_add. f_equal. lia. Qed.

(** The word read where a word was stored is that word. *)
Lemma store32_at (m : Z -> Z) (a v x : Z) :
  wrap32 (x - a) = 0 -> store32 m a v x = wrap32 v.
Proof.
  intros H0. unfold store32, near. rewrite H0. simpl orb. cbv iota.
  rewrite !wrap32_shift, H0.
  change (wrap32 (0 + 0)) with 0. change (wrap32 (0 + 1)) with 1.
  change (wrap32 (0 + 2)) with 2. change (wrap32 (0 + 3)) with 3.
  simpl Z.ltb. cbv iota. apply byte_sum.
Qed.

(** A word four bytes or more away is not changed by the store. *)
Lemma store32_far (m : Z -> Z) (a v x : Z) :
  4 <= wrap32 (x - a) <= 2 ^ 32 - 4 -> store32 m a v x = m x.
Proof.
  intros H. unfold store32, near.
  replace (wrap32 (x - a) <? 4) with false by (symmetry; apply Z.ltb_ge; lia).
  replace (2 ^ 32 - 4 <? wrap32 (x - a)) with false
    by (symmetry; apply Z.ltb_ge; lia).
  reflexivity.
Qed.

Lemma store_words_far (ws : list Z) : forall (m : Z -> Z) (a x : Z),
  (forall i, 0 <= i < Z.of_nat (length ws) ->
             4 <= wrap32 (x - a - 4 * i) <= 2 ^ 32 - 4) ->
  store_words m a ws x = m x.
Proof.
  induction ws as [|w ws IH]; intros m a x Hfar; [reflexivity|].
  simpl. rewrite IH.
  - apply store32_far. specialize (Hfar 0). rewrite Z.sub_0_r in Hfar.
    apply Hfar. simpl length. lia.
  - intros i Hi. specialize (Hfar (i + 1)).
    replace (wrap32 (x - wrap32 (a + 4) - 4 * i))
      with (wrap32 (x - a - 4 * (i + 1))).
    + apply Hfar. simpl length. lia.
    + clear. wrap32_lia.
Qed.

Lemma store_words_at (ws : list Z) :
  forall (m : Z -> Z) (a x : Z) (j : nat) (w : Z),
  Z.of_nat (length ws) <= 2 ^ 30 ->
  ws !! j = Some w ->
  wrap32 (x - a) = 4 * Z.of_nat j ->
  store_words m a ws x = wrap32 w.
Proof.
  induction ws as [|w0 ws IH]; intros m a x j w Hlen Hj Hx; [discriminate|].
  simpl length in Hlen. change (2 ^ 30) with 1073741824 in Hlen.
  destruct j as [|j]; simpl in Hj.
  - injection Hj as ->. simpl.
    rewrite store_words_far.
    + apply store32_at. exact Hx.
    + intros i Hi. change (Z.of_nat 0) with 0 in Hx.
      clear IH. wrap32_lia.
  - simpl. apply (IH _ _ _ j); [lia|exact Hj|].
    apply lookup_lt_Some in Hj.
    clear IH. wrap32_lia.
Qed.

Lemma load_words_8 (s : kstate) (a : Z) :
  load_words s a 8 =
    [load32 s a; load32 s (wrap32 (a + 4)); load32 s (wrap32 (a + 8));
     load32 s (wrap32 (a + 12)); load32 s (wrap32 (a + 16));
     load32 s (wrap32 (a + 20)); load32 s (wrap32 (a + 24));
     load32 s (wrap32 (a + 28))].
Proof.
  simpl. rewrite !wrap32_wrap32_add.
  replace (a + 4 + 4) with (a + 8) by lia.
  replace (a + 8 + 4) with (a + 12) by lia.
  replace (a + 12 + 4) with (a + 16) by lia.
  replace (a + 16 + 4) with (a + 20) by lia.
  replace (a + 20 + 4) with (a + 24) by lia.
  replace (a + 24 + 4) with (a + 28) by lia.
  reflexivity.
Qed.

(** Word [j] of a block of words stored at [a], read back. *)
Lemma stored_word (m : Z -> Z) (a : Z) (ws : list Z) (j : nat) (w : Z) :
  Z.of_nat (length ws) <= 2 ^ 30 ->
  ws !! j = Some w ->
  store_words m a ws (wrap32 (a + 4 * Z.of_nat j)) = wrap32 w.
Proof.
  intros Hlen Hj. apply (store_words_at _ _ _ _ j); [exact Hlen|exact Hj|].
  apply lookup_lt_Some in Hj. change (2 ^ 30) with 1073741824 in Hlen.
  clear - Hj Hlen. wrap32_lia.
Qed.

Lemma stored_word_first (m : Z -> Z) (a w : Z) (ws : list Z) :
  Z.of_nat (length (w :: ws)) <= 2 ^ 30 ->
  store_words m a (w :: ws) a = wrap32 w.
Proof.
  intros Hlen. apply (store_words_at _ _ _ _ 0%nat); [exact Hlen|reflexivity|].
  rewrite Z.sub_diag. reflexivity.
Qed.

(** Reading back eight words stored at [a]. *)
Lemma load_stored_words (s : kstate) (m : Z -> Z) (a : Z)
      (w0 w1 w2 w3 w4 w5 w6 w7 : Z) :
  load_words (set_k_mem (store_words m a [w0; w1; w2; w3; w4; w5; w6; w7]) s)
             a 8 =
    map wrap32 [w0; w1; w2; w3; w4; w5; w6; w7].
Proof.
  rewrite load_words_8. unfold load32. cbn [k_mem set_k_mem].
  rewrite stored_word_first by (simpl; lia).
  rewrite (stored_word _ a _ 1 w1) by (simpl; (lia || reflexivity)).
  rewrite (stored_word _ a _ 2 w2) by (simpl; (lia || reflexivity)).
  rewrite (stored_word _ a _ 3 w3) by (simpl; (lia || reflexivity)).
  rewrite (stored_word _ a _ 4 w4) by (simpl; (lia || reflexivity)).
  rewrite (stored_word _ a _ 5 w5) by (simpl; (lia || reflexivity)).
  rewrite (stored_word _ a _ 6 w6) by (simpl; (lia || reflexivity)).
  rewrite (stored_word _ a _ 7 w7) by (simpl; (lia || reflexivity)).
  rewrite !wrap32_idem. reflexivity.
Qed.

(** A word read outside a block of stored words. *)
Lemma store_words_outside (m : Z -> Z) (a x : Z) (ws : list Z) :
  0 <= a -> a + 4 * Z.of_nat (length ws) <= 2 ^ 32 ->
  0 <= x -> x + 4 <= 2 ^ 32 ->
  x + 4 <= a \/ a + 4 * Z.of_nat (length ws) <= x ->
  store_words m a ws x = m x.
Proof.
  intros Ha Ha' Hx Hx' Hout. apply store_words_far.
  intros i Hi. wrap32_lia.
Qed.

(** Eight words read outside a block of stored words. *)
Lemma load_words_outside (s : kstate) (m : Z -> Z) (a b : Z) (ws : list Z) :
  0 <= a -> a + 4 * Z.of_nat (length ws) <= 2 ^ 32 ->
  0 <= b -> b + 32 <= 2 ^ 32 ->
  b + 32 <= a \/ a + 4 * Z.of_nat (length ws) <= b ->
  load_words (set_k_mem (store_words m a ws) s) b 8 =
    load_words (set_k_mem m s) b 8.
Proof.
  intros Ha Ha' Hb Hb' Hout. rewrite !load_words_8. unfold load32.
  cbn [k_mem set_k_mem].
  assert (Hw : forall k, 0 <= k <= 28 -> wrap32 (b + k) = b + k)
    by (intros k Hk; apply wrap32_small; lia).
  rewrite !Hw by lia.
  rewrite (store_words_outside m a b) by lia.
  rewrite !(store_words_outside m a (b + _)) by lia.
  reflexivity.
Qed.

(** A word above the callee's part of the stack. *)
Lemma scribble_above (sp : Z) (junk m : Z -> Z) (x : Z) :
  sp <= x -> x + 4 <= 2 ^ 32 -> 0 <= x ->
  scribble sp junk m x = m x.
Proof.
  intros Hsp Hx H0. unfold scribble, below.
  rewrite <- (Z.add_0_r x) at 1.
  assert (Hw : forall k, 0 <= k <= 3 -> (wrap32 (x + k) <? sp) = false).
  { intros k Hk. apply Z.ltb_ge. rewrite wrap32_small by lia. lia. }
  rewrite !Hw by lia. reflexivity.
Qed.

Lemma load_words_scribble (s : kstate) (sp : Z) (junk m : Z -> Z) (b : Z) :
  sp <= b -> 0 <= b -> b + 32 <= 2 ^ 32 ->
  load_words (set_k_mem (scribble sp junk m) s) b 8 =
    load_words (set_k_mem m s) b 8.
Proof.
  intros Hsp Hb Hb'. rewrite !load_words_8. unfold load32.
  cbn [k_mem set_k_mem].
  assert (Hw : forall k, 0 <= k <= 28 -> wrap32 (b + k) = b + k)
    by (intros k Hk; apply wrap32_small; lia).
  rewrite !Hw by lia.
  rewrite (scribble_above sp junk m b) by lia.
  rewrite !(scribble_above sp junk m (b + _)) by lia.
  reflexivity.
Qed.

Lemma aligned_true (a : Z) : a mod 4 = 0 -> aligned a = true.
Proof. intros H. unfold aligned. rewrite H. reflexivity. Qed.

Lemma aligned_spec (a : Z) : aligned a = true -> a mod 4 = 0.
Proof. unfold aligned. intros H. apply Z.eqb_eq. exact H. Qed.

Lemma load_words_mem (s s' : kstate) (a : Z) (n : nat) :
  k_mem s = k_mem s' -> load_words s a n = load_words s' a n.
Proof.
  intros H. revert a. induction n as [|n IH]; intros a; [reflexivity|].
  simpl. unfold load32. rewrite H, IH. reflexivity.
Qed.

(** Clearing the two low bits of a multiple of four. *)
Lemma land_aligned (a : Z) : aligned a = true -> Z.land a (Z.lnot 3) = a.
Proof.
  intros H. apply aligned_spec in H. rewrite land_lnot_3.
  Z.div_mod_to_equations. lia.
Qed.

Section TrampolineProperties.
Context `{M : Machine} `{T : SyscallTable}.
Variable scratch : kstate -> clobbered.

Local Arguments syscall : simpl never.
Local Arguments wrap32 : simpl never.
Local Arguments load32 : simpl never.
Local Arguments store_words : simpl never.
Local Arguments load_words : simpl never.

(** [push] and [pop] of eight registers on a stack pointer in range. *)
Lemma push_8 (rs : list nat) (c : cpu) :
  length rs = 8%nat -> MSP c mod 4 = 0 -> 32 <= MSP c < 2 ^ 32 ->
  push rs c =
    Resumed
      (set_MSP (MSP c - 32)
         (set_kern
            (set_k_mem
               (store_words (k_mem (kern c)) (MSP c - 32) (map (gpr c) rs))
               (kern c)) c)).
Proof.
  intros Hl Hm Hr. unfold push. rewrite Hl.
  change (4 * Z.of_nat 8) with 32.
  rewrite (wrap32_small (MSP c - 32)) by lia.
  rewrite aligned_true; [reflexivity|].
  clear - Hm. Z.div_mod_to_equations. lia.
Qed.

Lemma pop_8 (rs : list nat) (c : cpu) :
  length rs = 8%nat -> MSP c mod 4 = 0 -> 0 <= MSP c -> MSP c + 32 < 2 ^ 32 ->
  pop rs c =
    Resumed
      (set_MSP (MSP c + 32)
         (set_gpr (set_regs rs (load_words (kern c) (MSP c) 8) (gpr c)) c)).
Proof.
  intros Hl Hm H0 Hr. unfold pop. rewrite Hl.
  change (4 * Z.of_nat 8) with 32.
  rewrite (wrap32_small (MSP c + 32)) by lia.
  rewrite aligned_true by exact Hm. reflexivity.
Qed.

Lemma load_stored_frame (s : kstate) (m : Z -> Z) (a : Z) (f : trapframe) :
  load_words (set_k_mem (store_words m a (frame_words f)) s) a 8 =
    map wrap32 (frame_words f).
Proof. unfold frame_words. apply load_stored_words. Qed.

Lemma read_frame_words (s : kstate) (a : Z) :
  frame_words (read_frame s a) = load_words s a 8.
Proof. rewrite load_words_8. reflexivity. Qed.

Lemma frame_words_inj (f g : trapframe) :
  frame_words f = frame_words g -> f = g.
Proof.
  destruct f, g. unfold frame_words. cbn. intros H.
  injection H as -> -> -> -> -> -> -> ->. reflexivity.
Qed.

Lemma load32_wrap32 (s : kstate) (a : Z) : wrap32 (load32 s a) = load32 s a.
Proof. unfold load32. apply wrap32_idem. Qed.

(** *** The first [push] *)

Lemma pushed_eq (c : cpu) :
  MSP c mod 4 = 0 -> 32 <= MSP c < 2 ^ 32 ->
  pushed c =
    set_k_mem (store_words (k_mem (kern c)) (MSP c - 32)
                 (map (gpr c) [4; 5; 6; 7; 8; 9; 10; 11]%nat))
              (kern c).
Proof.
  intros Hm Hr. unfold pushed.
  rewrite push_8; [reflexivity|reflexivity|exact Hm|exact Hr].
Qed.

Lemma pushed_saved (c : cpu) :
  MSP c mod 4 = 0 -> 32 <= MSP c < 2 ^ 32 ->
  load_words (pushed c) (MSP c - 32) 8 =
    map wrap32 (map (gpr c) [4; 5; 6; 7; 8; 9; 10; 11]%nat).
Proof.
  intros Hm Hr. rewrite (pushed_eq c Hm Hr). cbn [map].
  apply load_stored_words.
Qed.

Lemma pushed_outside (c : cpu) (x : Z) :
  MSP c mod 4 = 0 -> 32 <= MSP c < 2 ^ 32 ->
  0 <= x -> x + 4 <= 2 ^ 32 -> x + 4 <= MSP c - 32 \/ MSP c <= x ->
  k_mem (pushed c) x = k_mem (kern c) x.
Proof.
  intros Hm Hr Hx Hx' Hout. rewrite (pushed_eq c Hm Hr). cbn [k_mem set_k_mem].
  apply store_words_outside; simpl; lia.
Qed.

Lemma pushed_fields (c : cpu) :
  pushed c = set_k_mem (k_mem (pushed c)) (kern c).
Proof.
  unfold pushed, push. destruct (aligned _); [|destruct (kern c); reflexivity].
  reflexivity.
Qed.

Lemma set_k_mem_pushed (m : Z -> Z) (c : cpu) :
  set_k_mem m (pushed c) = set_k_mem m (kern c).
Proof. rewrite pushed_fields. reflexivity. Qed.

(** The words at [PSP] are not touched by the first [push] when they
    share no byte with the eight words below [MSP]. *)
Lemma captured_frame_pushed (c : cpu) :
  entry_ok c -> apart (PSP c) (MSP c - 32) ->
  captured_frame (pushed c) (PSP c) = captured_frame (kern c) (PSP c).
Proof.
  intros (Hm & Hr & Hp & Hp0 & Hp1) (_ & _ & _ & _ & Hsep).
  assert (Hw : forall k, 0 <= k <= 28 -> wrap32 (PSP c + k) = PSP c + k)
    by (intros k Hk; apply wrap32_small; lia).
  assert (Hl : forall x, PSP c <= x -> x + 4 <= PSP c + 32 ->
                         load32 (pushed c) x = load32 (kern c) x).
  { intros x Hx Hx'. unfold load32. f_equal.
    apply pushed_outside; [exact Hm|lia|lia|lia|lia]. }
  unfold captured_frame. rewrite !Hw by lia.
  rewrite !Hl by lia. reflexivity.
Qed.

(** When [PSP] is the address of the eight words below [MSP], the frame
    is made of the registers just pushed. *)
Lemma captured_frame_aliased (c : cpu) :
  entry_ok c -> PSP c = MSP c - 32 ->
  frame_words (captured_frame (pushed c) (PSP c)) =
    [wrap32 (gpr c 4%nat); wrap32 (gpr c 5%nat); wrap32 (gpr c 6%nat);
     wrap32 (gpr c 7%nat); PSP c; wrap32 (gpr c 9%nat);
     wrap32 (gpr c 10%nat); wrap32 (gpr c 11%nat)].
Proof.
  intros (Hm & Hr & Hp & Hp0 & Hp1) Heq.
  assert (Hs := pushed_saved c Hm ltac:(lia)).
  rewrite <- Heq, load_words_8 in Hs. cbn [map] in Hs.
  injection Hs as H0 H1 H2 H3 _ H5 H6 H7.
  unfold captured_frame, frame_words.
  cbn [tf_r0 tf_r1 tf_r2 tf_r3 tf_sp tf_lr tf_pc tf_psr].
  rewrite H0, H1, H2, H3, H5, H6, H7. reflexivity.
Qed.

(** *** The handler up to the call *)

Lemma at_call_eq (c : cpu) :
  entry_ok c ->
  PendSV_entry c = Resumed (at_call c) /\
  exists g,
    g 0%nat = MSP c - 64 /\
    at_call c =
      mkCpu g (LR c) (MSP c - 64) (PSP c) 1
        (set_k_mem
           (store_words (k_mem (pushed c)) (MSP c - 64)
              (frame_words (captured_frame (pushed c) (PSP c))))
           (pushed c)).
Proof.
  intros (Hm & Hr & Hp & Hp0 & Hp1).
  rewrite (pushed_eq c Hm ltac:(lia)).
  evar (c1 : cpu).
  assert (Hrun : PendSV_entry c = Resumed c1).
  { unfold PendSV_entry.
    rewrite push_8; [|reflexivity|exact Hm|cbn [cpsid_i MSP]; lia].
    cbn [and_then]. unfold ldmfd.
    cbn [mrs_PSP set_gpr set_MSP set_kern cpsid_i gpr MSP PSP LR PRIMASK kern
         set_reg Nat.eqb].
    rewrite (aligned_true (PSP c)) by exact Hp.
    cbn [and_then length].
    rewrite load_words_8.
    rewrite push_8;
      [|reflexivity|cbn; clear - Hm; Z.div_mod_to_equations; lia|cbn; lia].
    cbn [and_then].
    cbn [mrs_MSP mov mrs_PSP set_gpr set_MSP set_kern cpsid_i gpr MSP PSP LR
         PRIMASK kern set_reg set_regs Nat.eqb map].
    replace (MSP c - 32 - 32) with (MSP c - 64) by lia.
    subst c1. reflexivity. }
  assert (Hat : at_call c = c1) by (unfold at_call; rewrite Hrun; reflexivity).
  rewrite Hat. split; [exact Hrun|]. subst c1.
  eexists. split; [|reflexivity]. reflexivity.
Qed.

Lemma at_call_spec (c : cpu) :
  entry_ok c ->
  PendSV_entry c = Resumed (at_call c) /\
  gpr (at_call c) 0%nat = MSP c - 64 /\
  MSP (at_call c) = MSP c - 64 /\
  PSP (at_call c) = PSP c /\
  LR (at_call c) = LR c /\
  PRIMASK (at_call c) = 1 /\
  kern (at_call c) = set_k_mem (k_mem (kern (at_call c))) (kern c) /\
  read_frame (kern (at_call c)) (MSP c - 64) =
    captured_frame (pushed c) (PSP c) /\
  load_words (kern (at_call c)) (MSP c - 32) 8 =
    map wrap32 (map (gpr c) [4; 5; 6; 7; 8; 9; 10; 11]%nat) /\
  (forall x, 0 <= x -> x + 4 <= 2 ^ 32 ->
             x + 4 <= MSP c - 64 \/ MSP c <= x ->
             k_mem (kern (at_call c)) x = k_mem (kern c) x).
Proof.
  intros Hok. destruct (at_call_eq c Hok) as [Hrun [g [Hg Hat]]].
  destruct Hok as (Hm & Hr & Hp & Hp0 & Hp1).
  split; [exact Hrun|]. rewrite Hat. cbn [gpr MSP PSP LR PRIMASK kern].
  split; [exact Hg|]. do 4 (split; [reflexivity|]).
  split.
  { rewrite set_k_mem_pushed. reflexivity. }
  split.
  { apply frame_words_inj. rewrite read_frame_words, load_stored_frame.
    unfold frame_words, captured_frame.
    cbn [map tf_r0 tf_r1 tf_r2 tf_r3 tf_sp tf_lr tf_pc tf_psr].
    rewrite !load32_wrap32, (wrap32_small (PSP c)) by lia. reflexivity. }
  split.
  { rewrite load_words_outside by (simpl; lia).
    rewrite <- (pushed_saved c Hm) by lia.
    apply load_words_mem. reflexivity. }
  intros x Hx Hx' Hout. cbn [k_mem set_k_mem].
  rewrite store_words_outside by (simpl; lia).
  apply pushed_outside; [exact Hm|lia|lia|lia|lia].
Qed.

(** How the handler ends, from how the call ends. *)
Lemma PendSV_Handler_run (c : cpu) :
  entry_ok c ->
  match trap_call (at_call c) with
  | Panic msg => PendSV_Handler scratch c = Halted msg
  | Overrun => PendSV_Handler scratch c = Undefined
  | Return sf =>
      if aligned (wrap32 (tf_sp (u_frame sf))) then
        exists c',
          PendSV_Handler scratch c = Resumed c' /\
          LR c' = 0xFFFFFFFD /\
          MSP c' = MSP c /\
          PSP c' = wrap32 (tf_sp (u_frame sf)) /\
          PRIMASK c' = c_primask (scratch sf) /\
          gpr c' 0%nat = c_r0 (scratch sf) /\
          gpr c' 1%nat = wrap32 (tf_sp (u_frame sf)) /\
          gpr c' 2%nat = wrap32 (tf_r0 (u_frame sf)) /\
          gpr c' 3%nat = wrap32 (tf_r1 (u_frame sf)) /\
          gpr c' 12%nat = c_ip (scratch sf) /\
          map (gpr c') [4; 5; 6; 7; 8; 9; 10; 11]%nat =
            load_words (kern c') (MSP c - 32) 8 /\
          kern c' =
            set_k_mem
              (store_words
                 (scribble (MSP c - 64) (c_stack (scratch sf))
                    (store_words (k_mem sf) (MSP c - 64)
                       (frame_words (u_frame sf))))
                 (wrap32 (tf_sp (u_frame sf)))
                 (map wrap32 (frame_words (u_frame sf))))
              sf
      else PendSV_Handler scratch c = Faulted
  end.
Proof.
  intros Hok. destruct (at_call_eq c Hok) as [Hrun [g [Hg Hat]]].
  destruct Hok as (Hm & Hr & Hp & Hp0 & Hp1).
  unfold PendSV_Handler. rewrite Hrun. cbn [and_then].
  unfold bl_syscall.
  destruct (trap_call (at_call c)) as [msg| |sf]; [reflexivity|reflexivity|].
  cbn [and_then]. rewrite Hat. cbn [gpr MSP]. rewrite Hg.
  unfold PendSV_exit.
  rewrite pop_8;
    [|reflexivity|cbn [MSP]; clear - Hm; Z.div_mod_to_equations; lia
     |cbn [MSP]; lia|cbn [MSP]; lia].
  cbn [and_then MSP kern set_MSP set_gpr gpr LR PSP PRIMASK].
  rewrite load_words_scribble by lia.
  rewrite load_stored_frame.
  unfold stmia.
  cbn [mov set_gpr set_MSP set_kern set_regs set_reg gpr Nat.eqb map LR MSP
       PSP PRIMASK kern frame_words].
  destruct (aligned (wrap32 (tf_sp (u_frame sf)))) eqn:Hal.
  - cbn [and_then].
    rewrite pop_8;
      [|reflexivity|cbn; clear - Hm; Z.div_mod_to_equations; lia
       |cbn; lia|cbn; lia].
    cbn [mov set_gpr set_MSP set_kern set_regs set_reg gpr Nat.eqb map LR MSP
         PSP PRIMASK kern msr_PSP].
    replace (MSP c - 64 + 32) with (MSP c - 32) by lia.
    rewrite load_words_8.
    eexists. split; [reflexivity|].
    cbn [mov_lr mov set_gpr set_MSP set_kern set_regs set_reg gpr Nat.eqb map
         LR MSP PSP PRIMASK kern msr_PSP].
    split; [reflexivity|]. split; [lia|].
    split; [apply land_aligned; exact Hal|].
    do 6 (split; [reflexivity|]).
    split; [rewrite load_words_8; reflexivity|reflexivity].
  - reflexivity.
Qed.

(** The call the handler makes. *)
Lemma trap_call_eq (c : cpu) :
  entry_ok c ->
  trap_call (at_call c) =
    syscall (MSP c - 64) (captured_frame (pushed c) (PSP c)) (kern (at_call c)).
Proof.
  intros Hok.
  destruct (at_call_spec c Hok) as (_ & Hr0 & _ & _ & _ & _ & _ & Hfr & _).
  unfold trap_call. rewrite Hr0, Hfr. reflexivity.
Qed.

(** The words of the saved registers after the handler, when the call
    left them as they were and the frame is written back away from
    them. *)
Lemma saved_words_kept (c : cpu) (sf : kstate) (junk : Z -> Z) (sp : Z)
      (ws : list Z) :
  entry_ok c -> length ws = 8%nat ->
  apart sp (MSP c - 32) ->
  load_words
    (set_k_mem
       (store_words
          (scribble (MSP c - 64) junk
             (store_words (k_mem sf) (MSP c - 64) (frame_words (u_frame sf))))
          sp ws) sf)
    (MSP c - 32) 8 =
  load_words sf (MSP c - 32) 8.
Proof.
  intros (Hm & Hr & Hp & Hp0 & Hp1) Hl (Ha & Ha' & _ & _ & Hsep).
  rewrite load_words_outside by (rewrite ?Hl; lia).
  rewrite load_words_scribble by lia.
  rewrite load_words_outside by (simpl; lia).
  apply load_words_mem. reflexivity.
Qed.


(** What [syscall] hands back on the fault path, at the handler's call. *)
Lemma trap_call_bad (c : cpu) :
  entry_ok c -> stack_overflow (MSP c - 64) = false ->
  PSP c < data_end (kern c) ->
  trap_call (at_call c) =
    Return (syscall_bad SIGSEGV (u_ru_stime (kern c))
              (syscall_enter (captured_frame (pushed c) (PSP c))
                             (kern (at_call c)))).
Proof.
  intros Hok Hf Hlt.
  destruct (at_call_spec c Hok) as (_ & _ & _ & _ & _ & _ & Hk & _).
  rewrite (trap_call_eq c Hok).
  rewrite (syscall_bad_path T (MSP c - 64) _ (kern (at_call c)) Hf).
  - rewrite Hk. reflexivity.
  - rewrite Hk. exact Hlt.
Qed.

(** X20. A trap whose user stack pointer is the address of the eight
    words below [MSP].  The frame the handler reads at [PSP] is then made
    of the registers it has just pushed, and it is written back where
    they were saved.  On the fault path ([PSP] below the end of the data
    segment) the handler reaches the exception return with [r4]-[r7] and
    [r9]-[r11] as at entry, but with [PSP], not its entry value, in
    [r8]. *)
Theorem pendsv_fault_on_kernel_stack (c : cpu) :
  entry_ok c -> PSP c = MSP c - 32 ->
  stack_overflow (MSP c - 64) = false ->
  PSP c < data_end (kern c) ->
  exists c',
    PendSV_Handler scratch c = Resumed c' /\
    PSP c' = PSP c /\ MSP c' = MSP c /\
    map (gpr c') [4; 5; 6; 7; 8; 9; 10; 11]%nat =
      [wrap32 (gpr c 4%nat); wrap32 (gpr c 5%nat); wrap32 (gpr c 6%nat);
       wrap32 (gpr c 7%nat); PSP c; wrap32 (gpr c 9%nat);
       wrap32 (gpr c 10%nat); wrap32 (gpr c 11%nat)] /\
    load_words (kern c') (PSP c) 8 =
      map (gpr c') [4; 5; 6; 7; 8; 9; 10; 11]%nat.
Proof.
  intros Hok Heq Hf Hlt.
  pose proof (PendSV_Handler_run c Hok) as Hrun.
  rewrite (trap_call_bad c Hok Hf Hlt) in Hrun.
  cbn [u_frame syscall_bad syscall_out emit syscall_enter set_u_code
       set_u_frame set_u_error captured_frame tf_sp] in Hrun.
  pose proof Hok as (Hm & Hr & Hp & Hp0 & Hp1).
  rewrite (wrap32_small (PSP c)), (aligned_true _ Hp) in Hrun by lia.
  destruct Hrun as (c' & Hres & _ & Hmsp & Hpsp & _ & _ & _ & _ & _ & _
                    & Hregs & Hkern).
  exists c'. split; [exact Hres|]. split; [exact Hpsp|]. split; [exact Hmsp|].
  assert (Hl : load_words (kern c') (PSP c) 8 =
               [wrap32 (gpr c 4%nat); wrap32 (gpr c 5%nat);
                wrap32 (gpr c 6%nat); wrap32 (gpr c 7%nat); PSP c;
                wrap32 (gpr c 9%nat); wrap32 (gpr c 10%nat);
                wrap32 (gpr c 11%nat)]).
  { rewrite Hkern.
    fold (captured_frame (pushed c) (PSP c)).
    rewrite (captured_frame_aliased c Hok Heq).
    cbn [map]. rewrite load_stored_words. cbn [map].
    rewrite !wrap32_idem, (wrap32_small (PSP c)) by lia. reflexivity. }
  rewrite Hregs, <- Heq. split; [exact Hl|reflexivity].
Qed.

(** X16. The callee-saved registers across the handler.  When [syscall]
    returns with the eight words saved below the entry [MSP] as they were
    at the call, and the stack pointer of the frame it hands back is a
    multiple of four whose eight words share no byte with them, the
    handler reaches the exception return with [r4]-[r11] as at entry,
    [MSP] where it was, and [lr] holding 0xFFFFFFFD, the return to thread
    mode on [PSP]. *)
Theorem pendsv_restores_callee_saved (c : cpu) (sf : kstate) :
  entry_ok c ->
  trap_call (at_call c) = Return sf ->
  aligned (wrap32 (tf_sp (u_frame sf))) = true ->
  load_words sf (MSP c - 32) 8 = load_words (kern (at_call c)) (MSP c - 32) 8 ->
  apart (wrap32 (tf_sp (u_frame sf))) (MSP c - 32) ->
  exists c',
    PendSV_Handler scratch c = Resumed c' /\
    map (gpr c') [4; 5; 6; 7; 8; 9; 10; 11]%nat =
      map wrap32 (map (gpr c) [4; 5; 6; 7; 8; 9; 10; 11]%nat) /\
    (forall i, (4 <= i <= 11)%nat -> u_int_ok (gpr c i) ->
               gpr c' i = gpr c i) /\
    MSP c' = MSP c /\
    LR c' = 0xFFFFFFFD.
Proof.
  intros Hok Hcall Hal Hkept Hsep.
  pose proof (PendSV_Handler_run c Hok) as Hrun.
  rewrite Hcall, Hal in Hrun.
  destruct Hrun as (c' & Hres & Hlr & Hmsp & _ & _ & _ & _ & _ & _ & _
                    & Hregs & Hkern).
  exists c'. split; [exact Hres|].
  assert (Hmap : map (gpr c') [4; 5; 6; 7; 8; 9; 10; 11]%nat =
                 map wrap32 (map (gpr c) [4; 5; 6; 7; 8; 9; 10; 11]%nat)).
  { rewrite Hregs, Hkern.
    rewrite (saved_words_kept c sf _ _ _ Hok) by (reflexivity || exact Hsep).
    rewrite Hkept.
    destruct (at_call_spec c Hok) as (_ & _ & _ & _ & _ & _ & _ & _ & Hsv & _).
    exact Hsv. }
  split; [exact Hmap|]. split; [|split; [exact Hmsp|exact Hlr]].
  intros i Hi Hu. cbn [map] in Hmap.
  injection Hmap as H4 H5 H6 H7 H8 H9 H10 H11.
  do 4 (destruct i as [|i]; [lia|]).
  do 8 (destruct i as [|i];
        [rewrite <- (wrap32_small _ Hu); assumption|]).
  lia.
Qed.


(** The handler reaches its end when [syscall] returns with a frame whose
    stack pointer is a multiple of four. *)
Lemma PendSV_Handler_returns (c : cpu) (sf : kstate) :
  entry_ok c ->
  trap_call (at_call c) = Return sf ->
  aligned (wrap32 (tf_sp (u_frame sf))) = true ->
  exists c',
    PendSV_Handler scratch c = Resumed c' /\
    LR c' = 0xFFFFFFFD /\
    MSP c' = MSP c /\
    PSP c' = wrap32 (tf_sp (u_frame sf)) /\
    map (gpr c') [4; 5; 6; 7; 8; 9; 10; 11]%nat =
      load_words (kern c') (MSP c - 32) 8 /\
    kern c' =
      set_k_mem
        (store_words
           (scribble (MSP c - 64) (c_stack (scratch sf))
              (store_words (k_mem sf) (MSP c - 64)
                 (frame_words (u_frame sf))))
           (wrap32 (tf_sp (u_frame sf)))
           (map wrap32 (frame_words (u_frame sf))))
        sf.
Proof.
  intros Hok Hcall Hal.
  pose proof (PendSV_Handler_run c Hok) as Hrun.
  rewrite Hcall, Hal in Hrun.
  destruct Hrun as (c' & Hres & Hlr & Hmsp & Hpsp & _ & _ & _ & _ & _ & _
                    & Hregs & Hkern).
  exists c'. repeat split; assumption.
Qed.

(** A run on the fault path, from what [syscall] hands back there. *)
Lemma fault_run (c : cpu) (sf : kstate) :
  entry_ok c -> apart (PSP c) (MSP c - 32) ->
  trap_call (at_call c) = Return sf ->
  u_frame sf = captured_frame (kern c) (PSP c) ->
  k_mem sf = k_mem (kern (at_call c)) ->
  exists c',
    PendSV_Handler scratch c = Resumed c' /\
    PSP c' = PSP c /\
    load_words (kern c') (PSP c) 8 =
      [load32 (kern c) (PSP c);
       load32 (kern c) (wrap32 (PSP c + 4));
       load32 (kern c) (wrap32 (PSP c + 8));
       load32 (kern c) (wrap32 (PSP c + 12));
       PSP c;
       load32 (kern c) (wrap32 (PSP c + 20));
       load32 (kern c) (wrap32 (PSP c + 24));
       load32 (kern c) (wrap32 (PSP c + 28))] /\
    map (gpr c') [4; 5; 6; 7; 8; 9; 10; 11]%nat =
      map wrap32 (map (gpr c) [4; 5; 6; 7; 8; 9; 10; 11]%nat) /\
    k_trace (kern c') = k_trace sf.
Proof.
  intros Hok Hsep Hcall Hfr Hmem.
  pose proof Hok as (Hm & Hr & Hp & Hp0 & Hp1).
  assert (Hsp : wrap32 (tf_sp (u_frame sf)) = PSP c).
  { rewrite Hfr. cbn [captured_frame tf_sp]. apply wrap32_small. lia. }
  assert (Hal : aligned (wrap32 (tf_sp (u_frame sf))) = true).
  { rewrite Hsp. apply aligned_true. exact Hp. }
  destruct (PendSV_Handler_returns c sf Hok Hcall Hal)
    as (c' & Hres & _ & _ & Hpsp & Hregs & Hkern).
  destruct (at_call_spec c Hok) as (_ & _ & _ & _ & _ & _ & _ & _ & Hsv & _).
  exists c'. split; [exact Hres|].
  split; [rewrite Hpsp; exact Hsp|].
  split; [|split].
  - rewrite Hkern, Hsp. unfold frame_words. cbn [map].
    rewrite load_stored_words. cbn [map]. rewrite !wrap32_idem.
    rewrite Hfr. unfold captured_frame.
    cbn [tf_r0 tf_r1 tf_r2 tf_r3 tf_sp tf_lr tf_pc tf_psr].
    rewrite !load32_wrap32, (wrap32_small (PSP c)) by lia. reflexivity.
  - rewrite Hregs, Hkern.
    rewrite (saved_words_kept c sf _ _ _ Hok);
      [|reflexivity|rewrite Hsp; exact Hsep].
    rewrite <- Hsv. apply load_words_mem. exact Hmem.
  - rewrite Hkern. reflexivity.
Qed.

(** X18. A faulting trap through the handler.  With room on the kernel
    stack, the words at [PSP] away from the eight words below [MSP], and
    [PSP] below the end of the data segment, the handler reaches the
    exception return with [PSP] where it was and [r4]-[r11] as at entry;
    the words at [PSP] are those the hardware saved, except the fifth,
    the saved [ip], which now holds [PSP]; [psignal] was called with
    [SIGSEGV] and [userret] with the saved [pc]. *)
Theorem pendsv_fault_keeps_user_frame (c : cpu) :
  entry_ok c -> apart (PSP c) (MSP c - 32) ->
  stack_overflow (MSP c - 64) = false ->
  PSP c < data_end (kern c) ->
  exists c',
    PendSV_Handler scratch c = Resumed c' /\
    PSP c' = PSP c /\
    load_words (kern c') (PSP c) 8 =
      [load32 (kern c) (PSP c);
       load32 (kern c) (wrap32 (PSP c + 4));
       load32 (kern c) (wrap32 (PSP c + 8));
       load32 (kern c) (wrap32 (PSP c + 12));
       PSP c;
       load32 (kern c) (wrap32 (PSP c + 20));
       load32 (kern c) (wrap32 (PSP c + 24));
       load32 (kern c) (wrap32 (PSP c + 28))] /\
    map (gpr c') [4; 5; 6; 7; 8; 9; 10; 11]%nat =
      map wrap32 (map (gpr c) [4; 5; 6; 7; 8; 9; 10; 11]%nat) /\
    k_trace (kern c') =
      k_trace (kern c) ++
      [Ev_arm_intr_enable; Ev_led_control 1; Ev_psignal SIGSEGV;
       Ev_userret (load32 (kern c) (wrap32 (PSP c + 24)))
                  (u_ru_stime (kern c));
       Ev_led_control 0].
Proof.
  intros Hok Hsep Hf Hlt.
  pose proof (trap_call_bad c Hok Hf Hlt) as Hcall.
  rewrite (captured_frame_pushed c Hok Hsep) in Hcall.
  destruct (fault_run c _ Hok Hsep Hcall eq_refl eq_refl)
    as (c' & Hres & Hpsp & Hw & Hregs & Htr).
  exists c'. split; [exact Hres|]. split; [exact Hpsp|].
  split; [exact Hw|]. split; [exact Hregs|].
  rewrite Htr, syscall_bad_trace.
  destruct (at_call_spec c Hok) as (_ & _ & _ & _ & _ & _ & -> & _).
  reflexivity.
Qed.

Lemma land_wrap32_mask (y m : Z) : Z.land y m = 0 -> Z.land (wrap32 y) m = 0.
Proof.
  intros H. unfold wrap32. rewrite <- Z.land_ones by lia.
  rewrite <- Z.land_assoc, (Z.land_comm (Z.ones 32)), Z.land_assoc, H.
  apply Z.land_0_l.
Qed.

Lemma encode_result_status (s : kstate) :
  u_error (encode_result s) = u_error s /\
  u_rval (encode_result s) = u_rval s.
Proof.
  rewrite encode_result_frame_only. split; reflexivity.
Qed.

(** X19. A successful call through the handler.  When the trap is not on
    the fault path and [syscall] returns with [u_error] 0 and a frame
    whose stack pointer is a multiple of four, the handler reaches the
    exception return with [PSP] at that stack pointer, the word there,
    which the hardware pops into [r0], holding [u_rval] as a [u_int], and
    the status word seven words up with the bits of [PSR_C] clear. *)
Theorem pendsv_success_return_value (c : cpu) (sf : kstate) :
  entry_ok c ->
  data_end (kern c) <= PSP c ->
  trap_call (at_call c) = Return sf ->
  u_error sf = 0 ->
  aligned (wrap32 (tf_sp (u_frame sf))) = true ->
  exists c',
    PendSV_Handler scratch c = Resumed c' /\
    PSP c' = wrap32 (tf_sp (u_frame sf)) /\
    load32 (kern c') (PSP c') = u_int_of_int (u_rval sf) /\
    Z.land (load32 (kern c') (wrap32 (PSP c' + 28))) PSR_C = 0.
Proof.
  intros Hok Hge Hcall He Hal.
  pose proof (PendSV_Handler_run c Hok) as Hrun.
  rewrite Hcall, Hal in Hrun.
  destruct Hrun as (c' & Hres & _ & _ & Hpsp & _ & _ & _ & _ & _ & _
                    & _ & Hkern).
  exists c'. split; [exact Hres|]. split; [exact Hpsp|].
  assert (Hl : load_words (kern c') (PSP c') 8 =
               map wrap32 (frame_words (u_frame sf))).
  { rewrite Hkern, Hpsp. unfold frame_words. cbn [map].
    rewrite load_stored_words. cbn [map]. rewrite !wrap32_idem.
    reflexivity. }
  rewrite load_words_8 in Hl. unfold frame_words in Hl. cbn [map] in Hl.
  injection Hl as Hw0 _ _ _ _ _ _ Hw7. rewrite Hw0, Hw7. clear Hw0 Hw7.
  (* the frame handed back is the encoded one *)
  rewrite (trap_call_eq c Hok) in Hcall.
  destruct (at_call_spec c Hok) as (_ & _ & _ & _ & _ & _ & Hk & _).
  unfold syscall in Hcall.
  destruct (stack_overflow (MSP c - 64)); [discriminate|].
  destruct (decode (captured_frame (pushed c) (PSP c)) (kern (at_call c)))
    as [psig sb| |callp s1] eqn:Hd; [|discriminate|].
  - exfalso.
    apply (decode_not_bad (captured_frame (pushed c) (PSP c))
             (kern (at_call c))) in Hd; [exact Hd|].
    rewrite Hk. exact Hge.
  - injection Hcall as <-.
    rewrite syscall_out_frame.
    assert (He' : u_error (setjmp_call callp s1) = 0).
    { destruct (encode_result_status (setjmp_call callp s1)) as [<- _].
      exact He. }
    rewrite (encode_result_success _ He').
    cbn [tf_r0 tf_psr set_tf_r0 set_tf_psr].
    split.
    + unfold u_int_of_int. rewrite wrap32_idem.
      destruct (encode_result_status (setjmp_call callp s1)) as [_ Hrv].
      cbn [u_rval syscall_out emit]. rewrite Hrv. reflexivity.
    + apply land_wrap32_mask, land_clear_mask.
Qed.

End TrampolineProperties.

(** ** The further properties evaluated on the demonstration board *)

Section MoreEvaluation.
Local Existing Instance Demo.machine.
Local Existing Instance Demo.table.

(** An instruction word with its upper three bytes set and 2 in the low
    byte selects entry 2. *)
Lemma svc_code_low_byte_witness :
  decode (Demo.plain 0x2001ff00) (Demo.state 0xabcdef02 0) =
    Call (mkSysent 6 Demo.fifth)
      (call_state (mkSysent 6 Demo.fifth)
         (expand_stack 0x2001ff00
            (syscall_enter (Demo.plain 0x2001ff00) (Demo.state 0xabcdef02 0)))) /\
  svc_code
    (expand_stack 0x2001ff00
       (syscall_enter (Demo.plain 0x2001ff00) (Demo.state 0xabcdef02 0))) = 2 /\
  exists i, (i < 256)%nat /\ sysent !! i = Some (mkSysent 6 Demo.fifth).
Proof.
  assert (Hd : decode (Demo.plain 0x2001ff00) (Demo.state 0xabcdef02 0) =
    Call (mkSysent 6 Demo.fifth)
      (call_state (mkSysent 6 Demo.fifth)
         (expand_stack 0x2001ff00
            (syscall_enter (Demo.plain 0x2001ff00) (Demo.state 0xabcdef02 0)))))
    by reflexivity.
  split; [exact Hd|].
  destruct (svc_code_low_byte _ _ _ _ Hd) as [Hmod [_ Hi]].
  split; [|exact Hi].
  rewrite Hmod. reflexivity.
Defined.

(** A handler that does nothing: value 0 although [u_rval] held 99 and
    [u_error] 5 before the trap. *)
Lemma untouched_state_reports_zero_witness :
  stack_overflow Demo.kframe = false /\
  @decode Demo.machine DemoCpu.idle_table
     (Demo.plain 0x2001ff00) (Demo.state 0xdf00 0) =
    Call (mkSysent 0 DemoCpu.idle)
      (call_state (mkSysent 0 DemoCpu.idle)
         (expand_stack 0x2001ff00
            (syscall_enter (Demo.plain 0x2001ff00) (Demo.state 0xdf00 0)))) /\
  exists sf,
    @syscall Demo.machine DemoCpu.idle_table
       Demo.kframe (Demo.plain 0x2001ff00) (Demo.state 0xdf00 0) = Return sf /\
    tf_r0 (u_frame sf) = 0 /\ tf_psr (u_frame sf) = 0x01000000.
Proof.
  assert (Hf : stack_overflow Demo.kframe = false) by reflexivity.
  assert (Hd : @decode Demo.machine DemoCpu.idle_table
     (Demo.plain 0x2001ff00) (Demo.state 0xdf00 0) =
    Call (mkSysent 0 DemoCpu.idle)
      (call_state (mkSysent 0 DemoCpu.idle)
         (expand_stack 0x2001ff00
            (syscall_enter (Demo.plain 0x2001ff00) (Demo.state 0xdf00 0)))))
    by reflexivity.
  split; [exact Hf|]. split; [exact Hd|].
  destruct (@untouched_state_reports_zero Demo.machine DemoCpu.idle_table
              _ _ _ _ _ Hf Hd eq_refl) as [sf [Hs Hfr]].
  exists sf. split; [exact Hs|]. rewrite Hfr. split; reflexivity.
Defined.

(** A three-argument entry: the four registers in slots 0 to 3, slots 4
    and 5 as before the trap. *)
Lemma register_arguments_witness :
  u_arg_ok (Demo.state 0xdf01 0) /\
  decode (Demo.plain 0x2001ff00) (Demo.state 0xdf01 0) =
    Call (mkSysent 3 Demo.seven)
      (call_state (mkSysent 3 Demo.seven)
         (expand_stack 0x2001ff00
            (syscall_enter (Demo.plain 0x2001ff00) (Demo.state 0xdf01 0)))) /\
  u_arg (call_state (mkSysent 3 Demo.seven)
           (expand_stack 0x2001ff00
              (syscall_enter (Demo.plain 0x2001ff00) (Demo.state 0xdf01 0))))
    = [1; 2; 3; 4; 170; 187].
Proof.
  assert (Hlen : u_arg_ok (Demo.state 0xdf01 0)) by reflexivity.
  assert (Hd : decode (Demo.plain 0x2001ff00) (Demo.state 0xdf01 0) =
    Call (mkSysent 3 Demo.seven)
      (call_state (mkSysent 3 Demo.seven)
         (expand_stack 0x2001ff00
            (syscall_enter (Demo.plain 0x2001ff00) (Demo.state 0xdf01 0)))))
    by reflexivity.
  split; [exact Hlen|]. split; [exact Hd|].
  destruct (register_arguments _ _ _ _ Hlen Hd)
    as [_ [Hreg [H4 [H5 Hok]]]].
  assert (Hn : sy_narg (mkSysent 3 Demo.seven) <> 0) by (simpl; lia).
  destruct (Hreg Hn) as [E0 [E1 [E2 E3]]].
  assert (E4 := H4 ltac:(simpl; lia)).
  assert (E5 := H5 ltac:(simpl; lia)).
  apply list_eq. intros i.
  do 6 (destruct i as [|i]; [assumption|]).
  unfold u_arg_ok in Hok.
  rewrite lookup_ge_None_2 by (rewrite Hok; simpl; lia). reflexivity.
Defined.

(** A failing call: [tf_r1]-[tf_r3], [tf_sp] and [tf_lr] as passed in. *)
Lemma dispatcher_writes_r0_pc_psr_only_witness :
  stack_overflow Demo.kframe = false /\
  decode (Demo.plain 0x2001ff00) (Demo.state 0xdf00 0) =
    Call (mkSysent 0 Demo.nosys)
      (call_state (mkSysent 0 Demo.nosys)
         (expand_stack 0x2001ff00
            (syscall_enter (Demo.plain 0x2001ff00) (Demo.state 0xdf00 0)))) /\
  exists sf,
    syscall Demo.kframe (Demo.plain 0x2001ff00) (Demo.state 0xdf00 0)
      = Return sf /\
    tf_r1 (u_frame sf) = 2 /\ tf_r2 (u_frame sf) = 3 /\
    tf_r3 (u_frame sf) = 4 /\ tf_sp (u_frame sf) = 0x2001ff00 /\
    tf_lr (u_frame sf) = 0x08000055 /\ u_error sf = 78.
Proof.
  assert (Hf : stack_overflow Demo.kframe = false) by reflexivity.
  assert (Hd : decode (Demo.plain 0x2001ff00) (Demo.state 0xdf00 0) =
    Call (mkSysent 0 Demo.nosys)
      (call_state (mkSysent 0 Demo.nosys)
         (expand_stack 0x2001ff00
            (syscall_enter (Demo.plain 0x2001ff00) (Demo.state 0xdf00 0)))))
    by reflexivity.
  split; [exact Hf|]. split; [exact Hd|].
  destruct (dispatcher_writes_r0_pc_psr_only _ _ _ _ _ Hf Hd)
    as [sf [Hs [H1 [H2 [H3 [H4 [H5 [H6 _]]]]]]]].
  exists sf. split; [exact Hs|].
  split; [exact H1|]. split; [exact H2|]. split; [exact H3|].
  split; [exact H4|]. split; [exact H5|exact H6].
Defined.

(** A failing call on a padded frame: carry set, padding bit kept. *)
Lemma result_encoding_keeps_status_bits_witness :
  stack_overflow Demo.kframe = false /\
  decode (Demo.padded 0x2001ff00) (Demo.state 0xdf00 0) =
    Call (mkSysent 0 Demo.nosys)
      (call_state (mkSysent 0 Demo.nosys)
         (expand_stack 0x2001ff00
            (syscall_enter (Demo.padded 0x2001ff00) (Demo.state 0xdf00 0)))) /\
  Z.land PSR_C SCB_CCR_STKALIGN_Msk = 0 /\
  exists sf,
    syscall Demo.kframe (Demo.padded 0x2001ff00) (Demo.state 0xdf00 0)
      = Return sf /\
    Z.testbit (tf_psr (u_frame sf)) 9 = true /\
    Z.testbit (tf_psr (u_frame sf)) 24 = true /\
    stkalign (u_frame sf) = 4.
Proof.
  assert (Hf : stack_overflow Demo.kframe = false) by reflexivity.
  assert (Hd : decode (Demo.padded 0x2001ff00) (Demo.state 0xdf00 0) =
    Call (mkSysent 0 Demo.nosys)
      (call_state (mkSysent 0 Demo.nosys)
         (expand_stack 0x2001ff00
            (syscall_enter (Demo.padded 0x2001ff00) (Demo.state 0xdf00 0)))))
    by reflexivity.
  assert (Hm : Z.land PSR_C SCB_CCR_STKALIGN_Msk = 0) by reflexivity.
  split; [exact Hf|]. split; [exact Hd|]. split; [exact Hm|].
  destruct (result_encoding_keeps_status_bits _ _ _ _ _ Hf Hd)
    as [sf [Hs [Hbit Hal]]].
  exists sf. split; [exact Hs|].
  split; [exact (Hbit 9 eq_refl)|].
  split; [exact (Hbit 24 eq_refl)|exact (Hal Hm)].
Defined.

(** A restarted call: [userret] gets the address of the [svc]
    instruction and the system time 42 read at entry. *)
Lemma userret_arguments_witness :
  stack_overflow Demo.kframe = false /\
  decode (Demo.plain 0x2001ff00) (Demo.state 0xdf03 0) =
    Call (mkSysent 1 Demo.interrupted)
      (call_state (mkSysent 1 Demo.interrupted)
         (expand_stack 0x2001ff00
            (syscall_enter (Demo.plain 0x2001ff00) (Demo.state 0xdf03 0)))) /\
  exists sf,
    syscall Demo.kframe (Demo.plain 0x2001ff00) (Demo.state 0xdf03 0)
      = Return sf /\
    tf_pc (u_frame sf) = 0x08000100 /\
    k_trace sf = [Ev_arm_intr_enable; Ev_led_control 1;
                  Ev_userret (tf_pc (u_frame sf)) 42; Ev_led_control 0].
Proof.
  assert (Hf : stack_overflow Demo.kframe = false) by reflexivity.
  assert (Hd : decode (Demo.plain 0x2001ff00) (Demo.state 0xdf03 0) =
    Call (mkSysent 1 Demo.interrupted)
      (call_state (mkSysent 1 Demo.interrupted)
         (expand_stack 0x2001ff00
            (syscall_enter (Demo.plain 0x2001ff00) (Demo.state 0xdf03 0)))))
    by reflexivity.
  split; [exact Hf|]. split; [exact Hd|].
  destruct (userret_arguments _ _ _ _ _ Hf Hd) as [sf [Hs [Htr [Hre _]]]].
  exists sf. split; [exact Hs|].
  split; [|exact Htr].
  apply (Hre eq_refl). simpl. lia.
Defined.

(** The same restarted call: the return address is [u_code], and the
    byte stored there selects entry 3 again. *)
Lemma restart_resumes_at_decoded_instruction_witness :
  stack_overflow Demo.kframe = false /\
  decode (Demo.plain 0x2001ff00) (Demo.state 0xdf03 0) =
    Call (mkSysent 1 Demo.interrupted)
      (call_state (mkSysent 1 Demo.interrupted)
         (expand_stack 0x2001ff00
            (syscall_enter (Demo.plain 0x2001ff00) (Demo.state 0xdf03 0)))) /\
  ERESTART <> 0 /\
  exists sf,
    syscall Demo.kframe (Demo.plain 0x2001ff00) (Demo.state 0xdf03 0)
      = Return sf /\
    tf_pc (u_frame sf) = 0x08000100 /\
    sysent_at (callp_index (k_mem (Demo.state 0xdf03 0) (tf_pc (u_frame sf))
                            mod 256))
      = Some (mkSysent 1 Demo.interrupted).
Proof.
  assert (Hf : stack_overflow Demo.kframe = false) by reflexivity.
  assert (Hd : decode (Demo.plain 0x2001ff00) (Demo.state 0xdf03 0) =
    Call (mkSysent 1 Demo.interrupted)
      (call_state (mkSysent 1 Demo.interrupted)
         (expand_stack 0x2001ff00
            (syscall_enter (Demo.plain 0x2001ff00) (Demo.state 0xdf03 0)))))
    by reflexivity.
  assert (Hne : ERESTART <> 0) by (simpl; lia).
  split; [exact Hf|]. split; [exact Hd|]. split; [exact Hne|].
  destruct (restart_resumes_at_decoded_instruction _ _ _ _ _ Hf Hd Hne
              eq_refl eq_refl) as [sf [Hs [Hpc Hent]]].
  exists sf. split; [exact Hs|]. split; [exact Hpc|exact Hent].
Defined.

(** A stack that ends at [USER_DATA_END] still does after a deeper trap. *)
Lemma expand_stack_keeps_top_witness :
  wrap32 (p_saddr (Demo.state 0 0) + p_ssize (Demo.state 0 0)) =
    wrap32 USER_DATA_END /\
  p_saddr (expand_stack 0x2001f000 (Demo.state 0 0)) = 0x2001f000 /\
  p_ssize (expand_stack 0x2001f000 (Demo.state 0 0)) = 0x1000 /\
  wrap32 (p_saddr (expand_stack 0x2001f000 (Demo.state 0 0)) +
          p_ssize (expand_stack 0x2001f000 (Demo.state 0 0))) =
    wrap32 USER_DATA_END.
Proof.
  assert (Hinv : wrap32 (p_saddr (Demo.state 0 0) + p_ssize (Demo.state 0 0)) =
                 wrap32 USER_DATA_END) by reflexivity.
  split; [exact Hinv|].
  destruct (expand_stack_keeps_top 0x2001f000 (Demo.state 0 0) Hinv)
    as [Htop _].
  split; [reflexivity|]. split; [reflexivity|exact Htop].
Defined.

(** A handler that installs a frame of its own: all words in range. *)
Lemma frame_stays_32_bit_witness :
  stack_overflow Demo.kframe = false /\
  decode (Demo.plain 0x2001ff00) (Demo.state 0xdf04 0) =
    Call (mkSysent 1 Demo.sigreturn)
      (call_state (mkSysent 1 Demo.sigreturn)
         (expand_stack 0x2001ff00
            (syscall_enter (Demo.plain 0x2001ff00) (Demo.state 0xdf04 0)))) /\
  u_int_ok PSR_C /\
  exists sf,
    syscall Demo.kframe (Demo.plain 0x2001ff00) (Demo.state 0xdf04 0)
      = Return sf /\
    frame_ok (u_frame sf).
Proof.
  assert (Hf : stack_overflow Demo.kframe = false) by reflexivity.
  assert (Hd : decode (Demo.plain 0x2001ff00) (Demo.state 0xdf04 0) =
    Call (mkSysent 1 Demo.sigreturn)
      (call_state (mkSysent 1 Demo.sigreturn)
         (expand_stack 0x2001ff00
            (syscall_enter (Demo.plain 0x2001ff00) (Demo.state 0xdf04 0)))))
    by reflexivity.
  assert (Hc : u_int_ok PSR_C) by (unfold u_int_ok; simpl; lia).
  split; [exact Hf|]. split; [exact Hd|]. split; [exact Hc|].
  apply (frame_stays_32_bit _ _ _ _ _ Hf Hd Hc).
  unfold frame_ok, u_int_ok. simpl. lia.
Defined.

(** Memory changed at 0x20010000, which the dispatcher does not read. *)
Lemma decode_reads_three_words_witness :
  DemoCpu.patched (wrap32 (tf_pc (Demo.plain 0x2001ff00) - INSN_SZ)) =
    k_mem (Demo.state 0xdf02 77)
      (wrap32 (tf_pc (Demo.plain 0x2001ff00) - INSN_SZ)) /\
  DemoCpu.patched (stack_arg_addr 32 (Demo.plain 0x2001ff00)) =
    k_mem (Demo.state 0xdf02 77) (stack_arg_addr 32 (Demo.plain 0x2001ff00)) /\
  DemoCpu.patched (stack_arg_addr 36 (Demo.plain 0x2001ff00)) =
    k_mem (Demo.state 0xdf02 77) (stack_arg_addr 36 (Demo.plain 0x2001ff00)) /\
  decode (Demo.plain 0x2001ff00)
    (set_k_mem DemoCpu.patched (Demo.state 0xdf02 77)) =
  Call (mkSysent 6 Demo.fifth)
    (set_k_mem DemoCpu.patched
       (call_state (mkSysent 6 Demo.fifth)
          (expand_stack 0x2001ff00
             (syscall_enter (Demo.plain 0x2001ff00) (Demo.state 0xdf02 77))))).
Proof.
  assert (Hc : DemoCpu.patched
                 (wrap32 (tf_pc (Demo.plain 0x2001ff00) - INSN_SZ)) =
               k_mem (Demo.state 0xdf02 77)
                 (wrap32 (tf_pc (Demo.plain 0x2001ff00) - INSN_SZ)))
    by (vm_compute; reflexivity).
  assert (H5 : DemoCpu.patched (stack_arg_addr 32 (Demo.plain 0x2001ff00)) =
               k_mem (Demo.state 0xdf02 77)
                 (stack_arg_addr 32 (Demo.plain 0x2001ff00)))
    by (vm_compute; reflexivity).
  assert (H6 : DemoCpu.patched (stack_arg_addr 36 (Demo.plain 0x2001ff00)) =
               k_mem (Demo.state 0xdf02 77)
                 (stack_arg_addr 36 (Demo.plain 0x2001ff00)))
    by (vm_compute; reflexivity).
  split; [exact Hc|]. split; [exact H5|]. split; [exact H6|].
  rewrite (decode_reads_three_words (Demo.plain 0x2001ff00)
             (Demo.state 0xdf02 77) DemoCpu.patched Hc H5 H6).
  vm_compute. reflexivity.
Defined.

(** What [syscall] hands back on a successful call made through the
    handler. *)
Lemma demo_call :
  exists sf,
    trap_call (at_call (DemoCpu.entry 0xdf01)) = Return sf /\
    u_error sf = 0 /\ u_rval sf = 7 /\
    u_frame sf =
      mkTrapframe 7 2 3 4 0x2001ff00 0x08000055 0x08000102 0x01000000 /\
    load_words sf 0x20000420 8 =
      load_words (kern (at_call (DemoCpu.entry 0xdf01))) 0x20000420 8.
Proof.
  assert (H : match trap_call (at_call (DemoCpu.entry 0xdf01)) with
              | Return sf =>
                  u_error sf = 0 /\ u_rval sf = 7 /\
                  u_frame sf =
                    mkTrapframe 7 2 3 4 0x2001ff00 0x08000055 0x08000102
                                0x01000000 /\
                  load_words sf 0x20000420 8 =
                    load_words (kern (at_call (DemoCpu.entry 0xdf01)))
                               0x20000420 8
              | _ => False
              end)
    by (vm_compute; repeat split).
  destruct (trap_call (at_call (DemoCpu.entry 0xdf01))) as [msg| |sf];
    [contradiction|contradiction|].
  exists sf. split; [reflexivity|exact H].
Defined.

(** The stack pointers of the demonstration processor. *)
Lemma demo_entry_ok (insn : Z) : entry_ok (DemoCpu.entry insn).
Proof. unfold entry_ok. cbn [MSP PSP DemoCpu.entry]. repeat split; lia. Defined.

(** A trap with [PSP] on the kernel stack: [r8] comes back holding
    [PSP], 0x20000420, not the 108 it held. *)
Lemma pendsv_fault_on_kernel_stack_witness :
  entry_ok DemoCpu.aliased /\
  PSP DemoCpu.aliased = MSP DemoCpu.aliased - 32 /\
  stack_overflow (MSP DemoCpu.aliased - 64) = false /\
  PSP DemoCpu.aliased < data_end (kern DemoCpu.aliased) /\
  gpr DemoCpu.aliased 8%nat = 108 /\
  exists c',
    PendSV_Handler DemoCpu.scratch DemoCpu.aliased = Resumed c' /\
    gpr c' 7%nat = 107 /\ gpr c' 8%nat = 0x20000420 /\ gpr c' 9%nat = 109 /\
    load_words (kern c') 0x20000420 8 =
      [104; 105; 106; 107; 0x20000420; 109; 110; 111].
Proof.
  assert (Hok : entry_ok DemoCpu.aliased)
    by (unfold entry_ok; cbn [MSP PSP DemoCpu.aliased DemoCpu.entry];
        repeat split; lia).
  assert (Heq : PSP DemoCpu.aliased = MSP DemoCpu.aliased - 32)
    by reflexivity.
  assert (Hf : stack_overflow (MSP DemoCpu.aliased - 64) = false)
    by reflexivity.
  assert (Hlt : PSP DemoCpu.aliased < data_end (kern DemoCpu.aliased))
    by reflexivity.
  split; [exact Hok|]. split; [exact Heq|]. split; [exact Hf|].
  split; [exact Hlt|]. split; [reflexivity|].
  destruct (pendsv_fault_on_kernel_stack DemoCpu.scratch DemoCpu.aliased
              Hok Heq Hf Hlt)
    as (c' & Hres & _ & _ & Hregs & Hw).
  exists c'. split; [exact Hres|].
  pose proof (eq_trans Hw Hregs) as Hl.
  cbn [map] in Hregs. injection Hregs as _ _ _ H7 H8 H9 _ _.
  split; [exact H7|]. split; [exact H8|]. split; [exact H9|exact Hl].
Defined.

(** A successful call: [r4]-[r11], [MSP] and [lr] after the handler. *)
Lemma pendsv_restores_callee_saved_witness :
  entry_ok (DemoCpu.entry 0xdf01) /\
  exists sf,
    trap_call (at_call (DemoCpu.entry 0xdf01)) = Return sf /\
    aligned (wrap32 (tf_sp (u_frame sf))) = true /\
    load_words sf (MSP (DemoCpu.entry 0xdf01) - 32) 8 =
      load_words (kern (at_call (DemoCpu.entry 0xdf01)))
                 (MSP (DemoCpu.entry 0xdf01) - 32) 8 /\
    apart (wrap32 (tf_sp (u_frame sf))) (MSP (DemoCpu.entry 0xdf01) - 32) /\
    exists c',
      PendSV_Handler DemoCpu.scratch (DemoCpu.entry 0xdf01) = Resumed c' /\
      map (gpr c') [4; 5; 6; 7; 8; 9; 10; 11]%nat =
        [104; 105; 106; 107; 108; 109; 110; 111] /\
      MSP c' = 0x20000440 /\ LR c' = 0xfffffffd.
Proof.
  pose proof (demo_entry_ok 0xdf01) as Hok.
  split; [exact Hok|].
  destruct demo_call as (sf & Hcall & _ & _ & Hfr & Hkept).
  exists sf. split; [exact Hcall|].
  assert (Hal : aligned (wrap32 (tf_sp (u_frame sf))) = true)
    by (rewrite Hfr; reflexivity).
  assert (Hsep : apart (wrap32 (tf_sp (u_frame sf)))
                       (MSP (DemoCpu.entry 0xdf01) - 32))
    by (rewrite Hfr; change (apart 0x2001ff00 0x20000420); unfold apart; lia).
  split; [exact Hal|]. split; [exact Hkept|]. split; [exact Hsep|].
  destruct (pendsv_restores_callee_saved DemoCpu.scratch _ sf
              Hok Hcall Hal Hkept Hsep)
    as (c' & Hres & Hregs & _ & Hmsp & Hlr).
  exists c'. split; [exact Hres|]. split; [exact Hregs|].
  split; [exact Hmsp|exact Hlr].
Defined.


(** A trap with [PSP] in the data segment. *)
Lemma pendsv_fault_keeps_user_frame_witness :
  entry_ok DemoCpu.faulting /\
  apart (PSP DemoCpu.faulting) (MSP DemoCpu.faulting - 32) /\
  stack_overflow (MSP DemoCpu.faulting - 64) = false /\
  PSP DemoCpu.faulting < data_end (kern DemoCpu.faulting) /\
  exists c',
    PendSV_Handler DemoCpu.scratch DemoCpu.faulting = Resumed c' /\
    PSP c' = 0x20005f00 /\
    load_words (kern c') 0x20005f00 8 = [0; 0; 0; 0; 0x20005f00; 0; 0; 0] /\
    gpr c' 8%nat = 108.
Proof.
  assert (Hok : entry_ok DemoCpu.faulting)
    by (unfold entry_ok; cbn [MSP PSP DemoCpu.faulting DemoCpu.entry];
        repeat split; lia).
  assert (Hsep : apart (PSP DemoCpu.faulting) (MSP DemoCpu.faulting - 32))
    by (unfold apart; cbn [MSP PSP DemoCpu.faulting DemoCpu.entry]; lia).
  assert (Hf : stack_overflow (MSP DemoCpu.faulting - 64) = false)
    by reflexivity.
  assert (Hlt : PSP DemoCpu.faulting < data_end (kern DemoCpu.faulting))
    by reflexivity.
  split; [exact Hok|]. split; [exact Hsep|]. split; [exact Hf|].
  split; [exact Hlt|].
  destruct (pendsv_fault_keeps_user_frame DemoCpu.scratch DemoCpu.faulting
              Hok Hsep Hf Hlt)
    as (c' & Hres & Hpsp & Hw & Hregs & _).
  exists c'. split; [exact Hres|]. split; [exact Hpsp|].
  split; [exact Hw|].
  cbn [map] in Hregs. injection Hregs as _ _ _ _ H8 _ _ _. exact H8.
Defined.

(** The successful call again: 7 at [PSP], carry clear seven words up. *)
Lemma pendsv_success_return_value_witness :
  entry_ok (DemoCpu.entry 0xdf01) /\
  data_end (kern (DemoCpu.entry 0xdf01)) <= PSP (DemoCpu.entry 0xdf01) /\
  exists sf,
    trap_call (at_call (DemoCpu.entry 0xdf01)) = Return sf /\
    u_error sf = 0 /\
    aligned (wrap32 (tf_sp (u_frame sf))) = true /\
    exists c',
      PendSV_Handler DemoCpu.scratch (DemoCpu.entry 0xdf01) = Resumed c' /\
      load32 (kern c') (PSP c') = 7 /\
      Z.land (load32 (kern c') (wrap32 (PSP c' + 28))) PSR_C = 0.
Proof.
  pose proof (demo_entry_ok 0xdf01) as Hok.
  assert (Hge : data_end (kern (DemoCpu.entry 0xdf01)) <=
                PSP (DemoCpu.entry 0xdf01)) by (vm_compute; discriminate).
  split; [exact Hok|]. split; [exact Hge|].
  destruct demo_call as (sf & Hcall & He & Hrv & Hfr & _).
  exists sf. split; [exact Hcall|]. split; [exact He|].
  assert (Hal : aligned (wrap32 (tf_sp (u_frame sf))) = true)
    by (rewrite Hfr; reflexivity).
  split; [exact Hal|].
  destruct (pendsv_success_return_value DemoCpu.scratch _ sf
              Hok Hge Hcall He Hal)
    as (c' & Hres & _ & Hw0 & Hw7).
  exists c'. split; [exact Hres|].
  split; [rewrite Hw0, Hrv; reflexivity|exact Hw7].
Defined.

End MoreEvaluation.
